(** * Basic-auth middleware and error handler of the gateway

    Shallow embedding of [mw_basic_auth.go] (credential extraction, identity
    resolution, bcrypt verification behind the murmur3 fingerprint cache) and
    of [gateway/handler_error.go] (error template selection, analytics record
    path and expiry), followed by the properties proved about them.

    Go strings are byte sequences: they are [string] here (a list of 8-bit
    [ascii]).  Go maps are [gmap].  Go's machine integers are [Z] with the
    wrap-around of the operation written out where one happens.

    The middleware is parametrised by the two hashes it calls.  The hasher
    of [murmur3.New64] and [bcrypt.CompareHashAndPassword] are embedded as
    well, so that the middleware can be run on them. *)

From Stdlib Require Import ZArith Ascii String List Lia.
From stdpp Require Import base option strings gmap nmap list pretty.

Open Scope string_scope.
Open Scope Z_scope.

(** ** Package [strings] of the Go library, for one-byte separators *)

Module GoStrings.

(** [strings.Split(s, sep)] for a separator of one byte: the fields between
    the occurrences of [sep], one more than there are occurrences. *)
Fixpoint Split (sep : ascii) (s : string) : list string :=
  match s with
  | EmptyString => [EmptyString]
  | String a rest =>
      if Ascii.eqb a sep then EmptyString :: Split sep rest
      else match Split sep rest with
           | [] => [String a EmptyString]
           | field :: fields => String a field :: fields
           end
  end.

(** Number of occurrences of a byte, [strings.Count] for one-byte [sep]. *)
Fixpoint Count (sep : ascii) (s : string) : nat :=
  match s with
  | EmptyString => 0%nat
  | String a rest => ((if Ascii.eqb a sep then 1 else 0) + Count sep rest)%nat
  end.

(** [strings.HasPrefix(s, prefix)]. *)
Definition HasPrefix (s pre : string) : bool := String.prefix pre s.

(** [strings.TrimPrefix(s, prefix)]: [s] without the leading [prefix], [s]
    itself when it does not start with [prefix]. *)
Definition TrimPrefix (s pre : string) : string :=
  if HasPrefix s pre
  then String.substring (String.length pre)
                        (String.length s - String.length pre)%nat s
  else s.

(** the number that the bytes of a string spell, least significant first *)
Fixpoint littleEndian (s : string) : N :=
  match s with
  | EmptyString => 0%N
  | String a rest => (N_of_ascii a + 256 * littleEndian rest)%N
  end.

End GoStrings.

(** ** [encoding/base64], [StdEncoding]

    The standard alphabet of RFC 4648 with [=] padding.  The decoder of the Go
    library skips carriage returns and line feeds wherever they stand, wants
    full quanta of four characters, accepts padding only in the last quantum
    (in its third and fourth, or in its fourth place) and nothing behind it. *)

Module Base64.

Definition encodeStd : string :=
  "ABCDEFGHIJKLMNOPQRSTUVWXYZabcdefghijklmnopqrstuvwxyz0123456789+/".

Definition padChar : ascii := "="%char.

(** [enc.encode[i]] *)
Definition encodeChar (i : N) : ascii :=
  match String.get (N.to_nat i) encodeStd with
  | Some c => c
  | None => padChar
  end.

(** position of a byte in a string, from [from] on *)
Fixpoint indexFrom (from : N) (c : ascii) (s : string) : option N :=
  match s with
  | EmptyString => None
  | String a rest =>
      if Ascii.eqb a c then Some from else indexFrom (N.succ from) c rest
  end.

(** [enc.decodeMap[c]], [None] where the map holds 0xff *)
Definition decodeMap (c : ascii) : option N := indexFrom 0 c encodeStd.

Definition byte (n : N) : ascii := ascii_of_N (n mod 256).

(** [EncodeToString]: three bytes give four characters; one or two bytes
    left over give two or three characters and padding. *)
Fixpoint EncodeToString (src : string) : string :=
  match src with
  | EmptyString => EmptyString
  | String a EmptyString =>
      let val := N.shiftl (N_of_ascii a) 16 in
      String (encodeChar (N.land (N.shiftr val 18) 63))
        (String (encodeChar (N.land (N.shiftr val 12) 63))
           (String padChar (String padChar EmptyString)))
  | String a (String b EmptyString) =>
      let val := N.lor (N.shiftl (N_of_ascii a) 16) (N.shiftl (N_of_ascii b) 8) in
      String (encodeChar (N.land (N.shiftr val 18) 63))
        (String (encodeChar (N.land (N.shiftr val 12) 63))
           (String (encodeChar (N.land (N.shiftr val 6) 63))
              (String padChar EmptyString)))
  | String a (String b (String c rest)) =>
      let val := N.lor (N.lor (N.shiftl (N_of_ascii a) 16)
                              (N.shiftl (N_of_ascii b) 8)) (N_of_ascii c) in
      String (encodeChar (N.land (N.shiftr val 18) 63))
        (String (encodeChar (N.land (N.shiftr val 12) 63))
           (String (encodeChar (N.land (N.shiftr val 6) 63))
              (String (encodeChar (N.land val 63)) (EncodeToString rest))))
  end.

Definition isNewline (c : ascii) : bool :=
  Ascii.eqb c "010"%char || Ascii.eqb c "013"%char.

Fixpoint dropNewlines (s : string) : string :=
  match s with
  | EmptyString => EmptyString
  | String a rest =>
      if isNewline a then dropNewlines rest else String a (dropNewlines rest)
  end.

(** the bytes of one quantum of [dlen] characters whose values are given *)
Definition quantumBytes (dlen : nat) (d0 d1 d2 d3 : N) : string :=
  let val := N.lor (N.lor (N.lor (N.shiftl d0 18) (N.shiftl d1 12))
                          (N.shiftl d2 6)) d3 in
  let b0 := byte (N.shiftr val 16) in
  let b1 := byte (N.shiftr val 8) in
  let b2 := byte val in
  match dlen with
  | 4%nat => String b0 (String b1 (String b2 EmptyString))
  | 3%nat => String b0 (String b1 EmptyString)
  | _ => String b0 EmptyString
  end.

(** the quanta of an input without newlines *)
Fixpoint decodeQuanta (src : string) : option string :=
  match src with
  | EmptyString => Some EmptyString
  | String a (String b (String c (String d rest))) =>
      match decodeMap a, decodeMap b with
      | Some d0, Some d1 =>
          if Ascii.eqb c padChar then
            if Ascii.eqb d padChar && String.eqb rest EmptyString
            then Some (quantumBytes 2 d0 d1 0 0)
            else None
          else
            match decodeMap c with
            | None => None
            | Some d2 =>
                if Ascii.eqb d padChar then
                  if String.eqb rest EmptyString
                  then Some (quantumBytes 3 d0 d1 d2 0)
                  else None
                else
                  match decodeMap d, decodeQuanta rest with
                  | Some d3, Some tail =>
                      Some (quantumBytes 4 d0 d1 d2 d3 +:+ tail)
                  | _, _ => None
                  end
            end
      | _, _ => None
      end
  | _ => None
  end.

(** [DecodeString]; [None] is a [CorruptInputError]. *)
Definition DecodeString (s : string) : option string :=
  decodeQuanta (dropNewlines s).

(** the characters an encoding is made of: no newline, no space *)
Definition plain (c : ascii) : Prop :=
  isNewline c = false /\ Ascii.eqb c " " = false.

Fixpoint allPlain (s : string) : Prop :=
  match s with
  | EmptyString => True
  | String c rest => plain c /\ allPlain rest
  end.

End Base64.

(** ** Package [time]: durations and instants *)

Module GoTime.

(** the value an [int64] holds after an operation whose exact result is [z] *)
Definition wrap64 (z : Z) : Z := (z + 2 ^ 63) mod 2 ^ 64 - 2 ^ 63.

(** [time.Duration]: an [int64] count of nanoseconds *)
Definition Duration := Z.

Definition Nanosecond : Duration := 1.
Definition Second : Duration := 1000000000.
Definition Minute : Duration := 60 * Second.
Definition Hour : Duration := 60 * Minute.

(** product of two durations, as the [*] of [int64] *)
Definition mul (a b : Duration) : Duration := wrap64 (a * b).

(** [time.Time] as nanoseconds since the Unix epoch; its range is wider
    than that of [Duration], so the sum below does not wrap. *)
Definition Time := Z.

Definition Add (t : Time) (d : Duration) : Time := t + d.

(** [t.Unix()]: whole seconds since the epoch *)
Definition Unix (t : Time) : Z := t / 1000000000.

End GoTime.

(** ** [go-cache]: an expiring in-memory key/value store *)

Module GoCache.

(** an item and the instant after which it is no longer returned;
    [None] is an item that never expires *)
Record Item := mkItem { Object : string; Expiration : option GoTime.Time }.

Record Cache := mkCache {
  defaultExpiration : GoTime.Duration;
  items : gmap string Item
}.

(** [cache.New(defaultExpiration, cleanupInterval)] *)
Definition New (d : GoTime.Duration) : Cache :=
  {| defaultExpiration := d; items := ∅ |}.

(** [c.Set(k, x, d)] ([Set] is taken in Rocq) at instant [now]: a duration of 0 stands for the
    default expiration of the cache, a negative one for no expiration.  The
    expiry is kept as the instant [now.Add(d)].  go-cache keeps its
    [UnixNano], an [int64]: an expiry past the last instant of an [int64]
    wraps to a negative one there, which is no expiration; [Get] reads an
    [int64] clock, which never passes such an instant either. *)
Definition Set' (c : Cache) (k : string) (x : string) (d : GoTime.Duration)
           (now : GoTime.Time) : Cache :=
  let d := if d =? 0 then defaultExpiration c else d in
  let e := if 0 <? d then Some (GoTime.Add now d) else None in
  {| defaultExpiration := defaultExpiration c;
     items := <[k := mkItem x e]> (items c) |}.

(** [c.Get(k)] at instant [now]: the object, unless absent or expired *)
Definition Get (c : Cache) (k : string) (now : GoTime.Time) : option string :=
  match items c !! k with
  | None => None
  | Some it =>
      match Expiration it with
      | Some e => if e <? now then None else Some (Object it)
      | None => Some (Object it)
      end
  end.

End GoCache.

(** ** [net/http]: header maps

    [http.Header] is a [map[string][]string].  All accesses below go through
    [Get], [Set] (here [Set']), [Add] and [Del], which canonicalise the key in the same way,
    so a key stands for its canonical form. *)

Module Http.

Abbreviation Header := (gmap string (list string)).

Definition Get (h : Header) (key : string) : string :=
  match h !! key with
  | Some (v :: _) => v
  | _ => EmptyString
  end.

Definition Set' (h : Header) (key value : string) : Header :=
  <[key := [value]]> h.

Definition Add (h : Header) (key value : string) : Header :=
  <[key := (default [] (h !! key) ++ [value])%list]> h.

Definition Del (h : Header) (key : string) : Header := delete key h.

(** whether the header carries at least one value under [key] *)
Definition Has (h : Header) (key : string) : bool :=
  match h !! key with
  | Some (_ :: _) => true
  | _ => false
  end.

Definition StatusOK : Z := 200.
Definition StatusBadRequest : Z := 400.
Definition StatusUnauthorized : Z := 401.
Definition StatusForbidden : Z := 403.

End Http.

(** ** Data shared by the two files *)

(** a Go [error] made by [errors.New]: its message *)
Definition error := string.

(** [user.HashType].  Its declaration is in package [user]; a Go
    named type holds values beyond its declared constants, which are kept
    here as [HashOther]. *)
Inductive HashType :=
| HashPlainText
| HashBCrypt
| HashOther (name : string).

(** [apidef.AuthTypeEnum], in the same way *)
Inductive AuthTypeEnum :=
| BasicAuthUser
| UnsetAuth
| OtherAuth (name : string).

Record BasicAuthData := mkBasicAuthData {
  Password : string;
  Hash : HashType
}.

(** [user.SessionState], the fields the two files read *)
Record SessionState := mkSessionState {
  SessionBasicAuthData : BasicAuthData;
  OauthClientID : string;
  Alias : string;
  Tags : list string
}.

(** [http.Request], the fields the two files read or write *)
Record Request := mkRequest {
  ReqHeader : Http.Header;
  ReqBody : string;
  Method : string;
  URLPath : string;
  URLHost : string;
  ContentLength : Z
}.

(** [apidef.APIDefinition.BasicAuth] *)
Record BasicAuthConf := mkBasicAuthConf {
  DisableCaching : bool;
  CacheTTL : Z;
  ExtractFromBody : bool
}.

(** the parts of [config.Config] read through [GlobalConfig] and
    [config.Global()] *)
Record Config := mkConfig {
  HashKeyFunction : string;
  HideGeneratorHeader : bool;
  CloseConnections : bool;
  EnforceOrgDataAge : bool;
  StoreAnalytics : string -> bool
}.

(** [APISpec], the fields the two files read *)
Record APISpec := mkAPISpec {
  Name : string;
  APIID : string;
  OrgID : string;
  BasicAuth : BasicAuthConf;
  BaseIdentityProvidedBy : AuthTypeEnum;
  GlobalConfig : Config;
  DoNotTrack : bool;
  ProxyStripListenPath : bool;
  TagHeaders : list string;
  ExpireAnalyticsAfter : Z;
  targetHost : option string
}.

(** ** [mw_basic_auth.go] *)

Module BasicAuth.

Inductive Level := Debug | Info | Warn | Error.

Inductive HealthPrefix := KeyFailure | BlockedRequestLog.

(** what the middleware does to its collaborators, in order *)
Inductive Event :=
| Log (level : Level) (msg : string)
| BcryptCompare (hashedPassword password : string)
| SessionLookup (keyName : string)
| AuthFailed (token : string)
| HealthValue (metric : HealthPrefix) (value : string).

(** a compiled [regexp.Regexp], through the one method used on it:
    [FindAllSubmatch(body, 1)] *)
Definition Regexp := string -> list (list string).

(** [BasicAuthKeyIsValid] with the [BaseMiddleware] it embeds: the
    specification of the API and the session lookup *)
Record BasicAuthKeyIsValid := mkBasicAuthKeyIsValid {
  Spec : APISpec;
  CheckSessionAndIdentityForValidKey : string -> Request -> option SessionState;
  bodyUserRegexp : Regexp;
  bodyPasswordRegexp : Regexp
}.

(** the mutable surroundings of one call: the header map of the response
    writer, the package-level [basicAuthCache], the session set on the
    request context and the calls made so far *)
Record World := mkWorld {
  respHeader : Http.Header;
  basicAuthCache : GoCache.Cache;
  ctxSession : option (SessionState * string);
  trace : list Event
}.

Definition M (A : Type) : Type := World -> A * World.

#[global] Instance M_ret : MRet M := fun A (a : A) w => (a, w).
#[global] Instance M_bind : MBind M :=
  fun A B (f : A -> M B) (m : M A) w => let '(a, w') := m w in f a w'.

Definition emit (e : Event) : M unit :=
  fun w => (tt, mkWorld (respHeader w) (basicAuthCache w) (ctxSession w)
                        (trace w ++ [e])%list).

Definition onHeader (f : Http.Header -> Http.Header) : M unit :=
  fun w => (tt, mkWorld (f (respHeader w)) (basicAuthCache w) (ctxSession w)
                        (trace w)).

Definition onCache (f : GoCache.Cache -> GoCache.Cache) : M unit :=
  fun w => (tt, mkWorld (respHeader w) (f (basicAuthCache w)) (ctxSession w)
                        (trace w)).

Definition readCache : M GoCache.Cache := fun w => (basicAuthCache w, w).

(** [ctxSetSession(r, &session, keyName, false)] *)
Definition ctxSetSession (s : SessionState) (keyName : string) : M unit :=
  fun w => (tt, mkWorld (respHeader w) (basicAuthCache w) (Some (s, keyName))
                        (trace w)).

(** [defaultBasicAuthTTL = time.Duration(60) * time.Second] *)
Definition defaultBasicAuthTTL : GoTime.Duration := GoTime.mul 60 GoTime.Second.

(** [basicAuthCache = cache.New(60*time.Second, 60*time.Minute)] *)
Definition newBasicAuthCache : GoCache.Cache :=
  GoCache.New (GoTime.mul 60 GoTime.Second).

Definition quote : string := String "034"%char EmptyString.

(** username, password, err, code: the named results of the extractors *)
Definition Credentials : Type := string * string * option error * Z.

(** a world after further calls *)
Definition logged (w : World) (events : list Event) : World :=
  mkWorld (respHeader w) (basicAuthCache w) (ctxSession w)
          (trace w ++ events)%list.

(** the middleware with another session lookup *)
Definition withLookup (k : BasicAuthKeyIsValid)
           (lookup : string -> Request -> option SessionState)
  : BasicAuthKeyIsValid :=
  mkBasicAuthKeyIsValid (Spec k) lookup (bodyUserRegexp k) (bodyPasswordRegexp k).

(** the error among the results of an extractor *)
Definition credErr (c : Credentials) : option error := snd (fst c).

(** what the caller, the client and the following requests get from a call
    of [ProcessRequest]: its results, the header map of the response, the
    cache, and the session set on the context *)
Definition outcome (res : (option error * Z) * World)
  : (option error * Z) * Http.Header * GoCache.Cache * option SessionState :=
  (fst res, respHeader (snd res), basicAuthCache (snd res),
   fst <$> ctxSession (snd res)).

(** the slow comparisons among the calls of a trace *)
Fixpoint slowCalls (t : list Event) : list (string * string) :=
  match t with
  | [] => []
  | BcryptCompare h p :: rest => (h, p) :: slowCalls rest
  | _ :: rest => slowCalls rest
  end.

(** the session lookups among the calls of a trace *)
Fixpoint lookups (t : list Event) : list string :=
  match t with
  | [] => []
  | SessionLookup key :: rest => key :: lookups rest
  | _ :: rest => lookups rest
  end.

Section Middleware.

(** [bcrypt.CompareHashAndPassword]; [None] is a nil error *)
Variable bcrypt_CompareHashAndPassword : string -> string -> option error.
(** [murmur3.New64()], [Write(p)], [string(Sum(nil))] *)
Variable murmur3_Sum64 : string -> string.
(** [generateToken(orgID, keyID)] *)
Variable generateToken : string -> string -> string.
(** [storage.GenerateToken(orgID, keyID, hashAlgorithm)], its first result *)
Variable storage_GenerateToken : string -> string -> string -> string.
(** [config.Global()] *)
Variable globalConf : Config.

Variable k : BasicAuthKeyIsValid.

(** the slow comparison, and the record that it ran *)
Definition bcryptCompare (hashedPassword password : string)
  : M (option error) :=
  emit (BcryptCompare hashedPassword password);;
  mret (bcrypt_CompareHashAndPassword hashedPassword password).

(** the challenge [Basic realm="<name>"] *)
Definition authReply : string :=
  "Basic realm=" +:+ quote +:+ Name (Spec k) +:+ quote.

Definition requestForBasicAuth (msg : string) : M (option error * Z) :=
  onHeader (fun h => Http.Add h "WWW-Authenticate" authReply);;
  mret (Some msg, Http.StatusUnauthorized).

Definition basicAuthHeaderCredentials (r : Request) : M Credentials :=
  let token := Http.Get (ReqHeader r) "Authorization" in
  if String.eqb token EmptyString then
    emit (Log Info "Attempted access with malformed header, no auth header found.");;
    '(err, code) ← requestForBasicAuth "Authorization field missing";
    mret (EmptyString, EmptyString, err, code)
  else
    let bits := GoStrings.Split " " token in
    match bits with
    | [_; bits1] =>
        match Base64.DecodeString bits1 with
        | None =>
            emit (Log Info "Base64 Decoding failed of basic auth data: ");;
            mret (EmptyString, EmptyString,
                  Some "Attempted access with malformed header, auth data not encoded correctly",
                  Http.StatusBadRequest)
        | Some authvaluesStr =>
            let authValues := GoStrings.Split ":" authvaluesStr in
            match authValues with
            | [username; password] => mret (username, password, None, 0)
            | _ =>
                emit (Log Info "Attempted access with malformed header, values not in basic auth format.");;
                mret (EmptyString, EmptyString,
                      Some "Attempted access with malformed header, values not in basic auth format",
                      Http.StatusBadRequest)
            end
        end
    | _ =>
        emit (Log Info "Attempted access with malformed header, header not in basic auth format.");;
        mret (EmptyString, EmptyString,
              Some "Attempted access with malformed header, header not in basic auth format",
              Http.StatusBadRequest)
    end.

Definition basicAuthBodyCredentials (r : Request) : M Credentials :=
  let body := ReqBody r in
  match bodyUserRegexp k body with
  | [] => mret (EmptyString, EmptyString,
                Some "Body do not contain username", Http.StatusBadRequest)
  | userMatch0 :: _ =>
      match userMatch0 with
      | _ :: userMatch01 :: _ =>
          match bodyPasswordRegexp k body with
          | [] => mret (EmptyString, EmptyString,
                        Some "Body do not contain password", Http.StatusBadRequest)
          | passMatch0 :: _ =>
              match passMatch0 with
              | _ :: passMatch01 :: _ =>
                  mret (userMatch01, passMatch01, None, 0)
              | _ => mret (EmptyString, EmptyString,
                           Some "password should be inside regexp match group",
                           Http.StatusBadRequest)
              end
          end
      | _ => mret (EmptyString, EmptyString,
                   Some "username should be inside regexp match group",
                   Http.StatusBadRequest)
      end
  end.

Definition handleAuthFail (r : Request) (token : string)
  : M (option error * Z) :=
  emit (AuthFailed token);;
  emit (HealthValue KeyFailure "-1");;
  requestForBasicAuth "User not authorised".

Definition doBcryptWithCache (cacheDuration : GoTime.Duration)
           (hashedPassword password : string) (now : GoTime.Time)
  : M (option error) :=
  err ← bcryptCompare hashedPassword password;
  match err with
  | Some e => mret (Some e)
  | None =>
      onCache (fun c => GoCache.Set' c hashedPassword (murmur3_Sum64 password)
                                     cacheDuration now);;
      mret None
  end.

(** the [cacheTTL] of [compareHashAndPassword] *)
Definition cacheTTL : GoTime.Duration :=
  if 0 <? CacheTTL (BasicAuth (Spec k))
  then GoTime.mul (CacheTTL (BasicAuth (Spec k))) GoTime.Second
  else defaultBasicAuthTTL.

Definition compareHashAndPassword (hash password : string)
           (now : GoTime.Time) : M (option error) :=
  let cacheEnabled := negb (DisableCaching (BasicAuth (Spec k))) in
  if negb cacheEnabled then
    emit (Log Debug "cache disabled");;
    bcryptCompare hash password
  else
    c ← readCache;
    match GoCache.Get c hash now with
    | None =>
        emit (Log Debug "cache enabled: miss: bcrypt");;
        doBcryptWithCache cacheTTL hash password now
    | Some cachedPass =>
        if negb (String.eqb cachedPass (murmur3_Sum64 password)) then
          emit (Log Warn "cache enabled: hit: failed auth: bcrypt");;
          bcryptCompare hash password
        else
          emit (Log Debug "cache enabled: hit: success");;
          mret None
    end.

(** [k.CheckSessionAndIdentityForValidKey(keyName, r)], recorded *)
Definition checkSession (keyName : string) (r : Request)
  : M (option SessionState) :=
  emit (SessionLookup keyName);;
  mret (CheckSessionAndIdentityForValidKey k keyName r).

(** the part of [ProcessRequest] after the session is resolved: the
    switch on the hash kind and the binding of the session *)
Definition checkPasswordAndBind (r : Request) (token : string)
           (session : SessionState) (keyName password : string)
           (now : GoTime.Time) : M (option error * Z) :=
  let bind : M (option error * Z) :=
    match BaseIdentityProvidedBy (Spec k) with
    | BasicAuthUser | UnsetAuth => ctxSetSession session keyName
    | OtherAuth _ => mret tt
    end;;
    mret (None, Http.StatusOK) in
  match Hash (SessionBasicAuthData session) with
  | HashBCrypt =>
      err ← compareHashAndPassword (Password (SessionBasicAuthData session))
                                   password now;
      match err with
      | Some _ =>
          emit (Log Warn "Attempted access with existing user, failed password check.");;
          handleAuthFail r token
      | None => bind
      end
  | HashPlainText =>
      if negb (String.eqb (Password (SessionBasicAuthData session)) password)
      then
        emit (Log Warn "Attempted access with existing user, failed password check.");;
        handleAuthFail r token
      else bind
  | HashOther _ => bind
  end.

(** the first statements of [ProcessRequest]: the header, and the body
    when the header fails and extraction from the body is configured *)
Definition extractCredentials (r : Request) : M Credentials :=
  '(username, password, err, code) ← basicAuthHeaderCredentials r;
  match err with
  | Some _ =>
      if ExtractFromBody (BasicAuth (Spec k)) then
        onHeader (fun h => Http.Del h "WWW-Authenticate");;
        basicAuthBodyCredentials r
      else mret (username, password, err, code)
  | None => mret (username, password, err, code)
  end.

Definition ProcessRequest (r : Request) (now : GoTime.Time)
  : M (option error * Z) :=
  '(username, password, err, code) ← extractCredentials r;
  let token := Http.Get (ReqHeader r) "Authorization" in
  match err with
  | Some e => mret (Some e, code)
  | None =>
      let keyName := generateToken (OrgID (Spec k)) username in
      found ← checkSession keyName r;
      match found with
      | Some session =>
          checkPasswordAndBind r token session keyName password now
      | None =>
          if String.eqb (HashKeyFunction globalConf) EmptyString then
            emit (Log Warn "Attempted access with non-existent user.");;
            handleAuthFail r token
          else
            emit (Log Info "Could not find user, falling back to legacy format key.");;
            let legacyKeyName :=
              GoStrings.TrimPrefix username (OrgID (Spec k)) in
            let keyName :=
              storage_GenerateToken (OrgID (Spec k)) legacyKeyName EmptyString in
            found ← checkSession keyName r;
            match found with
            | Some session =>
                checkPasswordAndBind r token session keyName password now
            | None =>
                emit (Log Warn "Attempted access with non-existent user.");;
                handleAuthFail r token
            end
      end
  end.

End Middleware.

End BasicAuth.

(** ** [gateway/handler_error.go] *)

Module ErrorHandler.

(** Modelled from the spec: [headers.ContentType], a name of package
    [headers], which [handler_error.go] imports.  The spec's HTTP-level
    contract has responses carry [Content-Type]. *)
Definition ContentType : string := "Content-Type".

(** Modelled from the spec: [headers.ApplicationJSON], the media type
    [application/json] of the spec's HTTP-level contract. *)
Definition ApplicationJSON : string := "application/json".

(** Modelled from the spec: [headers.ApplicationXML], the media type
    [application/xml] of the spec's HTTP-level contract. *)
Definition ApplicationXML : string := "application/xml".

Definition defaultTemplateName : string := "error".
Definition defaultTemplateFormat : string := "json".
Definition defaultContentType : string := ApplicationJSON.

(** [strconv.Itoa] *)
Definition Itoa (n : Z) : string := pretty n.

(** the value an [int32] holds after a conversion from [z] *)
Definition wrap32 (z : Z) : Z := (z + 2 ^ 31) mod 2 ^ 32 - 2 ^ 31.

(** [pb.AnalyticsRecord], the fields [HandleError] fills with something
    other than an empty message *)
Record AnalyticsRecord := mkAnalyticsRecord {
  RecMethod : string;
  RecHost : string;
  RecPath : string;
  RawPath : string;
  RecContentLength : Z;
  UserAgentOf : string;
  Day : Z;
  Month : Z;
  Year : Z;
  Hour : Z;
  ResponseCode : Z;
  APIKey : string;
  TimeStamp : Z;
  APIVersion : string;
  APIName : string;
  RecAPIID : string;
  RecOrgID : string;
  RequestTime : Z;
  RawRequest : string;
  RawResponse : string;
  IPAddress : string;
  RecTags : list string;
  RecAlias : string;
  TrackPath : bool;
  ExpireAt : Z
}.

(** the readings of [time.Now()] in one call, in the order they are taken:
    [t] of the analytics branch, the time stamp of the record, and the [t]
    of [calcExpiry] *)
Record Clock := mkClock {
  nowRecord : GoTime.Time;
  nowStamp : GoTime.Time;
  nowExpiry : GoTime.Time
}.

Section Handler.

(** [*template.Template] *)
Context {Template : Type}.

(** what [HandleError] calls and does not define *)
Record Collaborators := mkCollaborators {
  (** the package-level [templates], through [Lookup] *)
  templates : gmap string Template;
  (** [template.JSEscapeString] *)
  JSEscapeString : string -> string;
  ctxGetAuthToken : Request -> string;
  RealIP : Request -> string;
  addVersionHeader : Http.Header -> Request -> Config -> Http.Header;
  getVersionFromRequest : Request -> string;
  StripListenPath : Request -> string -> string;
  ctxGetSession : Request -> option SessionState;
  getSessionTags : SessionState -> list string;
  tagHeaders : Request -> list string -> list string -> list string;
  recordDetail : Request -> bool;
  (** [r.Write(&buf)] then [base64.StdEncoding.EncodeToString] of it *)
  wireFormat : Request -> string;
  ctxGetTrackedPath : Request -> string;
  ctxGetDoNotTrack : Request -> bool;
  (** [e.OrgSessionExpiry(orgID)], an [int64] *)
  OrgSessionExpiry : string -> Z;
  (** [t.Day()], [t.Month()], [t.Year()], [t.Hour()] *)
  dayOf : GoTime.Time -> Z;
  monthOf : GoTime.Time -> Z;
  yearOf : GoTime.Time -> Z;
  hourOf : GoTime.Time -> Z;
  (** names of package [headers] that the spec does not spell out *)
  XGenerator : string;
  Connection : string;
  UserAgent : string
}.

(** what has reached the client when [writeResponse] is set: the header
    map at [WriteHeader], the status, and the template (with the name it
    was looked up under) executed on the escaped message; a nil template
    cannot be executed *)
Record Written := mkWritten {
  wHeader : Http.Header;
  wStatus : Z;
  wTemplateName : string;
  wTemplate : option Template;
  wMessage : string
}.

Record Outcome := mkOutcome {
  written : option Written;
  (** the header map and [r.URL.Path] when the call ends *)
  finalHeader : Http.Header;
  finalPath : string;
  (** the argument of [analytics.RecordHit], when it is called *)
  recorded : option AnalyticsRecord;
  (** whether [reportHealthValue(e.Spec, BlockedRequestLog, "-1")] ran *)
  healthReported : bool;
  (** the call ended in the panic of executing a nil template *)
  panicked : bool
}.

Variable env : Collaborators.
Variable spec : APISpec.

(** the extension and the content type chosen by the switch on the
    [Content-Type] of the request *)
Definition negotiate (r : Request) : string * string :=
  if String.eqb (Http.Get (ReqHeader r) ContentType) ApplicationXML
  then ("xml", ApplicationXML)
  else ("json", ApplicationJSON).

(** the [if writeResponse] block *)
Definition writeErrorResponse (w : Http.Header) (r : Request)
           (errMsg : string) (errCode : Z) : Written :=
  let '(templateExtension, contentType) := negotiate r in
  let w := Http.Set' w ContentType contentType in
  let templateName := "error_" +:+ Itoa errCode +:+ "." +:+ templateExtension in
  let tmpl := templates env !! templateName in
  let '(templateName, tmpl) :=
    match tmpl with
    | None =>
        let templateName := defaultTemplateName +:+ "." +:+ templateExtension in
        (templateName, templates env !! templateName)
    | Some _ => (templateName, tmpl)
    end in
  let '(templateName, tmpl, w) :=
    match tmpl with
    | None =>
        let templateName := defaultTemplateName +:+ "." +:+ defaultTemplateFormat in
        (templateName, templates env !! templateName,
         Http.Set' w ContentType defaultContentType)
    | Some _ => (templateName, tmpl, w)
    end in
  let w := if negb (HideGeneratorHeader (GlobalConfig spec))
           then Http.Add w (XGenerator env) "tyk.io" else w in
  let w := if CloseConnections (GlobalConfig spec)
           then Http.Add w (Connection env) "close" else w in
  mkWritten w errCode templateName tmpl (JSEscapeString env errMsg).

(** [expiresAfter] as it reaches [calcExpiry] *)
Definition expiresAfter : Z :=
  let expiresAfter := ExpireAnalyticsAfter spec in
  if EnforceOrgDataAge (GlobalConfig spec) then
    let orgExpireDataTime := OrgSessionExpiry env (OrgID spec) in
    if 0 <? orgExpireDataTime then orgExpireDataTime else expiresAfter
  else expiresAfter.

(** the closure [calcExpiry], with the reading of the clock it takes *)
Definition calcExpiry (now : GoTime.Time) (expiresAfter : Z) : GoTime.Time :=
  let expiry := GoTime.mul expiresAfter GoTime.Second in
  let expiry :=
    if expiresAfter =? 0
    then GoTime.mul (GoTime.mul 24 GoTime.Hour) (365 * 100)
    else expiry in
  GoTime.Add now expiry.

(** the two statements under "This is an odd bugfix" *)
Definition fixPath (path : string) : string :=
  let path := "/" +:+ path in
  if GoStrings.HasPrefix path "//" then GoStrings.TrimPrefix path "/"
  else path.

(** the path of the request when the two statements are reached *)
Definition pathBeforeFix (r : Request) : string :=
  if ProxyStripListenPath spec then StripListenPath env r (URLPath r)
  else URLPath r.

(** the branch taken when analytics are stored for the address *)
Definition buildRecord (w : Http.Header) (r : Request) (errCode : Z)
           (token ip : string) (clock : Clock)
  : Http.Header * Request * AnalyticsRecord :=
  let t := nowRecord clock in
  let w := addVersionHeader env w r (GlobalConfig spec) in
  let version := getVersionFromRequest env r in
  let version := if String.eqb version EmptyString
                 then "Non Versioned" else version in
  let withPath (r : Request) (p : string) : Request :=
    mkRequest (ReqHeader r) (ReqBody r) (Method r) p (URLHost r)
              (ContentLength r) in
  let r := if ProxyStripListenPath spec
           then withPath r (StripListenPath env r (URLPath r)) else r in
  let r := withPath r (fixPath (URLPath r)) in
  let session := ctxGetSession env r in
  let '(alias, tags) :=
    match session with
    | Some s => (Alias s, getSessionTags env s)
    | None => (EmptyString, [])
    end in
  let tags := if (0 <? length (TagHeaders spec))%nat
              then tagHeaders env r (TagHeaders spec) tags else tags in
  let rawRequest := if recordDetail env r then wireFormat env r
                    else EmptyString in
  let p := ctxGetTrackedPath env r in
  let '(trackEP, trackedPath) :=
    if negb (String.eqb p EmptyString) && negb (ctxGetDoNotTrack env r)
    then (true, p) else (false, URLPath r) in
  let host := URLHost r in
  let host := if String.eqb host EmptyString
              then default host (targetHost spec) else host in
  let expireAt := GoTime.Unix (calcExpiry (nowExpiry clock) expiresAfter) in
  (w, r,
   {| RecMethod := Method r; RecHost := host; RecPath := trackedPath;
      RawPath := URLPath r; RecContentLength := ContentLength r;
      UserAgentOf := Http.Get (ReqHeader r) (UserAgent env);
      Day := wrap32 (dayOf env t); Month := wrap32 (monthOf env t);
      Year := wrap32 (yearOf env t); Hour := wrap32 (hourOf env t);
      ResponseCode := wrap32 errCode; APIKey := token;
      TimeStamp := GoTime.Unix (nowStamp clock);
      APIVersion := version; APIName := Name spec; RecAPIID := APIID spec;
      RecOrgID := OrgID spec; RequestTime := 0;
      RawRequest := rawRequest; RawResponse := EmptyString;
      IPAddress := ip; RecTags := tags; RecAlias := alias;
      TrackPath := trackEP; ExpireAt := expireAt |}).

(** [HandleError(w, r, errMsg, errCode, writeResponse)].  The deferred
    [UpdateRequestSession] and the heap profile written when profiling is
    on touch nothing that is modelled. *)
Definition HandleError (w : Http.Header) (r : Request) (errMsg : string)
           (errCode : Z) (writeResponse : bool) (clock : Clock) : Outcome :=
  let wr := if writeResponse
            then Some (writeErrorResponse w r errMsg errCode) else None in
  let w := from_option wHeader w wr in
  match wr with
  | Some (mkWritten _ _ _ None _) =>
      mkOutcome wr w (URLPath r) None false true
  | _ =>
      if DoNotTrack spec then mkOutcome wr w (URLPath r) None false false
      else
        let token := ctxGetAuthToken env r in
        let ip := RealIP env r in
        if StoreAnalytics (GlobalConfig spec) ip then
          let '(w, r, record) := buildRecord w r errCode token ip clock in
          mkOutcome wr w (URLPath r) (Some record) true false
        else mkOutcome wr w (URLPath r) None true false
  end.

End Handler.

End ErrorHandler.

(** ** Concrete collaborators, on which the properties are exercised *)

Module Samples.
Import BasicAuth.

(** a slow comparison that accepts one password per hash: the one the hash
    is made of *)
Definition bcrypt (hashedPassword password : string) : option error :=
  if String.eqb hashedPassword ("$2a$10$" +:+ password) then None
  else Some "crypto/bcrypt: hashedPassword is not the hash of the given password".

(** a fingerprint of eight bytes, as a sum of 64 bits is: the first eight
    bytes of the password *)
Definition fingerprint (password : string) : string := substring 0 8 password.

Definition generateToken (orgID keyID : string) : string := orgID +:+ keyID.

Definition legacyToken (orgID keyID hashAlgorithm : string) : string :=
  orgID +:+ "-" +:+ keyID.

Definition conf : Config := mkConfig EmptyString false false false (fun _ => true).

Definition legacyConf : Config := mkConfig "murmur64" false false false (fun _ => true).

Definition apiSpec (basicAuth : BasicAuthConf) : APISpec :=
  mkAPISpec "orders" "api-1" "org1" basicAuth UnsetAuth conf false false []
            3600 None.

Definition session (hash : HashType) (password : string) : SessionState :=
  mkSessionState (mkBasicAuthData password hash) EmptyString "alice" [].

(** a store that knows one key *)
Definition store (key : string) (s : SessionState) : string -> Request -> option SessionState :=
  fun keyName _ => if String.eqb keyName key then Some s else None.

Definition noMatch : Regexp := fun _ => [].

Definition middleware (basicAuth : BasicAuthConf)
           (lookup : string -> Request -> option SessionState) : BasicAuthKeyIsValid :=
  mkBasicAuthKeyIsValid (apiSpec basicAuth) lookup noMatch noMatch.

Definition cached : BasicAuthConf := mkBasicAuthConf false 0 false.

(** the header value [Basic YWxpY2U6cGFzc3dvcmQtb25l] *)
Definition basicAlice : string :=
  "Basic" +:+ String " " (Base64.EncodeToString ("alice" +:+ String ":" "password-one")).

(** the same for the user name [org1alice], which starts with the
    identifier of the organisation *)
Definition basicOrgAlice : string :=
  "Basic" +:+ String " " (Base64.EncodeToString ("org1alice" +:+ String ":" "password-one")).

Definition request (authorization : list string) (body : string) : Request :=
  mkRequest (list_to_map (map (fun v => ("Authorization", [v])) authorization))
            body "GET" "/orders/1" "example.com" 0.

Definition world0 : World := mkWorld ∅ newBasicAuthCache None [].

(** a stored hash, the password it is the hash of, and another password
    with the same fingerprint *)
Definition storedHash : string := "$2a$10$password-one".
Definition goodPassword : string := "password-one".
Definition wrongPassword : string := "password-two".

Definition verifier : BasicAuthKeyIsValid :=
  middleware cached (store "org1alice" (session HashBCrypt storedHash)).

(** a middleware whose store knows the user under the legacy key only, with
    a password kept in plain text *)
Definition legacyOnly : BasicAuthKeyIsValid :=
  middleware cached (store "org1-alice" (session HashPlainText "password-one")).

(** a middleware configured to look into the body, with patterns that match
    nothing *)
Definition fromBody : BasicAuthKeyIsValid :=
  middleware (mkBasicAuthConf false 0 true)
             (store "org1alice" (session HashBCrypt storedHash)).

(** a middleware whose store holds a session of a hash kind that is neither
    of the two *)
Definition otherKind : BasicAuthKeyIsValid :=
  middleware cached (store "org1alice" (session (HashOther "sha256") "0a1b2c")).

(** the world after the good password was verified at instant 1000 *)
Definition worldVerified : World :=
  snd (compareHashAndPassword bcrypt fingerprint verifier storedHash
                              goodPassword 1000 world0).

(** collaborators of the error handler: templates are their text; the
    organisation has the retention cap [cap] *)
Definition collaborators (names : list string) (cap : Z)
  : ErrorHandler.Collaborators (Template := string) :=
  ErrorHandler.mkCollaborators
    (list_to_map (map (fun n => (n, "{{.Message}}")) names))
    (fun msg => msg) (fun _ => EmptyString) (fun _ => "10.0.0.1")
    (fun h _ _ => h) (fun _ => EmptyString) (fun _ p => p) (fun _ => None)
    Tags (fun _ _ tags => tags) (fun _ => false) (fun _ => EmptyString)
    (fun _ => EmptyString) (fun _ => false) (fun _ => cap)
    (fun _ => 30) (fun _ => 10) (fun _ => 2026) (fun _ => 12)
    "X-Generator" "Connection" "User-Agent".

(** an API that keeps analytics for [retention] seconds; [enforce] turns the
    cap of the organisation on *)
Definition trackedSpec (retention : Z) (enforce : bool) : APISpec :=
  mkAPISpec "orders" "api-1" "org1" cached UnsetAuth
            (mkConfig EmptyString false false enforce (fun _ => true))
            false false [] retention None.

(** a request for [path] that declares the content type [contentType] *)
Definition requestFor (path contentType : string) : Request :=
  mkRequest {[ "Content-Type" := [contentType] ]} EmptyString "GET" path
            EmptyString 0.

Definition clock : ErrorHandler.Clock :=
  ErrorHandler.mkClock 1793361600000000000 1793361600000000500
                       1793361600000001000.

End Samples.

(** ** [mw_basic_auth.go]: enabling the middleware *)

Module Enabling.
Import BasicAuth.

Section Enabled.

(** [regexp.Compile]; [None] is an error *)
Variable Compile : string -> option Regexp.

(** [EnabledForSpec].  The fields [UseBasicAuth], [BasicAuth.BodyUserRegexp]
    and [BasicAuth.BodyPasswordRegexp] of the specification are the first
    three arguments; the middleware comes back with the patterns that were
    compiled into it. *)
Definition EnabledForSpec (UseBasicAuth : bool)
           (BodyUserRegexp BodyPasswordRegexp : string)
           (k : BasicAuthKeyIsValid) : bool * BasicAuthKeyIsValid :=
  if negb UseBasicAuth then (false, k)
  else if ExtractFromBody (BasicAuth (Spec k)) then
    if String.eqb BodyUserRegexp EmptyString
       || String.eqb BodyPasswordRegexp EmptyString
    then (false, k)
    else
      match Compile BodyUserRegexp with
      | None => (false, k)
      | Some user =>
          let k := mkBasicAuthKeyIsValid (Spec k)
                     (CheckSessionAndIdentityForValidKey k) user
                     (bodyPasswordRegexp k) in
          match Compile BodyPasswordRegexp with
          | None => (false, k)
          | Some pass =>
              (true, mkBasicAuthKeyIsValid (Spec k)
                       (CheckSessionAndIdentityForValidKey k)
                       (bodyUserRegexp k) pass)
          end
      end
  else (true, k).

End Enabled.

End Enabling.

(** ** [gateway/handler_error.go]: the registry of errors *)

Module ErrorRegistry.

(** [config.TykError] *)
Record TykError := mkTykError { Message : string; Code : Z }.

(** the zero value that a Go map gives for a key it does not hold *)
Definition zeroTykError : TykError := mkTykError EmptyString 0.

(** [errorAndStatusCode], on the package-level [TykErrors]: the message of
    the error made by [errors.New] and the code *)
Definition errorAndStatusCode (TykErrors : gmap string TykError)
           (errType : string) : error * Z :=
  let err := default zeroTykError (TykErrors !! errType) in
  (Message err, Code err).

Section Defaults.

(** the identifiers of the errors, constants of the package *)
Variable ErrAuthAuthorizationFieldMissing : string.
Variable ErrAuthKeyNotFound : string.
Variable ErrOAuthAuthorizationFieldMissing : string.
Variable ErrOAuthAuthorizationFieldMalformed : string.
Variable ErrOAuthKeyNotFound : string.
Variable ErrOAuthClientDeleted : string.

(** [defaultTykErrors]: a new map and six assignments *)
Definition defaultTykErrors : gmap string TykError :=
  let TykErrors : gmap string TykError := ∅ in
  let TykErrors :=
    <[ErrAuthAuthorizationFieldMissing :=
        mkTykError "Authorization field missing" Http.StatusUnauthorized]>
      TykErrors in
  let TykErrors :=
    <[ErrAuthKeyNotFound :=
        mkTykError "Access to this API has been disallowed" Http.StatusForbidden]>
      TykErrors in
  let TykErrors :=
    <[ErrOAuthAuthorizationFieldMissing :=
        mkTykError "Authorization field missing" Http.StatusBadRequest]>
      TykErrors in
  let TykErrors :=
    <[ErrOAuthAuthorizationFieldMalformed :=
        mkTykError "Bearer token malformed" Http.StatusBadRequest]>
      TykErrors in
  let TykErrors :=
    <[ErrOAuthKeyNotFound :=
        mkTykError "Key not authorised" Http.StatusForbidden]>
      TykErrors in
  <[ErrOAuthClientDeleted :=
      mkTykError "Key not authorised. OAuth client access was revoked"
                 Http.StatusForbidden]>
    TykErrors.

End Defaults.

(** the body of the loop of [overrideTykErrors] *)
Definition overrideOne (id : string) (err : TykError)
           (TykErrors : gmap string TykError) : gmap string TykError :=
  let overridenErr := default zeroTykError (TykErrors !! id) in
  let overridenErr :=
    if negb (Code err =? 0) then mkTykError (Message overridenErr) (Code err)
    else overridenErr in
  let overridenErr :=
    if negb (String.eqb (Message err) EmptyString)
    then mkTykError (Message err) (Code overridenErr)
    else overridenErr in
  <[id := overridenErr]> TykErrors.

(** [overrideTykErrors]: the loop over [config.Global().OverrideMessages] *)
Definition overrideTykErrors (OverrideMessages TykErrors : gmap string TykError)
  : gmap string TykError :=
  map_fold overrideOne TykErrors OverrideMessages.

(** the same loop when [range] visits the overrides in the order [visits];
    Go leaves the order in which a map is iterated open *)
Definition overrideInOrder (visits : list (string * TykError))
           (TykErrors : gmap string TykError) : gmap string TykError :=
  foldl (fun TykErrors '(id, err) => overrideOne id err TykErrors)
        TykErrors visits.

(** an entry after an override of it *)
Definition overridden (base err : TykError) : TykError :=
  mkTykError (if String.eqb (Message err) EmptyString then Message base
              else Message err)
             (if Code err =? 0 then Code base else Code err).

End ErrorRegistry.

(** ** What the cache of fingerprints holds *)

Module Invariants.
Import BasicAuth.

(** every item of the cache is the fingerprint of a password that the slow
    comparison accepts for the hash the item is stored under *)
Definition cacheSound (bcrypt : string -> string -> option error)
           (murmur3 : string -> string) (c : GoCache.Cache) : Prop :=
  forall (hash : string) (it : GoCache.Item),
    GoCache.items c !! hash = Some it ->
    exists password,
      bcrypt hash password = None /\ GoCache.Object it = murmur3 password.

(** the response header maps that agree outside the challenge *)
Definition sameButChallenge (h h' : Http.Header) : Prop :=
  forall key : string, key <> "WWW-Authenticate" -> h' !! key = h !! key.

End Invariants.

(** ** More concrete collaborators *)

Module MoreSamples.
Import BasicAuth.

(** a pattern that captures what follows [prefix] up to the next [&] *)
Definition field (prefix : string) : Regexp :=
  fun body =>
    match GoStrings.Split "&" body with
    | first :: second :: _ =>
        if String.prefix prefix first
        then [[first; GoStrings.TrimPrefix first prefix]]
        else if String.prefix prefix second
             then [[second; GoStrings.TrimPrefix second prefix]]
             else []
    | [first] =>
        if String.prefix prefix first
        then [[first; GoStrings.TrimPrefix first prefix]]
        else []
    | [] => []
    end.

(** compiles the two patterns of a form, for the user and for the password,
    and nothing else *)
Definition compile (pattern : string) : option Regexp :=
  if String.eqb pattern "user=(\w+)" then Some (field "user=")
  else if String.eqb pattern "pass=(\w+)" then Some (field "pass=")
  else None.

(** a middleware that reads the credentials from a form in the body *)
Definition formReader : BasicAuthKeyIsValid :=
  mkBasicAuthKeyIsValid
    (Samples.apiSpec (mkBasicAuthConf false 0 true))
    (Samples.store "org1alice" (Samples.session HashPlainText "password-one"))
    (field "user=") (field "pass=").

(** a middleware whose store holds the password in plain text *)
Definition plain : BasicAuthKeyIsValid :=
  Samples.middleware Samples.cached
    (Samples.store "org1alice" (Samples.session HashPlainText "password-one")).

(** six different identifiers *)
Definition registry : gmap string ErrorRegistry.TykError :=
  ErrorRegistry.defaultTykErrors "auth.auth_field_missing" "auth.key_not_found"
    "oauth.auth_field_missing" "oauth.auth_field_malformed"
    "oauth.key_not_found" "oauth.client_deleted".

End MoreSamples.

(** ** Package [github.com/TykTechnologies/murmur3]: the 64-bit hasher *)

Module Murmur3.

(** a [uint64] after an operation that may carry out of it *)
Definition u64 (z : Z) : Z := Z.land z 0xffffffffffffffff.

Definition c1_128 : Z := 0x87c37b91114253d5.
Definition c2_128 : Z := 0x4cf5ad432745937f.

(** [bits.RotateLeft64] *)
Definition RotateLeft64 (x k : Z) : Z :=
  u64 (Z.lor (Z.shiftl x k) (Z.shiftr x (64 - k))).

(** the bytes of a Go string *)
Definition bytes (s : string) : list Z :=
  map (fun a => Z.of_N (N_of_ascii a)) (list_ascii_of_string s).

(** a [uint64] read from at most eight bytes, the first the least
    significant *)
Definition littleEndian (b : list Z) : Z :=
  foldr (fun x acc => x + 256 * acc) 0 b.

Definition mix1 (k1 : Z) : Z :=
  u64 (RotateLeft64 (u64 (k1 * c1_128)) 31 * c2_128).

Definition mix2 (k2 : Z) : Z :=
  u64 (RotateLeft64 (u64 (k2 * c2_128)) 33 * c1_128).

(** [bmix]: the blocks of sixteen bytes, and the tail that is left *)
Fixpoint bmix (nblocks : nat) (p : list Z) (h : Z * Z) : Z * Z * list Z :=
  match nblocks with
  | O => (h, p)
  | S nblocks =>
      let '(h1, h2) := h in
      let k1 := littleEndian (take 8 p) in
      let k2 := littleEndian (take 8 (drop 8 p)) in
      let h1 := Z.lxor h1 (mix1 k1) in
      let h1 := RotateLeft64 h1 27 in
      let h1 := u64 (h1 + h2) in
      let h1 := u64 (h1 * 5 + 0x52dce729) in
      let h2 := Z.lxor h2 (mix2 k2) in
      let h2 := RotateLeft64 h2 31 in
      let h2 := u64 (h2 + h1) in
      let h2 := u64 (h2 * 5 + 0x38495ab5) in
      bmix nblocks (drop 16 p) (h1, h2)
  end.

Definition fmix64 (k : Z) : Z :=
  let k := Z.lxor k (Z.shiftr k 33) in
  let k := u64 (k * 0xff51afd7ed558ccd) in
  let k := Z.lxor k (Z.shiftr k 33) in
  let k := u64 (k * 0xc4ceb9fe1a85ec53) in
  Z.lxor k (Z.shiftr k 33).

(** [Sum128] after one [Write] of [data] to a hasher of seed 0.  The switch
    on the length of the tail falls through: the bytes from the ninth on go
    to [k2], the first eight to [k1]. *)
Definition Sum128 (data : list Z) : Z * Z :=
  let '(h1, h2, tail) := bmix (length data / 16) data (0, 0) in
  let h2 := if (8 <? length tail)%nat
            then Z.lxor h2 (mix2 (littleEndian (drop 8 tail))) else h2 in
  let h1 := if (0 <? length tail)%nat
            then Z.lxor h1 (mix1 (littleEndian (take 8 tail))) else h1 in
  let clen := Z.of_nat (length data) in
  let h1 := Z.lxor h1 clen in
  let h2 := Z.lxor h2 clen in
  let h1 := u64 (h1 + h2) in
  let h2 := u64 (h2 + h1) in
  let h1 := fmix64 h1 in
  let h2 := fmix64 h2 in
  let h1 := u64 (h1 + h2) in
  let h2 := u64 (h2 + h1) in
  (h1, h2).

(** [Sum64] of the hasher made by [New64]: the first half of [Sum128] *)
Definition Sum64 (data : list Z) : Z := fst (Sum128 data).

(** [string(hasher.Sum(nil))] after [hasher.Write(password)]: the eight
    bytes of [Sum64], the most significant first *)
Definition Sum (password : string) : string :=
  let h1 := Sum64 (bytes password) in
  string_of_list_ascii
    (map (fun i => ascii_of_N (Z.to_N (Z.land (Z.shiftr h1 (8 * i)) 255)))
         [7; 6; 5; 4; 3; 2; 1; 0]).

End Murmur3.

(** ** Package [golang.org/x/crypto/blowfish], as far as bcrypt uses it *)

Module Blowfish.

(** a [uint32] after an operation that may carry out of it *)
Definition u32 (z : Z) : Z := Z.land z 0xffffffff.

Module Pi.

(** the initial subkeys: the fractional part of pi, 32 bits at a time *)
Definition p : list Z :=
  [
   0x243f6a88; 0x85a308d3; 0x13198a2e; 0x03707344; 0xa4093822; 0x299f31d0;
   0x082efa98; 0xec4e6c89; 0x452821e6; 0x38d01377; 0xbe5466cf; 0x34e90c6c;
   0xc0ac29b7; 0xc97c50dd; 0x3f84d5b5; 0xb5470917; 0x9216d5d9; 0x8979fb1b ].

Definition s0 : list Z :=
  [
   0xd1310ba6; 0x98dfb5ac; 0x2ffd72db; 0xd01adfb7; 0xb8e1afed; 0x6a267e96;
   0xba7c9045; 0xf12c7f99; 0x24a19947; 0xb3916cf7; 0x0801f2e2; 0x858efc16;
   0x636920d8; 0x71574e69; 0xa458fea3; 0xf4933d7e; 0x0d95748f; 0x728eb658;
   0x718bcd58; 0x82154aee; 0x7b54a41d; 0xc25a59b5; 0x9c30d539; 0x2af26013;
   0xc5d1b023; 0x286085f0; 0xca417918; 0xb8db38ef; 0x8e79dcb0; 0x603a180e;
   0x6c9e0e8b; 0xb01e8a3e; 0xd71577c1; 0xbd314b27; 0x78af2fda; 0x55605c60;
   0xe65525f3; 0xaa55ab94; 0x57489862; 0x63e81440; 0x55ca396a; 0x2aab10b6;
   0xb4cc5c34; 0x1141e8ce; 0xa15486af; 0x7c72e993; 0xb3ee1411; 0x636fbc2a;
   0x2ba9c55d; 0x741831f6; 0xce5c3e16; 0x9b87931e; 0xafd6ba33; 0x6c24cf5c;
   0x7a325381; 0x28958677; 0x3b8f4898; 0x6b4bb9af; 0xc4bfe81b; 0x66282193;
   0x61d809cc; 0xfb21a991; 0x487cac60; 0x5dec8032; 0xef845d5d; 0xe98575b1;
   0xdc262302; 0xeb651b88; 0x23893e81; 0xd396acc5; 0x0f6d6ff3; 0x83f44239;
   0x2e0b4482; 0xa4842004; 0x69c8f04a; 0x9e1f9b5e; 0x21c66842; 0xf6e96c9a;
   0x670c9c61; 0xabd388f0; 0x6a51a0d2; 0xd8542f68; 0x960fa728; 0xab5133a3;
   0x6eef0b6c; 0x137a3be4; 0xba3bf050; 0x7efb2a98; 0xa1f1651d; 0x39af0176;
   0x66ca593e; 0x82430e88; 0x8cee8619; 0x456f9fb4; 0x7d84a5c3; 0x3b8b5ebe;
   0xe06f75d8; 0x85c12073; 0x401a449f; 0x56c16aa6; 0x4ed3aa62; 0x363f7706;
   0x1bfedf72; 0x429b023d; 0x37d0d724; 0xd00a1248; 0xdb0fead3; 0x49f1c09b;
   0x075372c9; 0x80991b7b; 0x25d479d8; 0xf6e8def7; 0xe3fe501a; 0xb6794c3b;
   0x976ce0bd; 0x04c006ba; 0xc1a94fb6; 0x409f60c4; 0x5e5c9ec2; 0x196a2463;
   0x68fb6faf; 0x3e6c53b5; 0x1339b2eb; 0x3b52ec6f; 0x6dfc511f; 0x9b30952c;
   0xcc814544; 0xaf5ebd09; 0xbee3d004; 0xde334afd; 0x660f2807; 0x192e4bb3;
   0xc0cba857; 0x45c8740f; 0xd20b5f39; 0xb9d3fbdb; 0x5579c0bd; 0x1a60320a;
   0xd6a100c6; 0x402c7279; 0x679f25fe; 0xfb1fa3cc; 0x8ea5e9f8; 0xdb3222f8;
   0x3c7516df; 0xfd616b15; 0x2f501ec8; 0xad0552ab; 0x323db5fa; 0xfd238760;
   0x53317b48; 0x3e00df82; 0x9e5c57bb; 0xca6f8ca0; 0x1a87562e; 0xdf1769db;
   0xd542a8f6; 0x287effc3; 0xac6732c6; 0x8c4f5573; 0x695b27b0; 0xbbca58c8;
   0xe1ffa35d; 0xb8f011a0; 0x10fa3d98; 0xfd2183b8; 0x4afcb56c; 0x2dd1d35b;
   0x9a53e479; 0xb6f84565; 0xd28e49bc; 0x4bfb9790; 0xe1ddf2da; 0xa4cb7e33;
   0x62fb1341; 0xcee4c6e8; 0xef20cada; 0x36774c01; 0xd07e9efe; 0x2bf11fb4;
   0x95dbda4d; 0xae909198; 0xeaad8e71; 0x6b93d5a0; 0xd08ed1d0; 0xafc725e0;
   0x8e3c5b2f; 0x8e7594b7; 0x8ff6e2fb; 0xf2122b64; 0x8888b812; 0x900df01c;
   0x4fad5ea0; 0x688fc31c; 0xd1cff191; 0xb3a8c1ad; 0x2f2f2218; 0xbe0e1777;
   0xea752dfe; 0x8b021fa1; 0xe5a0cc0f; 0xb56f74e8; 0x18acf3d6; 0xce89e299;
   0xb4a84fe0; 0xfd13e0b7; 0x7cc43b81; 0xd2ada8d9; 0x165fa266; 0x80957705;
   0x93cc7314; 0x211a1477; 0xe6ad2065; 0x77b5fa86; 0xc75442f5; 0xfb9d35cf;
   0xebcdaf0c; 0x7b3e89a0; 0xd6411bd3; 0xae1e7e49; 0x00250e2d; 0x2071b35e;
   0x226800bb; 0x57b8e0af; 0x2464369b; 0xf009b91e; 0x5563911d; 0x59dfa6aa;
   0x78c14389; 0xd95a537f; 0x207d5ba2; 0x02e5b9c5; 0x83260376; 0x6295cfa9;
   0x11c81968; 0x4e734a41; 0xb3472dca; 0x7b14a94a; 0x1b510052; 0x9a532915;
   0xd60f573f; 0xbc9bc6e4; 0x2b60a476; 0x81e67400; 0x08ba6fb5; 0x571be91f;
   0xf296ec6b; 0x2a0dd915; 0xb6636521; 0xe7b9f9b6; 0xff34052e; 0xc5855664;
   0x53b02d5d; 0xa99f8fa1; 0x08ba4799; 0x6e85076a ].

Definition s1 : list Z :=
  [
   0x4b7a70e9; 0xb5b32944; 0xdb75092e; 0xc4192623; 0xad6ea6b0; 0x49a7df7d;
   0x9cee60b8; 0x8fedb266; 0xecaa8c71; 0x699a17ff; 0x5664526c; 0xc2b19ee1;
   0x193602a5; 0x75094c29; 0xa0591340; 0xe4183a3e; 0x3f54989a; 0x5b429d65;
   0x6b8fe4d6; 0x99f73fd6; 0xa1d29c07; 0xefe830f5; 0x4d2d38e6; 0xf0255dc1;
   0x4cdd2086; 0x8470eb26; 0x6382e9c6; 0x021ecc5e; 0x09686b3f; 0x3ebaefc9;
   0x3c971814; 0x6b6a70a1; 0x687f3584; 0x52a0e286; 0xb79c5305; 0xaa500737;
   0x3e07841c; 0x7fdeae5c; 0x8e7d44ec; 0x5716f2b8; 0xb03ada37; 0xf0500c0d;
   0xf01c1f04; 0x0200b3ff; 0xae0cf51a; 0x3cb574b2; 0x25837a58; 0xdc0921bd;
   0xd19113f9; 0x7ca92ff6; 0x94324773; 0x22f54701; 0x3ae5e581; 0x37c2dadc;
   0xc8b57634; 0x9af3dda7; 0xa9446146; 0x0fd0030e; 0xecc8c73e; 0xa4751e41;
   0xe238cd99; 0x3bea0e2f; 0x3280bba1; 0x183eb331; 0x4e548b38; 0x4f6db908;
   0x6f420d03; 0xf60a04bf; 0x2cb81290; 0x24977c79; 0x5679b072; 0xbcaf89af;
   0xde9a771f; 0xd9930810; 0xb38bae12; 0xdccf3f2e; 0x5512721f; 0x2e6b7124;
   0x501adde6; 0x9f84cd87; 0x7a584718; 0x7408da17; 0xbc9f9abc; 0xe94b7d8c;
   0xec7aec3a; 0xdb851dfa; 0x63094366; 0xc464c3d2; 0xef1c1847; 0x3215d908;
   0xdd433b37; 0x24c2ba16; 0x12a14d43; 0x2a65c451; 0x50940002; 0x133ae4dd;
   0x71dff89e; 0x10314e55; 0x81ac77d6; 0x5f11199b; 0x043556f1; 0xd7a3c76b;
   0x3c11183b; 0x5924a509; 0xf28fe6ed; 0x97f1fbfa; 0x9ebabf2c; 0x1e153c6e;
   0x86e34570; 0xeae96fb1; 0x860e5e0a; 0x5a3e2ab3; 0x771fe71c; 0x4e3d06fa;
   0x2965dcb9; 0x99e71d0f; 0x803e89d6; 0x5266c825; 0x2e4cc978; 0x9c10b36a;
   0xc6150eba; 0x94e2ea78; 0xa5fc3c53; 0x1e0a2df4; 0xf2f74ea7; 0x361d2b3d;
   0x1939260f; 0x19c27960; 0x5223a708; 0xf71312b6; 0xebadfe6e; 0xeac31f66;
   0xe3bc4595; 0xa67bc883; 0xb17f37d1; 0x018cff28; 0xc332ddef; 0xbe6c5aa5;
   0x65582185; 0x68ab9802; 0xeecea50f; 0xdb2f953b; 0x2aef7dad; 0x5b6e2f84;
   0x1521b628; 0x29076170; 0xecdd4775; 0x619f1510; 0x13cca830; 0xeb61bd96;
   0x0334fe1e; 0xaa0363cf; 0xb5735c90; 0x4c70a239; 0xd59e9e0b; 0xcbaade14;
   0xeecc86bc; 0x60622ca7; 0x9cab5cab; 0xb2f3846e; 0x648b1eaf; 0x19bdf0ca;
   0xa02369b9; 0x655abb50; 0x40685a32; 0x3c2ab4b3; 0x319ee9d5; 0xc021b8f7;
   0x9b540b19; 0x875fa099; 0x95f7997e; 0x623d7da8; 0xf837889a; 0x97e32d77;
   0x11ed935f; 0x16681281; 0x0e358829; 0xc7e61fd6; 0x96dedfa1; 0x7858ba99;
   0x57f584a5; 0x1b227263; 0x9b83c3ff; 0x1ac24696; 0xcdb30aeb; 0x532e3054;
   0x8fd948e4; 0x6dbc3128; 0x58ebf2ef; 0x34c6ffea; 0xfe28ed61; 0xee7c3c73;
   0x5d4a14d9; 0xe864b7e3; 0x42105d14; 0x203e13e0; 0x45eee2b6; 0xa3aaabea;
   0xdb6c4f15; 0xfacb4fd0; 0xc742f442; 0xef6abbb5; 0x654f3b1d; 0x41cd2105;
   0xd81e799e; 0x86854dc7; 0xe44b476a; 0x3d816250; 0xcf62a1f2; 0x5b8d2646;
   0xfc8883a0; 0xc1c7b6a3; 0x7f1524c3; 0x69cb7492; 0x47848a0b; 0x5692b285;
   0x095bbf00; 0xad19489d; 0x1462b174; 0x23820e00; 0x58428d2a; 0x0c55f5ea;
   0x1dadf43e; 0x233f7061; 0x3372f092; 0x8d937e41; 0xd65fecf1; 0x6c223bdb;
   0x7cde3759; 0xcbee7460; 0x4085f2a7; 0xce77326e; 0xa6078084; 0x19f8509e;
   0xe8efd855; 0x61d99735; 0xa969a7aa; 0xc50c06c2; 0x5a04abfc; 0x800bcadc;
   0x9e447a2e; 0xc3453484; 0xfdd56705; 0x0e1e9ec9; 0xdb73dbd3; 0x105588cd;
   0x675fda79; 0xe3674340; 0xc5c43465; 0x713e38d8; 0x3d28f89e; 0xf16dff20;
   0x153e21e7; 0x8fb03d4a; 0xe6e39f2b; 0xdb83adf7 ].

Definition s2 : list Z :=
  [
   0xe93d5a68; 0x948140f7; 0xf64c261c; 0x94692934; 0x411520f7; 0x7602d4f7;
   0xbcf46b2e; 0xd4a20068; 0xd4082471; 0x3320f46a; 0x43b7d4b7; 0x500061af;
   0x1e39f62e; 0x97244546; 0x14214f74; 0xbf8b8840; 0x4d95fc1d; 0x96b591af;
   0x70f4ddd3; 0x66a02f45; 0xbfbc09ec; 0x03bd9785; 0x7fac6dd0; 0x31cb8504;
   0x96eb27b3; 0x55fd3941; 0xda2547e6; 0xabca0a9a; 0x28507825; 0x530429f4;
   0x0a2c86da; 0xe9b66dfb; 0x68dc1462; 0xd7486900; 0x680ec0a4; 0x27a18dee;
   0x4f3ffea2; 0xe887ad8c; 0xb58ce006; 0x7af4d6b6; 0xaace1e7c; 0xd3375fec;
   0xce78a399; 0x406b2a42; 0x20fe9e35; 0xd9f385b9; 0xee39d7ab; 0x3b124e8b;
   0x1dc9faf7; 0x4b6d1856; 0x26a36631; 0xeae397b2; 0x3a6efa74; 0xdd5b4332;
   0x6841e7f7; 0xca7820fb; 0xfb0af54e; 0xd8feb397; 0x454056ac; 0xba489527;
   0x55533a3a; 0x20838d87; 0xfe6ba9b7; 0xd096954b; 0x55a867bc; 0xa1159a58;
   0xcca92963; 0x99e1db33; 0xa62a4a56; 0x3f3125f9; 0x5ef47e1c; 0x9029317c;
   0xfdf8e802; 0x04272f70; 0x80bb155c; 0x05282ce3; 0x95c11548; 0xe4c66d22;
   0x48c1133f; 0xc70f86dc; 0x07f9c9ee; 0x41041f0f; 0x404779a4; 0x5d886e17;
   0x325f51eb; 0xd59bc0d1; 0xf2bcc18f; 0x41113564; 0x257b7834; 0x602a9c60;
   0xdff8e8a3; 0x1f636c1b; 0x0e12b4c2; 0x02e1329e; 0xaf664fd1; 0xcad18115;
   0x6b2395e0; 0x333e92e1; 0x3b240b62; 0xeebeb922; 0x85b2a20e; 0xe6ba0d99;
   0xde720c8c; 0x2da2f728; 0xd0127845; 0x95b794fd; 0x647d0862; 0xe7ccf5f0;
   0x5449a36f; 0x877d48fa; 0xc39dfd27; 0xf33e8d1e; 0x0a476341; 0x992eff74;
   0x3a6f6eab; 0xf4f8fd37; 0xa812dc60; 0xa1ebddf8; 0x991be14c; 0xdb6e6b0d;
   0xc67b5510; 0x6d672c37; 0x2765d43b; 0xdcd0e804; 0xf1290dc7; 0xcc00ffa3;
   0xb5390f92; 0x690fed0b; 0x667b9ffb; 0xcedb7d9c; 0xa091cf0b; 0xd9155ea3;
   0xbb132f88; 0x515bad24; 0x7b9479bf; 0x763bd6eb; 0x37392eb3; 0xcc115979;
   0x8026e297; 0xf42e312d; 0x6842ada7; 0xc66a2b3b; 0x12754ccc; 0x782ef11c;
   0x6a124237; 0xb79251e7; 0x06a1bbe6; 0x4bfb6350; 0x1a6b1018; 0x11caedfa;
   0x3d25bdd8; 0xe2e1c3c9; 0x44421659; 0x0a121386; 0xd90cec6e; 0xd5abea2a;
   0x64af674e; 0xda86a85f; 0xbebfe988; 0x64e4c3fe; 0x9dbc8057; 0xf0f7c086;
   0x60787bf8; 0x6003604d; 0xd1fd8346; 0xf6381fb0; 0x7745ae04; 0xd736fccc;
   0x83426b33; 0xf01eab71; 0xb0804187; 0x3c005e5f; 0x77a057be; 0xbde8ae24;
   0x55464299; 0xbf582e61; 0x4e58f48f; 0xf2ddfda2; 0xf474ef38; 0x8789bdc2;
   0x5366f9c3; 0xc8b38e74; 0xb475f255; 0x46fcd9b9; 0x7aeb2661; 0x8b1ddf84;
   0x846a0e79; 0x915f95e2; 0x466e598e; 0x20b45770; 0x8cd55591; 0xc902de4c;
   0xb90bace1; 0xbb8205d0; 0x11a86248; 0x7574a99e; 0xb77f19b6; 0xe0a9dc09;
   0x662d09a1; 0xc4324633; 0xe85a1f02; 0x09f0be8c; 0x4a99a025; 0x1d6efe10;
   0x1ab93d1d; 0x0ba5a4df; 0xa186f20f; 0x2868f169; 0xdcb7da83; 0x573906fe;
   0xa1e2ce9b; 0x4fcd7f52; 0x50115e01; 0xa70683fa; 0xa002b5c4; 0x0de6d027;
   0x9af88c27; 0x773f8641; 0xc3604c06; 0x61a806b5; 0xf0177a28; 0xc0f586e0;
   0x006058aa; 0x30dc7d62; 0x11e69ed7; 0x2338ea63; 0x53c2dd94; 0xc2c21634;
   0xbbcbee56; 0x90bcb6de; 0xebfc7da1; 0xce591d76; 0x6f05e409; 0x4b7c0188;
   0x39720a3d; 0x7c927c24; 0x86e3725f; 0x724d9db9; 0x1ac15bb4; 0xd39eb8fc;
   0xed545578; 0x08fca5b5; 0xd83d7cd3; 0x4dad0fc4; 0x1e50ef5e; 0xb161e6f8;
   0xa28514d9; 0x6c51133c; 0x6fd5c7e7; 0x56e14ec4; 0x362abfce; 0xddc6c837;
   0xd79a3234; 0x92638212; 0x670efa8e; 0x406000e0 ].

Definition s3 : list Z :=
  [
   0x3a39ce37; 0xd3faf5cf; 0xabc27737; 0x5ac52d1b; 0x5cb0679e; 0x4fa33742;
   0xd3822740; 0x99bc9bbe; 0xd5118e9d; 0xbf0f7315; 0xd62d1c7e; 0xc700c47b;
   0xb78c1b6b; 0x21a19045; 0xb26eb1be; 0x6a366eb4; 0x5748ab2f; 0xbc946e79;
   0xc6a376d2; 0x6549c2c8; 0x530ff8ee; 0x468dde7d; 0xd5730a1d; 0x4cd04dc6;
   0x2939bbdb; 0xa9ba4650; 0xac9526e8; 0xbe5ee304; 0xa1fad5f0; 0x6a2d519a;
   0x63ef8ce2; 0x9a86ee22; 0xc089c2b8; 0x43242ef6; 0xa51e03aa; 0x9cf2d0a4;
   0x83c061ba; 0x9be96a4d; 0x8fe51550; 0xba645bd6; 0x2826a2f9; 0xa73a3ae1;
   0x4ba99586; 0xef5562e9; 0xc72fefd3; 0xf752f7da; 0x3f046f69; 0x77fa0a59;
   0x80e4a915; 0x87b08601; 0x9b09e6ad; 0x3b3ee593; 0xe990fd5a; 0x9e34d797;
   0x2cf0b7d9; 0x022b8b51; 0x96d5ac3a; 0x017da67d; 0xd1cf3ed6; 0x7c7d2d28;
   0x1f9f25cf; 0xadf2b89b; 0x5ad6b472; 0x5a88f54c; 0xe029ac71; 0xe019a5e6;
   0x47b0acfd; 0xed93fa9b; 0xe8d3c48d; 0x283b57cc; 0xf8d56629; 0x79132e28;
   0x785f0191; 0xed756055; 0xf7960e44; 0xe3d35e8c; 0x15056dd4; 0x88f46dba;
   0x03a16125; 0x0564f0bd; 0xc3eb9e15; 0x3c9057a2; 0x97271aec; 0xa93a072a;
   0x1b3f6d9b; 0x1e6321f5; 0xf59c66fb; 0x26dcf319; 0x7533d928; 0xb155fdf5;
   0x03563482; 0x8aba3cbb; 0x28517711; 0xc20ad9f8; 0xabcc5167; 0xccad925f;
   0x4de81751; 0x3830dc8e; 0x379d5862; 0x9320f991; 0xea7a90c2; 0xfb3e7bce;
   0x5121ce64; 0x774fbe32; 0xa8b6e37e; 0xc3293d46; 0x48de5369; 0x6413e680;
   0xa2ae0810; 0xdd6db224; 0x69852dfd; 0x09072166; 0xb39a460a; 0x6445c0dd;
   0x586cdecf; 0x1c20c8ae; 0x5bbef7dd; 0x1b588d40; 0xccd2017f; 0x6bb4e3bb;
   0xdda26a7e; 0x3a59ff45; 0x3e350a44; 0xbcb4cdd5; 0x72eacea8; 0xfa6484bb;
   0x8d6612ae; 0xbf3c6f47; 0xd29be463; 0x542f5d9e; 0xaec2771b; 0xf64e6370;
   0x740e0d8d; 0xe75b1357; 0xf8721671; 0xaf537d5d; 0x4040cb08; 0x4eb4e2cc;
   0x34d2466a; 0x0115af84; 0xe1b00428; 0x95983a1d; 0x06b89fb4; 0xce6ea048;
   0x6f3f3b82; 0x3520ab82; 0x011a1d4b; 0x277227f8; 0x611560b1; 0xe7933fdc;
   0xbb3a792b; 0x344525bd; 0xa08839e1; 0x51ce794b; 0x2f32c9b7; 0xa01fbac9;
   0xe01cc87e; 0xbcc7d1f6; 0xcf0111c3; 0xa1e8aac7; 0x1a908749; 0xd44fbd9a;
   0xd0dadecb; 0xd50ada38; 0x0339c32a; 0xc6913667; 0x8df9317c; 0xe0b12b4f;
   0xf79e59b7; 0x43f5bb3a; 0xf2d519ff; 0x27d9459c; 0xbf97222c; 0x15e6fc2a;
   0x0f91fc71; 0x9b941525; 0xfae59361; 0xceb69ceb; 0xc2a86459; 0x12baa8d1;
   0xb6c1075e; 0xe3056a0c; 0x10d25065; 0xcb03a442; 0xe0ec6e0e; 0x1698db3b;
   0x4c98a0be; 0x3278e964; 0x9f1f9532; 0xe0d392df; 0xd3a0342b; 0x8971f21e;
   0x1b0a7441; 0x4ba3348c; 0xc5be7120; 0xc37632d8; 0xdf359f8d; 0x9b992f2e;
   0xe60b6f47; 0x0fe3f11d; 0xe54cda54; 0x1edad891; 0xce6279cf; 0xcd3e7e6f;
   0x1618b166; 0xfd2c1d05; 0x848fd2c5; 0xf6fb2299; 0xf523f357; 0xa6327623;
   0x93a83531; 0x56cccd02; 0xacf08162; 0x5a75ebb5; 0x6e163697; 0x88d273cc;
   0xde966292; 0x81b949d0; 0x4c50901b; 0x71c65614; 0xe6c6c7bd; 0x327a140a;
   0x45e1d006; 0xc3f27b9a; 0xc9aa53fd; 0x62a80f00; 0xbb25bfe2; 0x35bdd2f6;
   0x71126905; 0xb2040222; 0xb6cbcf7c; 0xcd769c2b; 0x53113ec0; 0x1640e3d3;
   0x38abbd60; 0x2547adf0; 0xba38209c; 0xf746ce76; 0x77afa1c5; 0x20756060;
   0x85cbfe4e; 0x8ae88dd8; 0x7aaaf9b0; 0x4cf9aa7e; 0x1948c25c; 0x02fb8a8c;
   0x01c36ae4; 0xd6ebe1f9; 0x90d4f869; 0xa65cdea0; 0x3f09252d; 0xc208e69f;
   0xb74e6132; 0xce77e25b; 0x578fdfe3; 0x3ac372e6 ].

End Pi.

(** [Cipher]: the eighteen subkeys and the four boxes of 256 words; a box is
    indexed by a byte and is kept as the map from the index to the word *)
Record Cipher := mkCipher {
  p : list Z;
  s0 : Nmap Z;
  s1 : Nmap Z;
  s2 : Nmap Z;
  s3 : Nmap Z
}.

Definition box (words : list Z) : Nmap Z :=
  fst (foldl (fun '(m, i) w => (<[i := w]> m, N.succ i)) (∅, 0%N) words).

(** [initCipher] *)
Definition initCipher : Cipher :=
  mkCipher Pi.p (box Pi.s0) (box Pi.s1) (box Pi.s2) (box Pi.s3).

Definition word (b : Nmap Z) (i : Z) : Z := default 0 (b !! Z.to_N i).

(** the term [((s0[x>>24] + s1[x>>16]) ^ s2[x>>8]) + s3[x]] of a round, the
    indices being bytes *)
Definition feistel (c : Cipher) (x : Z) : Z :=
  u32 (Z.lxor (u32 (word (s0 c) (Z.shiftr x 24)
                    + word (s1 c) (Z.land (Z.shiftr x 16) 255)))
              (word (s2 c) (Z.land (Z.shiftr x 8) 255))
       + word (s3 c) (Z.land x 255)).

(** the sixteen rounds, two for each pair of subkeys from [p[1]] on, and the
    last subkey *)
Fixpoint rounds (c : Cipher) (subkeys : list Z) (xl xr : Z) : Z * Z :=
  match subkeys with
  | pa :: pb :: subkeys =>
      let xr := Z.lxor xr (Z.lxor (feistel c xl) pa) in
      let xl := Z.lxor xl (Z.lxor (feistel c xr) pb) in
      rounds c subkeys xl xr
  | [pl] => (Z.lxor xr pl, xl)
  | [] => (xr, xl)
  end.

(** [encryptBlock] *)
Definition encryptBlock (l r : Z) (c : Cipher) : Z * Z :=
  match p c with
  | p0 :: subkeys => rounds c subkeys (Z.lxor l p0) r
  | [] => (l, r)
  end.

(** [getNextWord(b, &pos)]: four bytes of [b], the first the most
    significant, starting again at its head when its end is reached; the
    word and the new position *)
Definition getNextWord (b : list Z) (pos : nat) : Z * nat :=
  foldl (fun '(w, j) (_ : nat) =>
           let w := u32 (Z.lor (Z.shiftl w 8) (default 0 (b !! j))) in
           let j := S j in
           (w, if (length b <=? j)%nat then 0%nat else j))
        (0, pos) (seq 0 4).

(** the arrays of a cipher *)
Inductive Array := P | S0 | S1 | S2 | S3.

(** the assignment [a[i], a[i+1] = l, r] *)
Definition assign (c : Cipher) (a : Array) (i : nat) (l r : Z) : Cipher :=
  let put (b : Nmap Z) : Nmap Z :=
    <[N.succ (N.of_nat i) := r]> (<[N.of_nat i := l]> b) in
  match a with
  | P => mkCipher (<[S i := r]> (<[i := l]> (p c))) (s0 c) (s1 c) (s2 c) (s3 c)
  | S0 => mkCipher (p c) (put (s0 c)) (s1 c) (s2 c) (s3 c)
  | S1 => mkCipher (p c) (s0 c) (put (s1 c)) (s2 c) (s3 c)
  | S2 => mkCipher (p c) (s0 c) (s1 c) (put (s2 c)) (s3 c)
  | S3 => mkCipher (p c) (s0 c) (s1 c) (s2 c) (put (s3 c))
  end.

(** the pairs that the five loops of a key expansion assign, in their
    order: those of [p], then those of each box *)
Definition pairs : list (Array * nat) :=
  (map (fun i => (P, (2 * i)%nat)) (seq 0 9)
   ++ concat (map (fun a => map (fun i => (a, (2 * i)%nat)) (seq 0 128))
                  [S0; S1; S2; S3]))%list.

(** the first loop: [c.p[i] ^= getNextWord(key, &j)] *)
Definition xorKey (key : list Z) (c : Cipher) : Cipher :=
  let '(subkeys, _) :=
    foldl (fun '(done, j) (pi : Z) =>
             let '(d, j) := getNextWord key j in
             ((done ++ [Z.lxor pi d])%list, j))
          ([], 0%nat) (p c) in
  mkCipher subkeys (s0 c) (s1 c) (s2 c) (s3 c).

(** [ExpandKey(key, c)] *)
Definition ExpandKey (key : list Z) (c : Cipher) : Cipher :=
  let c := xorKey key c in
  fst (fst (foldl (fun '(c, l, r) '(a, i) =>
                     let '(l, r) := encryptBlock l r c in
                     (assign c a i l r, l, r))
                  (c, 0, 0) pairs)).

(** [expandKeyWithSalt(key, salt, c)] *)
Definition expandKeyWithSalt (key salt : list Z) (c : Cipher) : Cipher :=
  let c := xorKey key c in
  fst (fst (fst (foldl (fun '(c, l, r, j) '(a, i) =>
                          let '(d, j) := getNextWord salt j in
                          let l := Z.lxor l d in
                          let '(d, j) := getNextWord salt j in
                          let r := Z.lxor r d in
                          let '(l, r) := encryptBlock l r c in
                          (assign c a i l r, l, r, j))
                       (c, 0, 0, 0%nat) pairs))).

(** [NewSaltedCipher(key, salt)] for a key and a salt that are not empty, as
    those of bcrypt are *)
Definition NewSaltedCipher (key salt : list Z) : Cipher :=
  expandKeyWithSalt key salt initCipher.

(** a [uint32] from four bytes and back, the first the most significant *)
Definition bigEndian (b : list Z) : Z :=
  foldl (fun acc x => 256 * acc + x) 0 b.

Definition bigEndianBytes (w : Z) : list Z :=
  map (fun i => Z.land (Z.shiftr w (8 * i)) 255) [3; 2; 1; 0].

(** [c.Encrypt(dst, src)] on a block of eight bytes *)
Definition Encrypt (c : Cipher) (src : list Z) : list Z :=
  let '(l, r) := encryptBlock (bigEndian (take 4 src))
                              (bigEndian (take 4 (drop 4 src))) c in
  (bigEndianBytes l ++ bigEndianBytes r)%list.

End Blowfish.

(** ** Package [golang.org/x/crypto/bcrypt]: [CompareHashAndPassword] *)

Module Bcrypt.

Definition MinCost : Z := 4.
Definition MaxCost : Z := 31.
Definition majorVersion : ascii := "2".
Definition maxCryptedHashSize : nat := 23.
Definition encodedSaltSize : nat := 22.
Definition encodedHashSize : nat := 31.
Definition minHashSize : nat := 59.

(** the errors of the package, and those of [strconv] and of
    [encoding/base64] that it passes on *)
Inductive Failure :=
| ErrMismatchedHashAndPassword
| ErrHashTooShort
| HashVersionTooNewError (version : ascii)
| InvalidHashPrefixError (first : ascii)
| InvalidCostError (cost : Z)
| NumError (digits : string)
| CorruptInputError (position : Z).

(** [err.Error()]; the digits that [strconv.Atoi] refuses are quoted as they
    are, which is what [strconv.Quote] does with printable characters *)
Definition Error (e : Failure) : error :=
  match e with
  | ErrMismatchedHashAndPassword =>
      "crypto/bcrypt: hashedPassword is not the hash of the given password"
  | ErrHashTooShort =>
      "crypto/bcrypt: hashedSecret too short to be a bcrypted password"
  | HashVersionTooNewError version =>
      "crypto/bcrypt: bcrypt algorithm version '" +:+ String version
        ("' requested is newer than current version '"
           +:+ String majorVersion "'")
  | InvalidHashPrefixError first =>
      "crypto/bcrypt: bcrypt hashes must start with '$', but hashedSecret started with '"
        +:+ String first "'"
  | InvalidCostError cost =>
      "crypto/bcrypt: cost " +:+ pretty cost
        +:+ " is outside allowed range (" +:+ pretty MinCost +:+ ","
        +:+ pretty MaxCost +:+ ")"
  | NumError digits =>
      "strconv.Atoi: parsing " +:+ String "034" (digits +:+ String "034" ": invalid syntax")
  | CorruptInputError position =>
      "illegal base64 data at input byte " +:+ pretty position
  end.

(** the alphabet of [bcEncoding] *)
Definition alphabet : string :=
  "./ABCDEFGHIJKLMNOPQRSTUVWXYZabcdefghijklmnopqrstuvwxyz0123456789".

(** the place of a character in the alphabet *)
Fixpoint place (a : ascii) (letters : string) (i : Z) : option Z :=
  match letters with
  | EmptyString => None
  | String b letters => if Ascii.eqb a b then Some i else place a letters (i + 1)
  end.

(** the values of six bits of the characters, or the position of the first
    character that is not of the alphabet *)
Fixpoint sextets (src : list ascii) (i : Z) : list Z + Z :=
  match src with
  | [] => inl []
  | a :: src =>
      match place a alphabet 0 with
      | None => inr i
      | Some v => match sextets src (i + 1) with
                  | inl vs => inl (v :: vs)
                  | inr j => inr j
                  end
      end
  end.

(** the bytes of quanta of four values; the last quantum may have two or
    three *)
Fixpoint unpack (vs : list Z) : list Z :=
  match vs with
  | a :: b :: c :: d :: vs =>
      (a * 4 + b / 16) :: (b mod 16 * 16 + c / 4) :: (c mod 4 * 64 + d) :: unpack vs
  | [a; b; c] => [a * 4 + b / 16; b mod 16 * 16 + c / 4]
  | [a; b] => [a * 4 + b / 16]
  | _ => []
  end.

(** [base64Decode] of a salt: the padding that it appends stands for the
    values that a last quantum lacks *)
Definition base64Decode (src : list ascii) : list Z + Z :=
  match sextets src 0 with
  | inl vs => inl (unpack vs)
  | inr i => inr i
  end.

Definition letter (v : Z) : ascii :=
  default "."%char (list_ascii_of_string alphabet !! Z.to_nat v).

(** [base64Encode]: the characters of the bytes, without the padding *)
Fixpoint base64Encode (src : list Z) : list ascii :=
  match src with
  | a :: b :: c :: src =>
      letter (a / 4) :: letter (a mod 4 * 16 + b / 16)
        :: letter (b mod 16 * 4 + c / 64) :: letter (c mod 64) :: base64Encode src
  | [a; b] => [letter (a / 4); letter (a mod 4 * 16 + b / 16); letter (b mod 16 * 4)]
  | [a] => [letter (a / 4); letter (a mod 4 * 16)]
  | [] => []
  end.

(** [OrpheanBeholderScryDoubt] *)
Definition magicCipherData : list Z :=
  [0x4f; 0x72; 0x70; 0x68; 0x65; 0x61; 0x6e; 0x42;
   0x65; 0x68; 0x6f; 0x6c; 0x64; 0x65; 0x72; 0x53;
   0x63; 0x72; 0x79; 0x44; 0x6f; 0x75; 0x62; 0x74].

(** [expensiveBlowfishSetup(key, cost, salt)], the salt already decoded: the
    key is expanded with the zero byte that ends a C string *)
Definition expensiveBlowfishSetup (key : list Z) (cost : Z) (csalt : list Z)
  : Blowfish.Cipher :=
  let ckey := (key ++ [0])%list in
  let c := Blowfish.NewSaltedCipher ckey csalt in
  N.iter (N.shiftl 1 (Z.to_N cost))
         (fun c => Blowfish.ExpandKey csalt (Blowfish.ExpandKey ckey c)) c.

(** [bcrypt(password, cost, salt)]: each block of the magic text is
    encrypted 64 times, and 23 of the 24 bytes are encoded *)
Definition bcrypt (password : list Z) (cost : Z) (salt : list ascii)
  : list ascii + Failure :=
  match base64Decode salt with
  | inr i => inr (CorruptInputError i)
  | inl csalt =>
      let c := expensiveBlowfishSetup password cost csalt in
      let block (i : nat) : list Z :=
        Nat.iter 64 (Blowfish.Encrypt c) (take 8 (drop i magicCipherData)) in
      let cipherData := (block 0%nat ++ block 8%nat ++ block 16%nat)%list in
      inl (base64Encode (take maxCryptedHashSize cipherData))
  end.

(** [hashed]; a [minor] of zero is no minor version *)
Record hashed := mkHashed {
  hash : list ascii;
  salt : list ascii;
  cost : Z;
  major : ascii;
  minor : ascii
}.

(** [strconv.Atoi] of the two characters of a cost: digits, after a sign or
    not *)
Definition digit (a : ascii) : option Z :=
  let n := Z.of_N (N_of_ascii a) in
  if (48 <=? n) && (n <=? 57) then Some (n - 48) else None.

Definition Atoi (s : list ascii) : option Z :=
  match s with
  | [a; b] =>
      match digit a, digit b with
      | Some x, Some y => Some (10 * x + y)
      | None, Some y =>
          if Ascii.eqb a "+" then Some y
          else if Ascii.eqb a "-" then Some (- y) else None
      | _, None => None
      end
  | _ => None
  end.

(** [newFromHash]: the version with [decodeVersion], the cost with
    [decodeCost], then the salt and what is left as the hash *)
Definition newFromHash (hashedSecret : list ascii) : hashed + Failure :=
  if (length hashedSecret <? minHashSize)%nat then inr ErrHashTooShort
  else
    match hashedSecret with
    | first :: version :: third :: _ =>
        if negb (Ascii.eqb first "$") then inr (InvalidHashPrefixError first)
        else if (N_of_ascii majorVersion <? N_of_ascii version)%N
             then inr (HashVersionTooNewError version)
             else
               let '(minor, n) := if Ascii.eqb third "$" then (zero, 3%nat)
                                  else (third, 4%nat) in
               let hashedSecret := drop n hashedSecret in
               match Atoi (take 2 hashedSecret) with
               | None => inr (NumError (string_of_list_ascii (take 2 hashedSecret)))
               | Some cost =>
                   if (cost <? MinCost) || (MaxCost <? cost)
                   then inr (InvalidCostError cost)
                   else
                     let hashedSecret := drop 3 hashedSecret in
                     inl (mkHashed (drop encodedSaltSize hashedSecret)
                                   (take encodedSaltSize hashedSecret)
                                   cost version minor)
               end
    | _ => inr ErrHashTooShort
    end.

(** [fmt.Sprintf("%02d", cost)] for a cost that [checkCost] accepts *)
Definition twoDigits (cost : Z) : list ascii :=
  list_ascii_of_string ((if cost <? 10 then "0" else EmptyString) +:+ pretty cost).

(** [p.Hash()]: an array of 60 zero bytes, filled from its head, of which
    the version, the cost, the salt and [encodedHashSize] more bytes are
    returned *)
Definition Hash (h : hashed) : list ascii :=
  let head := ("$"%char :: major h
               :: (if Ascii.eqb (minor h) zero then [] else [minor h])
               ++ "$"%char :: twoDigits (cost h) ++ "$"%char :: salt h)%list in
  let arr := take 60 (head ++ hash h ++ replicate 60 zero)%list in
  take (length head + encodedHashSize) arr.

(** [CompareHashAndPassword(hashedPassword, password)] *)
Definition compare (hashedPassword password : string) : option Failure :=
  match newFromHash (list_ascii_of_string hashedPassword) with
  | inr e => Some e
  | inl p =>
      match bcrypt (Murmur3.bytes password) (cost p) (salt p) with
      | inr e => Some e
      | inl otherHash =>
          let otherP := mkHashed otherHash (salt p) (cost p) (major p) (minor p) in
          if decide (Hash p = Hash otherP) then None
          else Some ErrMismatchedHashAndPassword
      end
  end.

Definition CompareHashAndPassword (hashedPassword password : string)
  : option error :=
  Error <$> compare hashedPassword password.

End Bcrypt.

(** ** A stored hash and two passwords with one fingerprint *)

Module Login.
Import BasicAuth.

(** the hash that bcrypt makes of [goodPassword] at the cost 4 with the salt
    [N9qo8uLOickgx2ZMRZoMye] *)
Definition storedHash : string :=
  "$2a$04$N9qo8uLOickgx2ZMRZoMyejhX7rfEcAm7CzMs0.nmD/sI947bc59S".

Definition goodPassword : string := "correct-horse-battery-staple-001".

(** another password of 32 bytes: its second block of 16 bytes brings the
    hasher of murmur3 to the state that [goodPassword] leaves it in *)
Definition wrongPassword : string := "wrong-pwacexevj1MdTxO2woH_C6THTg".

Definition mismatch : error :=
  "crypto/bcrypt: hashedPassword is not the hash of the given password".

(** a middleware that caches, with [CacheTTL] set to [ttl] *)
Definition verifier (ttl : Z) : BasicAuthKeyIsValid :=
  Samples.middleware (mkBasicAuthConf false ttl false)
    (Samples.store "org1alice" (Samples.session HashBCrypt storedHash)).

(** [compareHashAndPassword] on the two hashes of the libraries *)
Definition verify (ttl : Z) (password : string) (now : GoTime.Time)
  : M (option error) :=
  compareHashAndPassword Bcrypt.CompareHashAndPassword Murmur3.Sum
                         (verifier ttl) storedHash password now.

End Login.

(** * Properties *)

(** ** Facts about [encoding/base64] *)

Module Base64Facts.
Import Base64.

Local Open Scope N_scope.

Local Ltac euclid := zify; Z.to_euclidean_division_equations; lia.

(** a [lor] whose operands share no bit is a sum *)
Lemma lor_disjoint_add (x b k : N) :
  x mod 2 ^ k = 0 -> b < 2 ^ k -> N.lor x b = x + b.
Proof.
  intros Hx Hb.
  assert (Hpow : 2 ^ k <> 0) by (apply N.pow_nonzero; discriminate).
  assert (Hd : N.land x b = 0).
  { apply N.bits_inj. intros n. rewrite N.land_spec, N.bits_0.
    destruct (N.lt_ge_cases n k) as [Hn|Hn].
    - rewrite <- (N.mod_pow2_bits_low x k n Hn), Hx, N.bits_0. reflexivity.
    - rewrite (N.testbit_eqb b), N.div_small, Bool.andb_false_r; [reflexivity|].
      apply N.lt_le_trans with (2 ^ k); [assumption|].
      apply N.pow_le_mono_r; [discriminate | assumption]. }
  rewrite <- N.lxor_lor, <- N.add_nocarry_lxor by assumption. reflexivity.
Qed.

Lemma land_63 (x : N) : N.land x 63 = x mod 64.
Proof. change 63 with (N.ones 6). rewrite N.land_ones. reflexivity. Qed.

(** the value [val] of three source bytes *)
Lemma val_of_bytes (a b c : N) :
  a < 256 -> b < 256 -> c < 256 ->
  N.lor (N.lor (N.shiftl a 16) (N.shiftl b 8)) c = a * 65536 + b * 256 + c.
Proof.
  intros Ha Hb Hc. rewrite !N.shiftl_mul_pow2.
  change (2 ^ 16) with 65536. change (2 ^ 8) with 256.
  rewrite (lor_disjoint_add (a * 65536) (b * 256) 16);
    [| change (2 ^ 16) with 65536; euclid | change (2 ^ 16) with 65536; lia].
  rewrite (lor_disjoint_add _ c 8);
    [reflexivity | change (2 ^ 8) with 256; euclid | exact Hc].
Qed.

(** the value [val] of four decoded characters *)
Lemma val_of_sextets (d0 d1 d2 d3 : N) :
  d0 < 64 -> d1 < 64 -> d2 < 64 -> d3 < 64 ->
  N.lor (N.lor (N.lor (N.shiftl d0 18) (N.shiftl d1 12)) (N.shiftl d2 6)) d3
  = d0 * 262144 + d1 * 4096 + d2 * 64 + d3.
Proof.
  intros H0 H1 H2 H3. rewrite !N.shiftl_mul_pow2.
  change (2 ^ 18) with 262144. change (2 ^ 12) with 4096. change (2 ^ 6) with 64.
  rewrite (lor_disjoint_add (d0 * 262144) (d1 * 4096) 18);
    [| change (2 ^ 18) with 262144; euclid | change (2 ^ 18) with 262144; lia].
  rewrite (lor_disjoint_add _ (d2 * 64) 12);
    [| change (2 ^ 12) with 4096; euclid | change (2 ^ 12) with 4096; lia].
  rewrite (lor_disjoint_add _ d3 6);
    [reflexivity | change (2 ^ 6) with 64; euclid | exact H3].
Qed.

Lemma decodeMap_encodeChar (i : N) :
  i < 64 -> decodeMap (encodeChar i) = Some i.
Proof.
  intros Hi. destruct i as [|p]; [reflexivity|].
  do 6 (destruct p as [p|p|]; try reflexivity); lia.
Qed.

(** a character of the alphabet is neither padding, nor a newline, nor a
    space *)
Lemma encodeChar_plain (i : N) :
  i < 64 ->
  Ascii.eqb (encodeChar i) padChar = false /\
  isNewline (encodeChar i) = false /\
  Ascii.eqb (encodeChar i) " " = false.
Proof.
  intros Hi. destruct i as [|p]; [repeat split; reflexivity|].
  do 6 (destruct p as [p|p|]; try (repeat split; reflexivity)); lia.
Qed.

Lemma byte_of_ascii (a : ascii) (n : N) :
  n mod 256 = N_of_ascii a -> byte n = a.
Proof. intros H. unfold byte. rewrite H. apply ascii_N_embedding. Qed.

Lemma sextet_lt (x : N) : N.land x 63 < 64.
Proof. rewrite land_63. apply N.mod_lt. discriminate. Qed.

(** one quantum, taken apart and put together again *)
Lemma quantum4 (a b c : ascii) :
  let val := N.lor (N.lor (N.shiftl (N_of_ascii a) 16)
                          (N.shiftl (N_of_ascii b) 8)) (N_of_ascii c) in
  quantumBytes 4 (N.land (N.shiftr val 18) 63) (N.land (N.shiftr val 12) 63)
               (N.land (N.shiftr val 6) 63) (N.land val 63)
  = String a (String b (String c EmptyString)).
Proof.
  intros val. unfold quantumBytes.
  pose proof (N_ascii_bounded a) as Ha.
  pose proof (N_ascii_bounded b) as Hb.
  pose proof (N_ascii_bounded c) as Hc.
  rewrite val_of_sextets by apply sextet_lt.
  subst val. rewrite val_of_bytes by assumption.
  rewrite !land_63, !N.shiftr_div_pow2.
  change (2 ^ 18) with 262144. change (2 ^ 16) with 65536.
  change (2 ^ 12) with 4096. change (2 ^ 8) with 256. change (2 ^ 6) with 64.
  f_equal; [|f_equal; [|f_equal]]; apply byte_of_ascii; euclid.
Qed.

Lemma quantum3 (a b : ascii) :
  let val := N.lor (N.shiftl (N_of_ascii a) 16) (N.shiftl (N_of_ascii b) 8) in
  quantumBytes 3 (N.land (N.shiftr val 18) 63) (N.land (N.shiftr val 12) 63)
               (N.land (N.shiftr val 6) 63) 0
  = String a (String b EmptyString).
Proof.
  intros val. unfold quantumBytes.
  pose proof (N_ascii_bounded a) as Ha.
  pose proof (N_ascii_bounded b) as Hb.
  rewrite val_of_sextets by (try apply sextet_lt; reflexivity).
  assert (Hval : val = N_of_ascii a * 65536 + N_of_ascii b * 256 + 0).
  { subst val. rewrite <- val_of_bytes by (try assumption; reflexivity).
    rewrite N.lor_0_r. reflexivity. }
  rewrite Hval, !land_63, !N.shiftr_div_pow2.
  change (2 ^ 18) with 262144. change (2 ^ 16) with 65536.
  change (2 ^ 12) with 4096. change (2 ^ 8) with 256. change (2 ^ 6) with 64.
  f_equal; [|f_equal]; apply byte_of_ascii; euclid.
Qed.

Lemma quantum2 (a : ascii) :
  let val := N.shiftl (N_of_ascii a) 16 in
  quantumBytes 2 (N.land (N.shiftr val 18) 63) (N.land (N.shiftr val 12) 63) 0 0
  = String a EmptyString.
Proof.
  intros val. unfold quantumBytes.
  pose proof (N_ascii_bounded a) as Ha.
  rewrite val_of_sextets by (try apply sextet_lt; reflexivity).
  subst val. rewrite !land_63, !N.shiftr_div_pow2, N.shiftl_mul_pow2.
  change (2 ^ 18) with 262144. change (2 ^ 16) with 65536.
  change (2 ^ 12) with 4096.
  f_equal; apply byte_of_ascii; euclid.
Qed.

Lemma string_triples_ind (P : string -> Prop) :
  P EmptyString ->
  (forall a, P (String a EmptyString)) ->
  (forall a b, P (String a (String b EmptyString))) ->
  (forall a b c s, P s -> P (String a (String b (String c s)))) ->
  forall s, P s.
Proof.
  intros H0 H1 H2 H3.
  assert (H : forall s, P s /\ (forall a, P (String a s))
                        /\ (forall a b, P (String a (String b s)))).
  { induction s as [|c s [IH0 [IH1 IH2]]].
    - repeat split; auto.
    - repeat split; auto. }
  intros s. apply H.
Qed.

Lemma decodeQuanta_full (d0 d1 d2 d3 : N) (rest : string) :
  d0 < 64 -> d1 < 64 -> d2 < 64 -> d3 < 64 ->
  decodeQuanta (String (encodeChar d0) (String (encodeChar d1)
                  (String (encodeChar d2) (String (encodeChar d3) rest))))
  = match decodeQuanta rest with
    | Some tail => Some (quantumBytes 4 d0 d1 d2 d3 +:+ tail)
    | None => None
    end.
Proof.
  intros H0 H1 H2 H3. cbn [decodeQuanta].
  rewrite !decodeMap_encodeChar by assumption.
  destruct (encodeChar_plain d2 H2) as [-> _].
  destruct (encodeChar_plain d3 H3) as [-> _].
  reflexivity.
Qed.

Lemma decodeQuanta_pad1 (d0 d1 d2 : N) :
  d0 < 64 -> d1 < 64 -> d2 < 64 ->
  decodeQuanta (String (encodeChar d0) (String (encodeChar d1)
                  (String (encodeChar d2) (String padChar EmptyString))))
  = Some (quantumBytes 3 d0 d1 d2 0).
Proof.
  intros H0 H1 H2. cbn [decodeQuanta].
  rewrite !decodeMap_encodeChar by assumption.
  destruct (encodeChar_plain d2 H2) as [-> _].
  reflexivity.
Qed.

Lemma decodeQuanta_pad2 (d0 d1 : N) :
  d0 < 64 -> d1 < 64 ->
  decodeQuanta (String (encodeChar d0) (String (encodeChar d1)
                  (String padChar (String padChar EmptyString))))
  = Some (quantumBytes 2 d0 d1 0 0).
Proof.
  intros H0 H1. cbn [decodeQuanta].
  rewrite !decodeMap_encodeChar by assumption.
  reflexivity.
Qed.

Lemma decodeQuanta_EncodeToString (s : string) :
  decodeQuanta (EncodeToString s) = Some s.
Proof.
  induction s as [|a|a b|a b c s IH] using string_triples_ind.
  - reflexivity.
  - cbn [EncodeToString]. rewrite decodeQuanta_pad2 by apply sextet_lt.
    f_equal. apply quantum2.
  - cbn [EncodeToString]. rewrite decodeQuanta_pad1 by apply sextet_lt.
    f_equal. apply quantum3.
  - cbn [EncodeToString]. rewrite decodeQuanta_full by apply sextet_lt.
    rewrite IH. f_equal.
    pose proof (quantum4 a b c) as Hq. cbv zeta in Hq. rewrite Hq.
    reflexivity.
Qed.

Lemma plain_encodeChar (i : N) : i < 64 -> plain (encodeChar i).
Proof. intros Hi. destruct (encodeChar_plain i Hi) as (_ & ? & ?). now split. Qed.

Lemma plain_padChar : plain padChar.
Proof. split; reflexivity. Qed.

Lemma allPlain_EncodeToString (s : string) : allPlain (EncodeToString s).
Proof.
  induction s as [|a|a b|a b c s IH] using string_triples_ind;
    cbn [EncodeToString allPlain];
    repeat split;
    try (apply plain_encodeChar, sextet_lt); try apply plain_padChar;
    try exact IH; try exact I.
Qed.

Lemma dropNewlines_plain (s : string) : allPlain s -> dropNewlines s = s.
Proof.
  induction s as [|c s IH]; [reflexivity|].
  intros [[Hn _] Hs]. cbn [dropNewlines]. rewrite Hn, IH; auto.
Qed.

(** decoding undoes encoding *)
Lemma DecodeString_EncodeToString (s : string) :
  DecodeString (EncodeToString s) = Some s.
Proof.
  unfold DecodeString.
  rewrite dropNewlines_plain by apply allPlain_EncodeToString.
  apply decodeQuanta_EncodeToString.
Qed.

End Base64Facts.

(** ** Facts about [strings] *)

Module GoStringsFacts.
Import GoStrings.

(** the equations of [+:+], which does not unfold by itself *)
Lemma append_nil (s : string) : EmptyString +:+ s = s.
Proof. reflexivity. Qed.

Lemma append_cons (a : ascii) (u s : string) :
  String a u +:+ s = String a (u +:+ s).
Proof. reflexivity. Qed.

Lemma Split_nonempty (sep : ascii) (s : string) : Split sep s <> [].
Proof.
  destruct s as [|a s]; cbn [Split]; [discriminate|].
  destruct (Ascii.eqb a sep); [discriminate|].
  destruct (Split sep s); discriminate.
Qed.

(** one field more than there are separators *)
Lemma Split_length (sep : ascii) (s : string) :
  length (Split sep s) = S (Count sep s).
Proof.
  induction s as [|a s IH]; [reflexivity|].
  cbn [Split Count]. destruct (Ascii.eqb a sep).
  - cbn [length]. rewrite IH. reflexivity.
  - destruct (Split sep s) as [|f fs] eqn:E; [discriminate IH|].
    cbn [length] in *. exact IH.
Qed.

Lemma Split_none (sep : ascii) (s : string) :
  Count sep s = 0%nat -> Split sep s = [s].
Proof.
  induction s as [|a s IH]; [reflexivity|].
  cbn [Split Count]. destruct (Ascii.eqb a sep); [discriminate|].
  intros H. rewrite IH by exact H. reflexivity.
Qed.

(** the first field ends at the first separator *)
Lemma Split_app (sep : ascii) (u v : string) :
  Count sep u = 0%nat ->
  Split sep (u +:+ String sep v) = u :: Split sep v.
Proof.
  induction u as [|a u IH];
    rewrite ?append_nil, ?append_cons; cbn [Split Count].
  - intros _. rewrite Ascii.eqb_refl. reflexivity.
  - destruct (Ascii.eqb a sep); [discriminate|].
    intros H. rewrite IH by exact H. reflexivity.
Qed.

Lemma Split_two (sep : ascii) (u v : string) :
  Count sep u = 0%nat -> Count sep v = 0%nat ->
  Split sep (u +:+ String sep v) = [u; v].
Proof.
  intros Hu Hv. rewrite Split_app by exact Hu.
  rewrite Split_none by exact Hv. reflexivity.
Qed.

(** exactly two fields: exactly one separator *)
Lemma Split_two_inv (sep : ascii) (s u v : string) :
  Split sep s = [u; v] ->
  s = u +:+ String sep v /\ Count sep u = 0%nat /\ Count sep v = 0%nat.
Proof.
  revert u. induction s as [|a s IH]; intros u; cbn [Split].
  - discriminate.
  - destruct (Ascii.eqb_spec a sep) as [->|Hne].
    + intros H. injection H as <- H.
      assert (Hc : Count sep s = 0%nat).
      { pose proof (Split_length sep s) as L. rewrite H in L.
        cbn [length] in L. lia. }
      rewrite Split_none in H by exact Hc. injection H as ->.
      repeat split; try reflexivity; exact Hc.
    + destruct (Split sep s) as [|f fs] eqn:E; [discriminate|].
      intros H. injection H as <- ->.
      destruct (IH f eq_refl) as (-> & Hf & Hv).
      repeat split; [| exact Hv].
      cbn [Count]. destruct (Ascii.eqb_spec a sep); [contradiction | exact Hf].
Qed.

Lemma Count_app (sep : ascii) (u v : string) :
  Count sep (u +:+ v) = (Count sep u + Count sep v)%nat.
Proof.
  induction u as [|a u IH]; [reflexivity|].
  rewrite append_cons. cbn [Count]. rewrite IH. lia.
Qed.

Lemma substring_all (s : string) : substring 0 (String.length s) s = s.
Proof. induction s as [|a s IH]; [reflexivity|]. cbn. rewrite IH. reflexivity. Qed.

(** [TrimPrefix] of one leading byte *)
Lemma TrimPrefix_head (c : ascii) (s : string) :
  TrimPrefix (String c s) (String c EmptyString) = s.
Proof.
  unfold TrimPrefix, HasPrefix. cbn [String.prefix].
  destruct (ascii_dec c c) as [_|N]; [|contradiction].
  assert (Hp : String.prefix EmptyString s = true) by (destruct s; reflexivity).
  rewrite Hp. cbn [String.length substring].
  replace (S (String.length s) - 1)%nat with (String.length s) by lia.
  apply substring_all.
Qed.

End GoStringsFacts.

(** ** Facts about header maps *)

Module HttpFacts.

Lemma Has_Add (h : Http.Header) (key value : string) :
  Http.Has (Http.Add h key value) key = true.
Proof.
  unfold Http.Has, Http.Add. rewrite lookup_insert_eq.
  destruct (default [] (h !! key)); reflexivity.
Qed.

Lemma Has_Del (h : Http.Header) (key : string) :
  Http.Has (Http.Del h key) key = false.
Proof. unfold Http.Has, Http.Del. rewrite lookup_delete_eq. reflexivity. Qed.

Lemma Get_Set (h : Http.Header) (key value : string) :
  Http.Get (Http.Set' h key value) key = value.
Proof. unfold Http.Get, Http.Set'. rewrite lookup_insert_eq. reflexivity. Qed.

(** adding a value never changes what [Get] returns for a key that is set *)
Lemma Get_Add_Set (h : Http.Header) (key other value v : string) :
  Http.Get h key = value -> Http.Has h key = true ->
  Http.Get (Http.Add h other v) key = value /\
  Http.Has (Http.Add h other v) key = true.
Proof.
  unfold Http.Get, Http.Has, Http.Add. intros HG HH.
  destruct (decide (other = key)) as [->|Hne].
  - rewrite lookup_insert_eq. destruct (h !! key) as [[|x l]|]; try discriminate.
    cbn. split; [exact HG | reflexivity].
  - rewrite lookup_insert_ne by exact Hne. split; assumption.
Qed.

End HttpFacts.

(** ** Credential extraction from the [Authorization] header *)

Module ExtractionFacts.
Import GoStrings GoStringsFacts Base64 Base64Facts BasicAuth.

Lemma string_quads_ind (P : string -> Prop) :
  P EmptyString ->
  (forall a, P (String a EmptyString)) ->
  (forall a b, P (String a (String b EmptyString))) ->
  (forall a b c, P (String a (String b (String c EmptyString)))) ->
  (forall a b c d s, P s -> P (String a (String b (String c (String d s))))) ->
  forall s, P s.
Proof.
  intros H0 H1 H2 H3 H4.
  assert (H : forall s, P s /\ (forall a, P (String a s))
                        /\ (forall a b, P (String a (String b s)))
                        /\ (forall a b c, P (String a (String b (String c s))))).
  { induction s as [|c s (IH0 & IH1 & IH2 & IH3)]; repeat split; auto. }
  intros s. apply H.
Qed.

Lemma decodeMap_not_space (c : ascii) (i : N) :
  decodeMap c = Some i -> Ascii.eqb c " " = false.
Proof.
  intros H. destruct (Ascii.eqb_spec c " ") as [->|_]; [discriminate H | reflexivity].
Qed.

Lemma padChar_not_space (c : ascii) :
  Ascii.eqb c padChar = true -> Ascii.eqb c " " = false.
Proof. intros H. apply Ascii.eqb_eq in H. subst c. reflexivity. Qed.

(** the decoder accepts no space *)
Lemma decodeQuanta_no_space (s d : string) :
  decodeQuanta s = Some d -> Count " " s = 0%nat.
Proof.
  revert d.
  induction s as [|a|a b|a b c|a b c e s IH] using string_quads_ind;
    intros d; try discriminate; [reflexivity|].
  cbn [decodeQuanta Count].
  destruct (decodeMap a) as [d0|] eqn:Ea; [|discriminate].
  destruct (decodeMap b) as [d1|] eqn:Eb; [|discriminate].
  rewrite (decodeMap_not_space a d0 Ea), (decodeMap_not_space b d1 Eb).
  destruct (Ascii.eqb c padChar) eqn:Ec.
  - rewrite (padChar_not_space c Ec).
    destruct (Ascii.eqb e padChar) eqn:Ee; [|discriminate].
    rewrite (padChar_not_space e Ee).
    destruct (String.eqb_spec s EmptyString) as [->|_]; [reflexivity | discriminate].
  - destruct (decodeMap c) as [d2|] eqn:Ec'; [|discriminate].
    rewrite (decodeMap_not_space c d2 Ec').
    destruct (Ascii.eqb e padChar) eqn:Ee.
    + rewrite (padChar_not_space e Ee).
      destruct (String.eqb_spec s EmptyString) as [->|_]; [reflexivity | discriminate].
    + destruct (decodeMap e) as [d3|] eqn:Ee'; [|discriminate].
      rewrite (decodeMap_not_space e d3 Ee').
      destruct (decodeQuanta s) as [tail|] eqn:Es; [|discriminate].
      intros _. apply (IH tail eq_refl).
Qed.

Lemma Count_space_dropNewlines (s : string) :
  Count " " (dropNewlines s) = Count " " s.
Proof.
  induction s as [|a s IH]; [reflexivity|].
  cbn [dropNewlines Count]. destruct (isNewline a) eqn:En.
  - rewrite IH. unfold isNewline in En.
    destruct (Ascii.eqb_spec a " ") as [->|_]; [discriminate En | reflexivity].
  - cbn [Count]. rewrite IH. reflexivity.
Qed.

Lemma DecodeString_no_space (s d : string) :
  DecodeString s = Some d -> Count " " s = 0%nat.
Proof.
  unfold DecodeString. intros H. rewrite <- Count_space_dropNewlines.
  exact (decodeQuanta_no_space _ _ H).
Qed.

(** the unfolding of the monad of the middleware *)
Ltac run :=
  cbv [mbind M_bind mret M_ret emit onHeader onCache readCache
       BasicAuth.ctxSetSession].

Ltac run_in H :=
  cbv [mbind M_bind mret M_ret emit onHeader onCache readCache
       BasicAuth.ctxSetSession] in H.

Section Header.

Variable k : BasicAuthKeyIsValid.
Variable r : Request.
Variable w : World.

Let token := Http.Get (ReqHeader r) "Authorization".

(** two tokens, of which the second decodes to [user:pass] *)
Lemma header_ok (scheme payload user pass : string) :
  token = scheme +:+ String " " payload ->
  Count " " scheme = 0%nat ->
  DecodeString payload = Some (user +:+ String ":" pass) ->
  Count ":" user = 0%nat -> Count ":" pass = 0%nat ->
  basicAuthHeaderCredentials k r w = ((user, pass, None, 0), w).
Proof.
  intros Ht Hs Hd Hu Hp. unfold basicAuthHeaderCredentials.
  fold token. rewrite Ht.
  destruct (String.eqb_spec (scheme +:+ String " " payload) EmptyString) as [E|_].
  { destruct scheme; discriminate E. }
  rewrite (Split_two " " scheme payload Hs (DecodeString_no_space _ _ Hd)).
  rewrite Hd, (Split_two ":" user pass Hu Hp). reflexivity.
Qed.

Lemma header_absent :
  token = EmptyString ->
  basicAuthHeaderCredentials k r w
  = ((EmptyString, EmptyString, Some "Authorization field missing",
      Http.StatusUnauthorized),
     mkWorld (Http.Add (respHeader w) "WWW-Authenticate" (authReply k))
             (basicAuthCache w) (ctxSession w)
             (trace w ++ [Log Info "Attempted access with malformed header, no auth header found."])%list).
Proof.
  intros Ht. unfold basicAuthHeaderCredentials. fold token. rewrite Ht.
  reflexivity.
Qed.

End Header.

End ExtractionFacts.

(** ** Password verification behind the fingerprint cache *)

Module VerificationFacts.
Import BasicAuth ExtractionFacts.

Lemma slowCalls_app (t u : list Event) :
  slowCalls (t ++ u) = (slowCalls t ++ slowCalls u)%list.
Proof.
  induction t as [|e t IH]; [reflexivity|].
  destruct e; cbn [app slowCalls]; rewrite IH; reflexivity.
Qed.

Lemma lookups_app (t u : list Event) :
  lookups (t ++ u) = (lookups t ++ lookups u)%list.
Proof.
  induction t as [|e t IH]; [reflexivity|].
  destruct e; cbn [app lookups]; rewrite IH; reflexivity.
Qed.

(** [time.Duration(n) * time.Second] is [n] seconds as long as the
    nanoseconds fit the [int64] *)
Lemma seconds_exact (n : Z) :
  -9223372036 <= n <= 9223372036 ->
  GoTime.mul n GoTime.Second = n * 1000000000.
Proof.
  intros H. unfold GoTime.mul, GoTime.wrap64, GoTime.Second.
  change (2 ^ 63) with 9223372036854775808.
  change (2 ^ 64) with 18446744073709551616.
  rewrite Z.mod_small by lia. lia.
Qed.

Lemma defaultBasicAuthTTL_value : defaultBasicAuthTTL = 60000000000.
Proof. reflexivity. Qed.

Section Verify.

Variable bcrypt : string -> string -> option error.
Variable murmur3 : string -> string.
Variable k : BasicAuthKeyIsValid.

Let compare := compareHashAndPassword bcrypt murmur3 k.

Lemma compare_disabled (hash password : string) (now : GoTime.Time) (w : World) :
  DisableCaching (BasicAuth (Spec k)) = true ->
  compare hash password now w
  = (bcrypt hash password,
     mkWorld (respHeader w) (basicAuthCache w) (ctxSession w)
             (trace w ++ [Log Debug "cache disabled"]
                      ++ [BcryptCompare hash password])%list).
Proof.
  intros Hd. unfold compare, compareHashAndPassword, bcryptCompare.
  rewrite Hd. run. cbn. rewrite <- app_assoc. reflexivity.
Qed.

Lemma compare_hit_equal (hash password : string) (now : GoTime.Time) (w : World) :
  DisableCaching (BasicAuth (Spec k)) = false ->
  GoCache.Get (basicAuthCache w) hash now = Some (murmur3 password) ->
  compare hash password now w
  = (None,
     mkWorld (respHeader w) (basicAuthCache w) (ctxSession w)
             (trace w ++ [Log Debug "cache enabled: hit: success"])%list).
Proof.
  intros Hd Hg. unfold compare, compareHashAndPassword.
  rewrite Hd. run. cbn. rewrite Hg, String.eqb_refl. reflexivity.
Qed.

Lemma compare_hit_differ (hash password cached : string) (now : GoTime.Time)
      (w : World) :
  DisableCaching (BasicAuth (Spec k)) = false ->
  GoCache.Get (basicAuthCache w) hash now = Some cached ->
  cached <> murmur3 password ->
  compare hash password now w
  = (bcrypt hash password,
     mkWorld (respHeader w) (basicAuthCache w) (ctxSession w)
             (trace w ++ [Log Warn "cache enabled: hit: failed auth: bcrypt"]
                      ++ [BcryptCompare hash password])%list).
Proof.
  intros Hd Hg Hne. unfold compare, compareHashAndPassword, bcryptCompare.
  rewrite Hd. run. cbn. rewrite Hg.
  destruct (String.eqb_spec cached (murmur3 password)) as [E|_]; [contradiction|].
  cbn. rewrite <- app_assoc. reflexivity.
Qed.

Lemma compare_miss_ok (hash password : string) (now : GoTime.Time) (w : World) :
  DisableCaching (BasicAuth (Spec k)) = false ->
  GoCache.Get (basicAuthCache w) hash now = None ->
  bcrypt hash password = None ->
  compare hash password now w
  = (None,
     mkWorld (respHeader w)
             (GoCache.Set' (basicAuthCache w) hash (murmur3 password)
                           (cacheTTL k) now)
             (ctxSession w)
             (trace w ++ [Log Debug "cache enabled: miss: bcrypt"]
                      ++ [BcryptCompare hash password])%list).
Proof.
  intros Hd Hg Hb.
  unfold compare, compareHashAndPassword, doBcryptWithCache, bcryptCompare.
  rewrite Hd. run. cbn. rewrite Hg. cbn. rewrite Hb, <- app_assoc. reflexivity.
Qed.

Lemma compare_miss_fail (hash password : string) (e : error)
      (now : GoTime.Time) (w : World) :
  DisableCaching (BasicAuth (Spec k)) = false ->
  GoCache.Get (basicAuthCache w) hash now = None ->
  bcrypt hash password = Some e ->
  compare hash password now w
  = (Some e,
     mkWorld (respHeader w) (basicAuthCache w) (ctxSession w)
             (trace w ++ [Log Debug "cache enabled: miss: bcrypt"]
                      ++ [BcryptCompare hash password])%list).
Proof.
  intros Hd Hg Hb.
  unfold compare, compareHashAndPassword, doBcryptWithCache, bcryptCompare.
  rewrite Hd. run. cbn. rewrite Hg. cbn. rewrite Hb, <- app_assoc. reflexivity.
Qed.

End Verify.

End VerificationFacts.

(** ** Fingerprints of eight bytes collide *)

Module CollisionFacts.
Import GoStrings BasicAuth VerificationFacts.

Local Open Scope N_scope.

Lemma bounded_search (P : N -> Prop) (dec : forall i, {P i} + {~ P i}) (M : N) :
  (exists i, i <= M /\ P i) \/ (forall i, i <= M -> ~ P i).
Proof.
  induction M as [|M IH] using N.peano_ind.
  - destruct (dec 0) as [H|H].
    + left. exists 0. split; [lia | exact H].
    + right. intros i Hi. assert (i = 0) as -> by lia. exact H.
  - destruct IH as [(i & Hi & HP)|IH].
    + left. exists i. split; [lia | exact HP].
    + destruct (dec (N.succ M)) as [H|H].
      * left. exists (N.succ M). split; [lia | exact H].
      * right. intros i Hi.
        destruct (N.eq_dec i (N.succ M)) as [->|Hne]; [exact H|].
        apply IH. lia.
Qed.

(** [M + 1] numbers below [M]: two of them are equal *)
Lemma pigeonhole (M : N) (g : N -> N) :
  (forall i, i <= M -> g i < M) ->
  exists i j, i < j /\ j <= M /\ g i = g j.
Proof.
  revert g. induction M as [|M IH] using N.peano_ind; intros g Hg.
  - specialize (Hg 0). lia.
  - set (v := g (N.succ M)).
    destruct (bounded_search (fun i => g i = v) (fun i => N.eq_dec (g i) v) M)
      as [(i & Hi & Hv)|Hnone].
    + exists i, (N.succ M). repeat split; [lia | lia | exact Hv].
    + assert (Hv : v < N.succ M) by (apply Hg; lia).
      destruct (IH (fun i => if g i <? v then g i else N.pred (g i)))
        as (i & j & Hij & Hj & Heq).
      { intros i Hi. specialize (Hnone i Hi). cbv beta in Hnone.
        assert (g i < N.succ M) by (apply Hg; lia).
        destruct (N.ltb_spec (g i) v); lia. }
      exists i, j. repeat split; [exact Hij | lia |].
      assert (Hi' : g i <> v) by (apply Hnone; lia).
      assert (Hj' : g j <> v) by (apply Hnone; lia).
      cbv beta in Heq.
      destruct (N.ltb_spec (g i) v); destruct (N.ltb_spec (g j) v); lia.
Qed.

Lemma littleEndian_bound (s : string) :
  littleEndian s < 256 ^ N.of_nat (String.length s).
Proof.
  induction s as [|a s IH].
  - cbn. lia.
  - cbn [littleEndian String.length]. rewrite Nat2N.inj_succ, N.pow_succ_r'.
    pose proof (N_ascii_bounded a). lia.
Qed.

Lemma N_of_ascii_inj (a b : ascii) : N_of_ascii a = N_of_ascii b -> a = b.
Proof.
  intros H. rewrite <- (ascii_N_embedding a), <- (ascii_N_embedding b), H.
  reflexivity.
Qed.

Lemma littleEndian_inj (s t : string) :
  String.length s = String.length t -> littleEndian s = littleEndian t -> s = t.
Proof.
  revert t. induction s as [|a s IH]; intros [|b t]; try discriminate.
  - reflexivity.
  - cbn [String.length littleEndian]. intros Hl He.
    pose proof (N_ascii_bounded a). pose proof (N_ascii_bounded b).
    assert (N_of_ascii a = N_of_ascii b /\ littleEndian s = littleEndian t)
      as [Ha Hs] by lia.
    f_equal; [exact (N_of_ascii_inj a b Ha)|].
    apply IH; [congruence | exact Hs].
Qed.

(** a function to strings of eight bytes takes one value on two decimal
    numerals *)
Lemma eight_bytes_collide (f : string -> string) :
  (forall p, String.length (f p) = 8%nat) ->
  exists p q : string, p <> q /\ f p = f q.
Proof.
  intros Hlen.
  destruct (pigeonhole (256 ^ 8) (fun i => littleEndian (f (pretty i))))
    as (i & j & Hij & _ & Heq).
  { intros i _. pose proof (littleEndian_bound (f (pretty i))) as Hb.
    rewrite Hlen in Hb. exact Hb. }
  exists (pretty i), (pretty j). split.
  - intros E. apply (inj pretty) in E. lia.
  - apply littleEndian_inj; [rewrite !Hlen; reflexivity | exact Heq].
Qed.

Local Close Scope N_scope.

(** whatever the fingerprint of eight bytes and whatever the slow
    comparison: there are two passwords of which the second is accepted from
    the cache once the fingerprint of the first is in it *)
Lemma collision_is_trusted
      (bcrypt : string -> string -> option error) (murmur3 : string -> string) :
  (forall p, String.length (murmur3 p) = 8%nat) ->
  exists p q : string,
    p <> q
    /\ forall (k : BasicAuthKeyIsValid) (hash : string) (now : GoTime.Time)
              (w : World),
        DisableCaching (BasicAuth (Spec k)) = false ->
        GoCache.Get (basicAuthCache w) hash now = Some (murmur3 p) ->
        fst (compareHashAndPassword bcrypt murmur3 k hash q now w) = None.
Proof.
  intros Hlen. destruct (eight_bytes_collide murmur3 Hlen) as (p & q & Hne & Heq).
  exists p, q. split; [exact Hne|].
  intros k hash now w Hd Hg. rewrite Heq in Hg.
  rewrite (compare_hit_equal bcrypt murmur3 k hash q now w Hd Hg). reflexivity.
Qed.

End CollisionFacts.

(** ** The hash verifier *)

(** ** The two hashes of the libraries, on the stored hash of [Login] *)

Module LibraryFacts.
Import BasicAuth VerificationFacts.

(** sums that the hasher is known by *)
Example Sum128_of_hello :
  Murmur3.Sum128 (Murmur3.bytes "hello")
  = (0xcbd8a7b341bd9b02, 0x5b1e906a48ae1d19).
Proof. vm_compute. reflexivity. Qed.

Example Sum128_of_pangram :
  Murmur3.Sum128 (Murmur3.bytes "The quick brown fox jumps over the lazy dog")
  = (0xe34bbc7bbc071b6c, 0x7a433ca9c49a9347).
Proof. vm_compute. reflexivity. Qed.

(** the two passwords differ and have one sum, in both halves of it *)
Lemma passwords_collide :
  Login.wrongPassword <> Login.goodPassword
  /\ Murmur3.Sum128 (Murmur3.bytes Login.wrongPassword)
     = Murmur3.Sum128 (Murmur3.bytes Login.goodPassword)
  /\ Murmur3.Sum Login.wrongPassword = Murmur3.Sum Login.goodPassword.
Proof. split; [discriminate|]. split; vm_compute; reflexivity. Qed.

(** bcrypt accepts the good password for the stored hash and rejects the
    other one; each is one run of the key schedule of 2^4 rounds *)
Lemma bcrypt_accepts :
  Bcrypt.CompareHashAndPassword Login.storedHash Login.goodPassword = None.
Proof. vm_cast_no_check (eq_refl (@None error)). Qed.

Lemma bcrypt_rejects :
  Bcrypt.CompareHashAndPassword Login.storedHash Login.wrongPassword
  = Some Login.mismatch.
Proof. vm_cast_no_check (eq_refl (Some Login.mismatch)). Qed.

(** hashes that are no bcrypt hashes are refused before any comparison *)
Example bcrypt_refuses_short_hash :
  Bcrypt.CompareHashAndPassword "$2a$10$password-one" "password-one"
  = Some "crypto/bcrypt: hashedSecret too short to be a bcrypted password".
Proof. vm_compute. reflexivity. Qed.

(** the first login with the good password, on the empty cache *)
Lemma first_login (ttl : Z) (now : GoTime.Time) :
  Login.verify ttl Login.goodPassword now Samples.world0
  = (None,
     mkWorld ∅
             (GoCache.Set' newBasicAuthCache Login.storedHash
                           (Murmur3.Sum Login.goodPassword)
                           (cacheTTL (Login.verifier ttl)) now)
             None
             [Log Debug "cache enabled: miss: bcrypt";
              BcryptCompare Login.storedHash Login.goodPassword]).
Proof.
  unfold Login.verify.
  rewrite (compare_miss_ok Bcrypt.CompareHashAndPassword Murmur3.Sum
             (Login.verifier ttl) Login.storedHash Login.goodPassword now
             Samples.world0 eq_refl eq_refl bcrypt_accepts).
  reflexivity.
Qed.

End LibraryFacts.

Module HashVerifier.
Import BasicAuth VerificationFacts.

(** C1.  With caching enabled and a cache entry for the stored hash: when the
    murmur3 fingerprint of the supplied password equals the cached one,
    [compareHashAndPassword] returns nil and makes no bcrypt comparison; when
    the fingerprints differ it makes the bcrypt comparison of the stored hash
    with the supplied password and returns its result.  The cache is left as
    it was in both cases. *)
Theorem compareHashAndPassword_cache_hit
        (bcrypt : string -> string -> option error) (murmur3 : string -> string)
        (k : BasicAuthKeyIsValid) (hash password cachedPass : string)
        (now : GoTime.Time) (w : World) :
  DisableCaching (BasicAuth (Spec k)) = false ->
  GoCache.Get (basicAuthCache w) hash now = Some cachedPass ->
  let out := compareHashAndPassword bcrypt murmur3 k hash password now w in
  (cachedPass = murmur3 password ->
   fst out = None /\ slowCalls (trace (snd out)) = slowCalls (trace w))
  /\ (cachedPass <> murmur3 password ->
      fst out = bcrypt hash password
      /\ slowCalls (trace (snd out))
         = (slowCalls (trace w) ++ [(hash, password)])%list)
  /\ basicAuthCache (snd out) = basicAuthCache w.
Proof.
  intros Hd Hg out. subst out.
  destruct (String.eqb_spec cachedPass (murmur3 password)) as [E|N].
  - subst cachedPass. rewrite (compare_hit_equal _ _ _ _ _ _ _ Hd Hg).
    cbn [fst snd trace basicAuthCache]. rewrite slowCalls_app, app_nil_r.
    split; [intros _; split; reflexivity|].
    split; [intros C; contradiction | reflexivity].
  - rewrite (compare_hit_differ _ _ _ _ _ _ _ _ Hd Hg N).
    cbn [fst snd trace basicAuthCache]. rewrite !slowCalls_app.
    split; [intros C; contradiction|].
    split; [intros _; split; reflexivity | reflexivity].
Qed.

Lemma compareHashAndPassword_cache_hit_witness :
  let out := compareHashAndPassword Samples.bcrypt Samples.fingerprint
               Samples.verifier Samples.storedHash Samples.goodPassword 2000
               Samples.worldVerified in
  fst out = None
  /\ slowCalls (trace (snd out)) = slowCalls (trace Samples.worldVerified).
Proof.
  exact (proj1 (compareHashAndPassword_cache_hit
                  Samples.bcrypt Samples.fingerprint Samples.verifier
                  Samples.storedHash Samples.goodPassword
                  (Samples.fingerprint Samples.goodPassword) 2000
                  Samples.worldVerified eq_refl eq_refl) eq_refl).
Defined.

(** C2, as amended.  With caching enabled and no cache entry for the stored
    hash, the bcrypt comparison is made.  When it succeeds, the fingerprint
    of the password is stored under the stored hash with the duration
    [time.Duration(CacheTTL) * time.Second] when [CacheTTL] is positive and
    [60 * time.Second] otherwise, and nil is returned: the entry expires 60
    seconds later when [CacheTTL] is not positive, and [CacheTTL] seconds
    later when [CacheTTL] is positive and at most 9223372036, the most
    seconds whose nanoseconds fit the [int64].  When the comparison fails,
    its error is returned and the cache is left as it was. *)
Theorem compareHashAndPassword_cache_miss
        (bcrypt : string -> string -> option error) (murmur3 : string -> string)
        (k : BasicAuthKeyIsValid) (hash password : string)
        (now : GoTime.Time) (w : World) :
  DisableCaching (BasicAuth (Spec k)) = false ->
  GoCache.Get (basicAuthCache w) hash now = None ->
  let out := compareHashAndPassword bcrypt murmur3 k hash password now w in
  let ttl := CacheTTL (BasicAuth (Spec k)) in
  let d := if 0 <? ttl then GoTime.mul ttl GoTime.Second
           else GoTime.mul 60 GoTime.Second in
  slowCalls (trace (snd out)) = (slowCalls (trace w) ++ [(hash, password)])%list
  /\ (bcrypt hash password = None ->
      fst out = None
      /\ basicAuthCache (snd out)
         = GoCache.Set' (basicAuthCache w) hash (murmur3 password) d now
      /\ (ttl <= 0 ->
          GoCache.items (basicAuthCache (snd out)) !! hash
          = Some (GoCache.mkItem (murmur3 password)
                                 (Some (now + 60 * 1000000000))))
      /\ (0 < ttl <= 9223372036 ->
          GoCache.items (basicAuthCache (snd out)) !! hash
          = Some (GoCache.mkItem (murmur3 password)
                                 (Some (now + ttl * 1000000000)))))
  /\ (forall e, bcrypt hash password = Some e ->
      fst out = Some e /\ basicAuthCache (snd out) = basicAuthCache w).
Proof.
  intros Hd Hg out ttl d. subst out.
  destruct (bcrypt hash password) as [e|] eqn:Hb.
  - rewrite (compare_miss_fail _ _ _ _ _ _ _ _ Hd Hg Hb).
    cbn [fst snd trace basicAuthCache]. rewrite !slowCalls_app.
    split; [reflexivity|]. split; [intros C; discriminate C|].
    intros e' He'. injection He' as <-. split; reflexivity.
  - rewrite (compare_miss_ok _ _ _ _ _ _ _ Hd Hg Hb).
    cbn [fst snd trace basicAuthCache]. rewrite !slowCalls_app.
    split; [reflexivity|]. split; [|intros e He; discriminate He].
    intros _. split; [reflexivity|]. split; [reflexivity|].
    unfold cacheTTL, GoCache.Set'. fold ttl. cbn [GoCache.items].
    rewrite lookup_insert_eq. split; intros Httl.
    + destruct (Z.ltb_spec 0 ttl) as [C|_]; [lia|].
      rewrite defaultBasicAuthTTL_value. reflexivity.
    + destruct (Z.ltb_spec 0 ttl) as [_|C]; [|lia].
      rewrite seconds_exact by lia.
      destruct (Z.eqb_spec (ttl * 1000000000) 0) as [C|_]; [lia|].
      destruct (Z.ltb_spec 0 (ttl * 1000000000)) as [_|C]; [|lia].
      reflexivity.
Qed.

Lemma compareHashAndPassword_cache_miss_witness :
  let out := compareHashAndPassword Samples.bcrypt Samples.fingerprint
               Samples.verifier Samples.storedHash Samples.goodPassword 1000
               Samples.world0 in
  slowCalls (trace (snd out))
  = [(Samples.storedHash, Samples.goodPassword)]
  /\ fst out = None
  /\ GoCache.items (basicAuthCache (snd out)) !! Samples.storedHash
     = Some (GoCache.mkItem "password" (Some 60000001000)).
Proof.
  pose proof (compareHashAndPassword_cache_miss
                Samples.bcrypt Samples.fingerprint Samples.verifier
                Samples.storedHash Samples.goodPassword 1000 Samples.world0
                eq_refl eq_refl) as (Hcalls & Hok & _).
  destruct (Hok eq_refl) as (Herr & _ & Hdefault & _).
  split; [exact Hcalls|]. split; [exact Herr|].
  apply Hdefault. cbn. lia.
Defined.

(** C2, as stated, fails where the product of [CacheTTL] and
    [time.Second] leaves the [int64].  With [CacheTTL] 36028797018963969
    (one more than 2^55) the product wraps to one second: the entry is
    stored for one second and is gone after two.  With [CacheTTL]
    9223372037, the least that overflows, the product is negative and the
    entry is stored without an expiry. *)
Lemma cache_ttl_overflow :
  let short := Login.verify 36028797018963969 Login.goodPassword 1000
                            Samples.world0 in
  let endless := Login.verify 9223372037 Login.goodPassword 1000
                              Samples.world0 in
  fst short = None
  /\ GoCache.items (basicAuthCache (snd short)) !! Login.storedHash
     = Some (GoCache.mkItem (Murmur3.Sum Login.goodPassword)
                            (Some (1000 + 1 * 1000000000)))
  /\ GoCache.Get (basicAuthCache (snd short)) Login.storedHash
                 (1000 + 2 * 1000000000) = None
  /\ fst endless = None
  /\ GoCache.items (basicAuthCache (snd endless)) !! Login.storedHash
     = Some (GoCache.mkItem (Murmur3.Sum Login.goodPassword) None).
Proof.
  cbv zeta. rewrite !LibraryFacts.first_login. cbn [fst snd basicAuthCache].
  split; [reflexivity|]. split; [vm_compute; reflexivity|].
  split; [vm_compute; reflexivity|]. split; [reflexivity|].
  vm_compute. reflexivity.
Qed.

(** C3, as amended.  With caching enabled and a cache entry for the stored
    hash, a password that the bcrypt comparison rejects is rejected, with the
    error of that comparison, which is made, when its fingerprint differs
    from the cached one; when its fingerprint equals the cached one it is
    accepted, and no bcrypt comparison is made. *)
Theorem wrong_password_on_cache_hit
        (bcrypt : string -> string -> option error) (murmur3 : string -> string)
        (k : BasicAuthKeyIsValid) (hash password cachedPass : string) (e : error)
        (now : GoTime.Time) (w : World) :
  DisableCaching (BasicAuth (Spec k)) = false ->
  GoCache.Get (basicAuthCache w) hash now = Some cachedPass ->
  bcrypt hash password = Some e ->
  let out := compareHashAndPassword bcrypt murmur3 k hash password now w in
  (cachedPass <> murmur3 password ->
   fst out = Some e
   /\ slowCalls (trace (snd out))
      = (slowCalls (trace w) ++ [(hash, password)])%list)
  /\ (cachedPass = murmur3 password ->
      fst out = None
      /\ slowCalls (trace (snd out)) = slowCalls (trace w)).
Proof.
  intros Hd Hg Hb out. subst out. split.
  - intros N. rewrite (compare_hit_differ _ _ _ _ _ _ _ _ Hd Hg N).
    cbn [fst snd trace]. rewrite !slowCalls_app. split; [exact Hb | reflexivity].
  - intros ->. rewrite (compare_hit_equal _ _ _ _ _ _ _ Hd Hg).
    cbn [fst snd trace]. rewrite slowCalls_app, app_nil_r. split; reflexivity.
Qed.

Lemma wrong_password_on_cache_hit_witness :
  fst (compareHashAndPassword Samples.bcrypt Samples.fingerprint
         Samples.verifier Samples.storedHash "letmein" 2000
         Samples.worldVerified)
  = Some "crypto/bcrypt: hashedPassword is not the hash of the given password".
Proof.
  refine (proj1 (proj1 (wrong_password_on_cache_hit
                   Samples.bcrypt Samples.fingerprint Samples.verifier
                   Samples.storedHash "letmein" "password" _ 2000
                   Samples.worldVerified eq_refl eq_refl eq_refl) _)).
  discriminate.
Defined.

(** C3, as stated, fails, on the hasher of murmur3 and on bcrypt
    themselves.  The good password is verified by bcrypt against the stored
    hash and its fingerprint is cached.  The other password does not match
    the stored hash, bcrypt rejects it, but it has the same fingerprint: on
    the cache hit it is accepted, and bcrypt is not asked. *)
Lemma wrong_password_accepted_on_collision :
  let first := Login.verify 0 Login.goodPassword 1000 Samples.world0 in
  let second := Login.verify 0 Login.wrongPassword 2000 (snd first) in
  fst first = None
  /\ GoCache.Get (basicAuthCache (snd first)) Login.storedHash 2000
     = Some (Murmur3.Sum Login.goodPassword)
  /\ Bcrypt.CompareHashAndPassword Login.storedHash Login.wrongPassword
     = Some Login.mismatch
  /\ fst second = None
  /\ slowCalls (trace (snd second)) = slowCalls (trace (snd first)).
Proof.
  cbv zeta. rewrite (LibraryFacts.first_login 0 1000). cbn [fst snd].
  set (w1 := mkWorld _ _ _ _).
  assert (Hg : GoCache.Get (basicAuthCache w1) Login.storedHash 2000
               = Some (Murmur3.Sum Login.goodPassword))
    by (vm_compute; reflexivity).
  split; [reflexivity|]. split; [exact Hg|].
  split; [exact LibraryFacts.bcrypt_rejects|].
  destruct LibraryFacts.passwords_collide as (_ & _ & Hsum).
  rewrite <- Hsum in Hg. unfold Login.verify.
  rewrite (compare_hit_equal Bcrypt.CompareHashAndPassword Murmur3.Sum
             (Login.verifier 0) Login.storedHash Login.wrongPassword 2000 w1
             eq_refl Hg).
  cbn [fst snd trace]. rewrite slowCalls_app, app_nil_r. split; reflexivity.
Qed.

End HashVerifier.

(** ** The credential extractor *)

Module CredentialExtractor.
Import GoStrings GoStringsFacts Base64 Base64Facts BasicAuth ExtractionFacts.

(** C5.  [basicAuthHeaderCredentials] on the [Authorization] header of the
    request: a header [<scheme> <base64(user:pass)>] gives exactly [user] and
    [pass] and no error, and so does every header of two tokens whose second
    decodes to a payload with exactly one colon; an absent header (one for
    which [Get] returns the empty string) gives 401
    and adds the [WWW-Authenticate] challenge; a header that is there with a
    number of tokens other than two, with a payload that is not base64, or
    with a decoded payload whose number of colons is not one, gives 400 and
    leaves the header map of the response as it was. *)
Theorem basicAuthHeaderCredentials_cases
        (k : BasicAuthKeyIsValid) (r : Request) (w : World) :
  let token := Http.Get (ReqHeader r) "Authorization" in
  let out := basicAuthHeaderCredentials k r w in
  (forall scheme user pass : string,
      Count " " scheme = 0%nat -> Count ":" user = 0%nat -> Count ":" pass = 0%nat ->
      token = scheme +:+ String " " (EncodeToString (user +:+ String ":" pass)) ->
      out = ((user, pass, None, 0), w))
  /\ (forall scheme payload decoded : string,
         Split " " token = [scheme; payload] ->
         DecodeString payload = Some decoded ->
         Count ":" decoded = 1%nat ->
         exists user pass,
           decoded = user +:+ String ":" pass
           /\ out = ((user, pass, None, 0), w))
  /\ (token = EmptyString ->
      fst out = (EmptyString, EmptyString, Some "Authorization field missing",
                 Http.StatusUnauthorized)
      /\ respHeader (snd out)
         = Http.Add (respHeader w) "WWW-Authenticate" (authReply k)
      /\ Http.Has (respHeader (snd out)) "WWW-Authenticate" = true)
  /\ (token <> EmptyString ->
      (length (Split " " token) <> 2%nat
       \/ exists scheme payload,
           Split " " token = [scheme; payload]
           /\ (DecodeString payload = None
               \/ exists decoded,
                   DecodeString payload = Some decoded
                   /\ Count ":" decoded <> 1%nat)) ->
      exists msg,
        fst out = (EmptyString, EmptyString, Some msg, Http.StatusBadRequest)
        /\ respHeader (snd out) = respHeader w).
Proof.
  intros token out. subst out. repeat apply conj.
  - intros scheme user pass Hs Hu Hp Ht.
    apply (header_ok k r w scheme _ user pass Ht Hs); [|exact Hu|exact Hp].
    apply DecodeString_EncodeToString.
  - intros scheme payload decoded Hsplit Hdec Hcount.
    destruct (Split_two_inv _ _ _ _ Hsplit) as (Ht & Hs & _).
    pose proof (Split_length ":" decoded) as Hlen. rewrite Hcount in Hlen.
    destruct (Split ":" decoded) as [|user [|pass [|x xs]]] eqn:Hcolon;
      try discriminate Hlen.
    destruct (Split_two_inv _ _ _ _ Hcolon) as (Hd & Hu & Hp).
    exists user, pass. split; [exact Hd|].
    rewrite Hd in Hdec. exact (header_ok k r w scheme payload user pass Ht Hs Hdec Hu Hp).
  - intros Ht. rewrite (header_absent k r w Ht). cbn [fst snd respHeader].
    repeat split. apply HttpFacts.Has_Add.
  - intros Ht Hbad. unfold basicAuthHeaderCredentials. fold token.
    destruct (String.eqb_spec token EmptyString) as [E|_]; [contradiction|].
    destruct Hbad as [Hlen | (scheme & payload & Hsplit & Hpay)].
    + destruct (Split " " token) as [|b0 [|b1 [|b2 bs]]];
        try (eexists; split; reflexivity).
      exfalso. apply Hlen. reflexivity.
    + rewrite Hsplit. destruct Hpay as [Hnone | (decoded & Hdec & Hcount)].
      * rewrite Hnone. eexists; split; reflexivity.
      * rewrite Hdec. pose proof (Split_length ":" decoded) as Hlen.
        destruct (Split ":" decoded) as [|u [|p [|x xs]]];
          try (eexists; split; reflexivity).
        exfalso. apply Hcount. cbn [length] in Hlen. lia.
Qed.

Lemma basicAuthHeaderCredentials_cases_witness :
  basicAuthHeaderCredentials Samples.verifier
    (Samples.request [Samples.basicAlice] EmptyString) Samples.world0
  = (("alice", "password-one", None, 0), Samples.world0).
Proof.
  exact (proj1 (basicAuthHeaderCredentials_cases Samples.verifier
                  (Samples.request [Samples.basicAlice] EmptyString)
                  Samples.world0)
               "Basic" "alice" "password-one" eq_refl eq_refl eq_refl eq_refl).
Defined.

End CredentialExtractor.

(** ** Facts about [ProcessRequest] *)

Module ProcessFacts.
Import GoStrings BasicAuth ExtractionFacts VerificationFacts.

Ltac unfold_middleware :=
  unfold ProcessRequest, extractCredentials, checkPasswordAndBind, checkSession,
    handleAuthFail, requestForBasicAuth, compareHashAndPassword,
    doBcryptWithCache, bcryptCompare, logged, outcome.

Section Process.

Variable bcrypt : string -> string -> option error.
Variable murmur3 : string -> string.
Variable generateToken : string -> string -> string.
Variable storage_GenerateToken : string -> string -> string -> string.
Variable globalConf : Config.

Let process := ProcessRequest bcrypt murmur3 generateToken storage_GenerateToken globalConf.
Let check := checkPasswordAndBind bcrypt murmur3.

(** the extractor from the body does not touch the world, and fails with 400 *)
Lemma body_world (k : BasicAuthKeyIsValid) (r : Request) (w : World) :
  snd (basicAuthBodyCredentials k r w) = w
  /\ (forall w', fst (basicAuthBodyCredentials k r w)
                 = fst (basicAuthBodyCredentials k r w'))
  /\ (forall e, credErr (fst (basicAuthBodyCredentials k r w)) = Some e ->
      snd (fst (basicAuthBodyCredentials k r w)) = Http.StatusBadRequest).
Proof.
  unfold basicAuthBodyCredentials, credErr.
  destruct (bodyUserRegexp k (ReqBody r)) as [|[|u0 [|u1 us]] ms];
    try (repeat split; intros; reflexivity).
  destruct (bodyPasswordRegexp k (ReqBody r)) as [|[|p0 [|p1 ps]] ns];
    repeat split; intros; try reflexivity; discriminate.
Qed.

(** every failure of the extractor from the header that is not the absence
    of the header: 400, and the header map of the response is as it was *)
Lemma header_failure (k : BasicAuthKeyIsValid) (r : Request) (w : World) (e : error) :
  Http.Get (ReqHeader r) "Authorization" <> EmptyString ->
  credErr (fst (basicAuthHeaderCredentials k r w)) = Some e ->
  fst (basicAuthHeaderCredentials k r w)
  = (EmptyString, EmptyString, Some e, Http.StatusBadRequest)
  /\ respHeader (snd (basicAuthHeaderCredentials k r w)) = respHeader w.
Proof.
  intros Ht. unfold basicAuthHeaderCredentials, credErr.
  destruct (String.eqb_spec (Http.Get (ReqHeader r) "Authorization") EmptyString)
    as [E|_]; [contradiction|].
  destruct (Split " " _) as [|b0 [|b1 [|b2 bs]]];
    try (cbn; intros [= <-]; split; reflexivity).
  destruct (Base64.DecodeString b1) as [d|];
    [|cbn; intros [= <-]; split; reflexivity].
  destruct (Split ":" d) as [|u [|p [|x xs]]];
    cbn; intros [= <-]; split; reflexivity.
Qed.

(** the call after the credentials are extracted *)
Lemma process_failed (k : BasicAuthKeyIsValid) (r : Request) (now : GoTime.Time)
      (w w1 : World) (username password : string) (e : error) (code : Z) :
  extractCredentials k r w = ((username, password, Some e, code), w1) ->
  process k r now w = ((Some e, code), w1).
Proof.
  intros He. unfold process, ProcessRequest. run. rewrite He. reflexivity.
Qed.

Lemma process_canonical_hit (k : BasicAuthKeyIsValid) (r : Request)
      (now : GoTime.Time) (w w1 : World) (username password : string) (code : Z)
      (s : SessionState) :
  extractCredentials k r w = ((username, password, None, code), w1) ->
  let keyName := generateToken (OrgID (Spec k)) username in
  CheckSessionAndIdentityForValidKey k keyName r = Some s ->
  process k r now w
  = check k r (Http.Get (ReqHeader r) "Authorization") s keyName password now
          (logged w1 [SessionLookup keyName]).
Proof.
  intros He keyName Hs. unfold process, ProcessRequest, checkSession. run.
  rewrite He. cbn. fold keyName. rewrite Hs. reflexivity.
Qed.

Lemma process_legacy_hit (k : BasicAuthKeyIsValid) (r : Request)
      (now : GoTime.Time) (w w1 : World) (username password : string) (code : Z)
      (s : SessionState) :
  extractCredentials k r w = ((username, password, None, code), w1) ->
  let keyName := generateToken (OrgID (Spec k)) username in
  let legacy := storage_GenerateToken (OrgID (Spec k))
                  (TrimPrefix username (OrgID (Spec k))) EmptyString in
  CheckSessionAndIdentityForValidKey k keyName r = None ->
  HashKeyFunction globalConf <> EmptyString ->
  CheckSessionAndIdentityForValidKey k legacy r = Some s ->
  process k r now w
  = check k r (Http.Get (ReqHeader r) "Authorization") s legacy password now
          (logged w1 [SessionLookup keyName;
                      Log Info "Could not find user, falling back to legacy format key.";
                      SessionLookup legacy]).
Proof.
  intros He keyName legacy Hn Hm Hs. unfold process, ProcessRequest, checkSession.
  run. rewrite He. cbn. fold keyName. rewrite Hn.
  destruct (String.eqb_spec (HashKeyFunction globalConf) EmptyString) as [E|_];
    [contradiction|].
  cbn. fold legacy. rewrite Hs. unfold logged. cbn.
  rewrite <- !app_assoc. reflexivity.
Qed.

Lemma process_miss (k : BasicAuthKeyIsValid) (r : Request)
      (now : GoTime.Time) (w w1 : World) (username password : string) (code : Z) :
  extractCredentials k r w = ((username, password, None, code), w1) ->
  let keyName := generateToken (OrgID (Spec k)) username in
  let legacy := storage_GenerateToken (OrgID (Spec k))
                  (TrimPrefix username (OrgID (Spec k))) EmptyString in
  CheckSessionAndIdentityForValidKey k keyName r = None ->
  process k r now w
  = if String.eqb (HashKeyFunction globalConf) EmptyString then
      handleAuthFail k r (Http.Get (ReqHeader r) "Authorization")
        (logged w1 [SessionLookup keyName;
                    Log Warn "Attempted access with non-existent user."])
    else
      match CheckSessionAndIdentityForValidKey k legacy r with
      | Some s =>
          check k r (Http.Get (ReqHeader r) "Authorization") s legacy password now
            (logged w1 [SessionLookup keyName;
                        Log Info "Could not find user, falling back to legacy format key.";
                        SessionLookup legacy])
      | None =>
          handleAuthFail k r (Http.Get (ReqHeader r) "Authorization")
            (logged w1 [SessionLookup keyName;
                        Log Info "Could not find user, falling back to legacy format key.";
                        SessionLookup legacy;
                        Log Warn "Attempted access with non-existent user."])
      end.
Proof.
  intros He keyName legacy Hn. unfold process, ProcessRequest, checkSession.
  run. rewrite He. cbn. fold keyName. rewrite Hn.
  destruct (String.eqb (HashKeyFunction globalConf) EmptyString).
  - unfold handleAuthFail, requestForBasicAuth, logged. run. cbn.
    rewrite <- !app_assoc. reflexivity.
  - cbn. fold legacy.
    destruct (CheckSessionAndIdentityForValidKey k legacy r).
    + unfold logged. cbn. rewrite <- !app_assoc. reflexivity.
    + unfold handleAuthFail, requestForBasicAuth, logged. run. cbn.
      rewrite <- !app_assoc. reflexivity.
Qed.

(** the failure of authentication: 401, the challenge, and nothing else
    that a caller sees *)
Lemma handleAuthFail_result (k : BasicAuthKeyIsValid) (r : Request)
      (token : string) (w : World) :
  handleAuthFail k r token w
  = ((Some "User not authorised", Http.StatusUnauthorized),
     mkWorld (Http.Add (respHeader w) "WWW-Authenticate" (authReply k))
             (basicAuthCache w) (ctxSession w)
             (trace w ++ [AuthFailed token; HealthValue KeyFailure "-1"])%list).
Proof.
  unfold handleAuthFail, requestForBasicAuth. run. cbn.
  rewrite <- !app_assoc. reflexivity.
Qed.

(** the switch on the hash kind looks no session up *)
Lemma check_lookups (k : BasicAuthKeyIsValid) (r : Request) (token : string)
      (s : SessionState) (keyName password : string) (now : GoTime.Time)
      (w : World) :
  lookups (trace (snd (check k r token s keyName password now w)))
  = lookups (trace w).
Proof.
  unfold check. unfold_middleware. run.
  repeat (case_match; simplify_eq; cbn [fst snd trace]);
    rewrite ?lookups_app; cbn [lookups]; rewrite ?app_nil_r; reflexivity.
Qed.

(** what comes out of the switch depends on the header map of the response,
    the cache and the session of the context, not on the key the session was
    found under nor on the calls made before *)
Lemma check_outcome (k : BasicAuthKeyIsValid) (r : Request) (token : string)
      (s : SessionState) (keyA keyB password : string) (now : GoTime.Time)
      (h : Http.Header) (c : GoCache.Cache) (ctx : option (SessionState * string))
      (ta tb : list Event) :
  outcome (check k r token s keyA password now (mkWorld h c ctx ta))
  = outcome (check k r token s keyB password now (mkWorld h c ctx tb)).
Proof.
  unfold check. unfold_middleware. run. cbn.
  repeat (case_match; cbn in *; simplify_eq); reflexivity.
Qed.

(** a hash kind that is neither of the two cases of the switch *)
Lemma check_other_kind (k : BasicAuthKeyIsValid) (r : Request) (token : string)
      (s : SessionState) (keyName password : string) (now : GoTime.Time)
      (w : World) :
  Hash (SessionBasicAuthData s) <> HashBCrypt ->
  Hash (SessionBasicAuthData s) <> HashPlainText ->
  check k r token s keyName password now w
  = ((None, Http.StatusOK),
     mkWorld (respHeader w) (basicAuthCache w)
             (match BaseIdentityProvidedBy (Spec k) with
              | BasicAuthUser | UnsetAuth => Some (s, keyName)
              | OtherAuth _ => ctxSession w
              end)
             (trace w)).
Proof.
  intros Hb Hp. unfold check, checkPasswordAndBind.
  destruct (Hash (SessionBasicAuthData s)); try contradiction.
  destruct w. run. destruct (BaseIdentityProvidedBy (Spec k)); reflexivity.
Qed.

End Process.

End ProcessFacts.

(** ** The middleware as a whole *)

Module AuthMiddleware.
Import GoStrings BasicAuth ExtractionFacts VerificationFacts ProcessFacts.

(** C8.  Once the credentials are extracted, the key made by [generateToken]
    from the organisation and the user name is looked up first.  A second
    lookup is made exactly when the first misses and [HashKeyFunction] is set
    (the legacy mode): one lookup, of the key made by [storage.GenerateToken]
    from the user name without the prefix of the organisation, and none
    after it.  A session found by the second lookup goes through the same
    password check and binding as one found by the first, with the same
    results, response header, cache and bound session as if the first lookup
    had found it.  When no lookup finds a session the request fails with 401
    and the challenge. *)
Theorem identity_resolution
        (bcrypt : string -> string -> option error) (murmur3 : string -> string)
        (generateToken : string -> string -> string)
        (storage_GenerateToken : string -> string -> string -> string)
        (globalConf : Config) (k : BasicAuthKeyIsValid) (r : Request)
        (now : GoTime.Time) (w w1 : World) (username password : string) (code : Z) :
  extractCredentials k r w = ((username, password, None, code), w1) ->
  let process := ProcessRequest bcrypt murmur3 generateToken
                                storage_GenerateToken globalConf in
  let token := Http.Get (ReqHeader r) "Authorization" in
  let canonical := generateToken (OrgID (Spec k)) username in
  let legacy := storage_GenerateToken (OrgID (Spec k))
                  (TrimPrefix username (OrgID (Spec k))) EmptyString in
  let lookup := CheckSessionAndIdentityForValidKey k in
  let legacyMode := negb (String.eqb (HashKeyFunction globalConf) EmptyString) in
  let out := process k r now w in
  lookups (trace (snd out))
  = (lookups (trace w1)
     ++ match lookup canonical r with
        | Some _ => [canonical]
        | None => if legacyMode then [canonical; legacy] else [canonical]
        end)%list
  /\ (forall s, lookup canonical r = Some s ->
      out = checkPasswordAndBind bcrypt murmur3 k r token s canonical password
              now (logged w1 [SessionLookup canonical]))
  /\ (forall s, lookup canonical r = None -> legacyMode = true ->
      lookup legacy r = Some s ->
      out = checkPasswordAndBind bcrypt murmur3 k r token s legacy password now
              (logged w1 [SessionLookup canonical;
                          Log Info "Could not find user, falling back to legacy format key.";
                          SessionLookup legacy])
      /\ forall lookup', lookup' canonical r = Some s ->
           outcome out = outcome (process (withLookup k lookup') r now w))
  /\ (lookup canonical r = None ->
      legacyMode = false \/ lookup legacy r = None ->
      fst out = (Some "User not authorised", Http.StatusUnauthorized)
      /\ respHeader (snd out)
         = Http.Add (respHeader w1) "WWW-Authenticate" (authReply k)
      /\ basicAuthCache (snd out) = basicAuthCache w1
      /\ ctxSession (snd out) = ctxSession w1).
Proof.
  intros He process token canonical legacy lookup legacyMode out.
  assert (Hmode : legacyMode = true -> HashKeyFunction globalConf <> EmptyString).
  { unfold legacyMode. intros Hm E. rewrite E in Hm. discriminate Hm. }
  repeat apply conj.
  - subst out process. destruct (lookup canonical r) as [s|] eqn:Hc.
    + rewrite (process_canonical_hit bcrypt murmur3 generateToken storage_GenerateToken globalConf k r now w w1 username password code s He Hc).
      rewrite check_lookups. unfold logged. cbn [trace].
      rewrite lookups_app. reflexivity.
    + rewrite (process_miss bcrypt murmur3 generateToken storage_GenerateToken globalConf k r now w w1 username password code He Hc).
      fold legacy. fold canonical. unfold legacyMode.
      destruct (String.eqb (HashKeyFunction globalConf) EmptyString); cbn [negb].
      * rewrite handleAuthFail_result. unfold logged. cbn [snd trace].
        rewrite !lookups_app. cbn [lookups]. rewrite !app_nil_r. reflexivity.
      * destruct (CheckSessionAndIdentityForValidKey k legacy r) as [s|].
        -- rewrite check_lookups. unfold logged. cbn [trace].
           rewrite lookups_app. reflexivity.
        -- rewrite handleAuthFail_result. unfold logged. cbn [snd trace].
           rewrite !lookups_app. cbn [lookups]. rewrite !app_nil_r. reflexivity.
  - intros s Hc. exact (process_canonical_hit bcrypt murmur3 generateToken storage_GenerateToken globalConf k r now w w1 username password code s He Hc).
  - intros s Hc Hm Hl.
    pose proof (process_legacy_hit bcrypt murmur3 generateToken storage_GenerateToken globalConf k r now w w1 username password code
                s He Hc (Hmode Hm) Hl)
      as Hout.
    split; [exact Hout|]. intros lookup' Hc'.
    assert (He' : extractCredentials (withLookup k lookup') r w
                  = ((username, password, None, code), w1)) by exact He.
    pose proof (process_canonical_hit bcrypt murmur3 generateToken
                  storage_GenerateToken globalConf (withLookup k lookup')
                  r now w w1 username password code s He' Hc') as Hout'.
    subst out process. rewrite Hout, Hout'.
    change (checkPasswordAndBind bcrypt murmur3 (withLookup k lookup'))
      with (checkPasswordAndBind bcrypt murmur3 k).
    change (OrgID (Spec (withLookup k lookup'))) with (OrgID (Spec k)).
    destruct w1 as [h c ctx t]. unfold logged. cbn [respHeader basicAuthCache ctxSession trace].
    apply check_outcome.
  - intros Hc Hmiss. subst out process.
    rewrite (process_miss bcrypt murmur3 generateToken storage_GenerateToken globalConf k r now w w1 username password code He Hc). fold legacy.
    destruct Hmiss as [Hm|Hl].
    + unfold legacyMode in Hm.
      destruct (String.eqb (HashKeyFunction globalConf) EmptyString);
        [|discriminate Hm].
      rewrite handleAuthFail_result. repeat split.
    + unfold lookup in Hl. rewrite Hl.
      destruct (String.eqb (HashKeyFunction globalConf) EmptyString);
        rewrite handleAuthFail_result; repeat split.
Qed.

Lemma identity_resolution_witness :
  let out := ProcessRequest Samples.bcrypt Samples.fingerprint
               Samples.generateToken Samples.legacyToken Samples.legacyConf
               Samples.legacyOnly
               (Samples.request [Samples.basicOrgAlice] EmptyString) 1000
               Samples.world0 in
  lookups (trace (snd out)) = ["org1org1alice"; "org1-alice"]
  /\ fst out = (None, Http.StatusOK).
Proof.
  pose proof (identity_resolution Samples.bcrypt Samples.fingerprint
                Samples.generateToken Samples.legacyToken Samples.legacyConf
                Samples.legacyOnly
                (Samples.request [Samples.basicOrgAlice] EmptyString) 1000
                Samples.world0 Samples.world0 "org1alice" "password-one" 0
                eq_refl) as (Hlookups & _ & Hlegacy & _).
  split; [exact Hlookups|].
  destruct (Hlegacy (Samples.session HashPlainText "password-one")
                    eq_refl eq_refl eq_refl) as [Hout _].
  cbv zeta. rewrite Hout. reflexivity.
Defined.

(** C9, as amended.  When the extraction of the credentials fails,
    [ProcessRequest] returns its error.  The response carries the
    [WWW-Authenticate] challenge that the extraction adds only when the
    [Authorization] header is absent and extraction from the body is not
    configured (401).  A header that is there and malformed, without
    extraction from the body, gives 400 and the header map of the response is
    as it was.  When extraction from the body is configured and fails too,
    the response is 400 and carries no [WWW-Authenticate] header. *)
Theorem extraction_failure_challenge
        (bcrypt : string -> string -> option error) (murmur3 : string -> string)
        (generateToken : string -> string -> string)
        (storage_GenerateToken : string -> string -> string -> string)
        (globalConf : Config) (k : BasicAuthKeyIsValid) (r : Request)
        (now : GoTime.Time) (w : World) (e : error) :
  credErr (fst (extractCredentials k r w)) = Some e ->
  let token := Http.Get (ReqHeader r) "Authorization" in
  let out := ProcessRequest bcrypt murmur3 generateToken storage_GenerateToken
                            globalConf k r now w in
  fst (fst out) = Some e
  /\ (ExtractFromBody (BasicAuth (Spec k)) = false -> token = EmptyString ->
      fst out = (Some "Authorization field missing", Http.StatusUnauthorized)
      /\ respHeader (snd out)
         = Http.Add (respHeader w) "WWW-Authenticate" (authReply k)
      /\ Http.Has (respHeader (snd out)) "WWW-Authenticate" = true)
  /\ (ExtractFromBody (BasicAuth (Spec k)) = false -> token <> EmptyString ->
      snd (fst out) = Http.StatusBadRequest
      /\ respHeader (snd out) = respHeader w)
  /\ (ExtractFromBody (BasicAuth (Spec k)) = true ->
      snd (fst out) = Http.StatusBadRequest
      /\ Http.Has (respHeader (snd out)) "WWW-Authenticate" = false).
Proof.
  intros He token out.
  destruct (extractCredentials k r w) as [[[[u p] err] code] w1] eqn:Hx.
  cbn in He. subst err.
  assert (Hout : out = ((Some e, code), w1)).
  { exact (process_failed bcrypt murmur3 generateToken storage_GenerateToken
             globalConf k r now w w1 u p e code Hx). }
  rewrite Hout. cbn [fst snd]. clear Hout out.
  unfold extractCredentials in Hx. run_in Hx.
  destruct (basicAuthHeaderCredentials k r w) as [[[[hu hp] herr] hcode] wh] eqn:Hh.
  destruct herr as [he|]; [|discriminate Hx].
  split; [reflexivity|].
  destruct (ExtractFromBody (BasicAuth (Spec k))).
  - split; [intros C; discriminate C|]. split; [intros C; discriminate C|].
    intros _.
    match type of Hx with basicAuthBodyCredentials k r ?w' = _ =>
      destruct (body_world k r w') as (Hw & _ & Hcode) end.
    rewrite Hx in Hw, Hcode. cbn [fst snd] in Hw, Hcode.
    split; [exact (Hcode e eq_refl)|].
    subst w1. cbn [respHeader]. apply HttpFacts.Has_Del.
  - injection Hx as <- <- <- <- <-.
    split; [|split; [|intros C; discriminate C]].
    + intros _ Ht. rewrite (header_absent k r w Ht) in Hh.
      injection Hh as <- <- <- <- <-. cbn [respHeader].
      repeat split. apply HttpFacts.Has_Add.
    + intros _ Ht.
      assert (Herr : credErr (fst (basicAuthHeaderCredentials k r w)) = Some he)
        by (rewrite Hh; reflexivity).
      destruct (header_failure k r w he Ht Herr) as [Hres Hhdr].
      rewrite Hh in Hres, Hhdr. cbn [fst snd] in Hres, Hhdr.
      injection Hres as _ _ ->. split; [reflexivity | exact Hhdr].
Qed.

Lemma extraction_failure_challenge_witness :
  let out := ProcessRequest Samples.bcrypt Samples.fingerprint
               Samples.generateToken Samples.legacyToken Samples.conf
               Samples.verifier (Samples.request [] EmptyString) 1000
               Samples.world0 in
  fst out = (Some "Authorization field missing", Http.StatusUnauthorized)
  /\ Http.Has (respHeader (snd out)) "WWW-Authenticate" = true.
Proof.
  pose proof (extraction_failure_challenge Samples.bcrypt Samples.fingerprint
                Samples.generateToken Samples.legacyToken Samples.conf
                Samples.verifier (Samples.request [] EmptyString) 1000
                Samples.world0 "Authorization field missing" eq_refl)
    as (_ & Habsent & _).
  destruct (Habsent eq_refl eq_refl) as (Hres & _ & Hhas).
  split; [exact Hres | exact Hhas].
Defined.

(** C9, as stated, fails: the extraction fails, no attempt is left, and the
    response carries no challenge.  First a header of one token, without
    extraction from the body; then no header, with extraction from a body
    that the patterns do not match. *)
Lemma exhausted_extraction_without_challenge :
  (let r := Samples.request ["Basic"] EmptyString in
   let out := ProcessRequest Samples.bcrypt Samples.fingerprint
                Samples.generateToken Samples.legacyToken Samples.conf
                Samples.verifier r 1000 Samples.world0 in
   credErr (fst (extractCredentials Samples.verifier r Samples.world0)) <> None
   /\ snd (fst out) = Http.StatusBadRequest
   /\ Http.Has (respHeader (snd out)) "WWW-Authenticate" = false)
  /\ (let r := Samples.request [] "user=alice" in
      let out := ProcessRequest Samples.bcrypt Samples.fingerprint
                   Samples.generateToken Samples.legacyToken Samples.conf
                   Samples.fromBody r 1000 Samples.world0 in
      credErr (fst (extractCredentials Samples.fromBody r Samples.world0)) <> None
      /\ fst out = (Some "Body do not contain username", Http.StatusBadRequest)
      /\ Http.Has (respHeader (snd out)) "WWW-Authenticate" = false).
Proof. repeat split; discriminate. Qed.

(** C10.  When the session that is resolved (by the first lookup, or by the
    legacy one) has a hash kind that is neither [HashBCrypt] nor
    [HashPlainText], [ProcessRequest] returns nil and 200 whatever the
    password is: no bcrypt comparison is made, the response header and the
    cache are as the extraction left them, and the switch gives the same
    result for every other password. *)
Theorem unknown_hash_kind_is_accepted
        (bcrypt : string -> string -> option error) (murmur3 : string -> string)
        (generateToken : string -> string -> string)
        (storage_GenerateToken : string -> string -> string -> string)
        (globalConf : Config) (k : BasicAuthKeyIsValid) (r : Request)
        (now : GoTime.Time) (w w1 : World) (username password : string) (code : Z)
        (s : SessionState) (keyName : string) :
  extractCredentials k r w = ((username, password, None, code), w1) ->
  let token := Http.Get (ReqHeader r) "Authorization" in
  let canonical := generateToken (OrgID (Spec k)) username in
  let legacy := storage_GenerateToken (OrgID (Spec k))
                  (TrimPrefix username (OrgID (Spec k))) EmptyString in
  let lookup := CheckSessionAndIdentityForValidKey k in
  (lookup canonical r = Some s /\ keyName = canonical)
  \/ (lookup canonical r = None /\ HashKeyFunction globalConf <> EmptyString
      /\ lookup legacy r = Some s /\ keyName = legacy) ->
  Hash (SessionBasicAuthData s) <> HashBCrypt ->
  Hash (SessionBasicAuthData s) <> HashPlainText ->
  let out := ProcessRequest bcrypt murmur3 generateToken storage_GenerateToken
                            globalConf k r now w in
  fst out = (None, Http.StatusOK)
  /\ slowCalls (trace (snd out)) = slowCalls (trace w1)
  /\ respHeader (snd out) = respHeader w1
  /\ basicAuthCache (snd out) = basicAuthCache w1
  /\ (forall password' w',
       checkPasswordAndBind bcrypt murmur3 k r token s keyName password' now w'
       = checkPasswordAndBind bcrypt murmur3 k r token s keyName password now w').
Proof.
  intros He token canonical legacy lookup Hres Hb Hp out.
  assert (Hany : forall password' w',
             checkPasswordAndBind bcrypt murmur3 k r token s keyName password' now w'
             = checkPasswordAndBind bcrypt murmur3 k r token s keyName password now w').
  { intros password' w'. rewrite !(check_other_kind _ _ _ _ _ _ _ _ _ _ Hb Hp).
    reflexivity. }
  subst out. destruct Hres as [[Hc ->] | (Hc & Hm & Hl & ->)].
  - rewrite (process_canonical_hit bcrypt murmur3 generateToken
               storage_GenerateToken globalConf k r now w w1 username password
               code s He Hc).
    rewrite (check_other_kind _ _ _ _ _ _ _ _ _ _ Hb Hp).
    unfold logged. cbn [fst snd trace respHeader basicAuthCache].
    rewrite slowCalls_app. cbn [slowCalls]. rewrite app_nil_r.
    repeat split. exact Hany.
  - rewrite (process_legacy_hit bcrypt murmur3 generateToken
               storage_GenerateToken globalConf k r now w w1 username password
               code s He Hc Hm Hl).
    rewrite (check_other_kind _ _ _ _ _ _ _ _ _ _ Hb Hp).
    unfold logged. cbn [fst snd trace respHeader basicAuthCache].
    rewrite slowCalls_app. cbn [slowCalls]. rewrite app_nil_r.
    repeat split. exact Hany.
Qed.

Lemma unknown_hash_kind_is_accepted_witness :
  fst (ProcessRequest Samples.bcrypt Samples.fingerprint Samples.generateToken
         Samples.legacyToken Samples.conf Samples.otherKind
         (Samples.request [Samples.basicAlice] EmptyString) 1000 Samples.world0)
  = (None, Http.StatusOK).
Proof.
  refine (proj1 (unknown_hash_kind_is_accepted
                   Samples.bcrypt Samples.fingerprint Samples.generateToken
                   Samples.legacyToken Samples.conf Samples.otherKind
                   (Samples.request [Samples.basicAlice] EmptyString) 1000
                   Samples.world0 Samples.world0 "alice" "password-one" 0
                   (Samples.session (HashOther "sha256") "0a1b2c") "org1alice"
                   eq_refl _ _ _)).
  - left. split; reflexivity.
  - discriminate.
  - discriminate.
Defined.

End AuthMiddleware.

(** ** Facts about [HandleError] *)

Module ErrorHandlerFacts.
Import GoStrings GoStringsFacts ErrorHandler.

(** the two statements under "odd bugfix" leave a path that starts with a
    slash as it is and put a slash before any other *)
Lemma fixPath_cases (path : string) :
  fixPath path = if HasPrefix path "/" then path else "/" +:+ path.
Proof.
  unfold fixPath. rewrite append_cons, append_nil.
  assert (Hp : HasPrefix (String "/" path) "//" = HasPrefix path "/").
  { unfold HasPrefix. cbn [String.prefix].
    destruct (ascii_dec "/" "/") as [_|N]; [reflexivity | contradiction]. }
  rewrite Hp. destruct (HasPrefix path "/"); [|reflexivity].
  apply (TrimPrefix_head "/" path).
Qed.

Lemma HasPrefix_slash (path : string) :
  HasPrefix (fixPath path) "/" = true.
Proof.
  rewrite fixPath_cases. destruct (HasPrefix path "/") eqn:E; [exact E|].
  rewrite append_cons, append_nil. unfold HasPrefix. cbn [String.prefix].
  destruct (ascii_dec "/" "/") as [_|N]; [|contradiction].
  destruct path; reflexivity.
Qed.

Lemma HasPrefix_two_slashes (path : string) :
  HasPrefix (fixPath path) "//" = HasPrefix path "//".
Proof.
  rewrite fixPath_cases. destruct (HasPrefix path "/") eqn:E; [reflexivity|].
  rewrite append_cons, append_nil. unfold HasPrefix in *.
  assert (Hl : String.prefix "//" (String "/" path) = String.prefix "/" path).
  { cbn [String.prefix]. destruct (ascii_dec "/" "/") as [_|N];
      [reflexivity | contradiction]. }
  rewrite Hl, E. destruct path as [|c path]; [reflexivity|].
  cbn [String.prefix] in *. destruct (ascii_dec "/" c); [|reflexivity].
  destruct path; discriminate E.
Qed.

Section Handler.

Context {Template : Type}.
Variable env : Collaborators (Template := Template).
Variable spec : APISpec.

Lemma buildRecord_RawPath (w : Http.Header) (r : Request) (errCode : Z)
      (token ip : string) (clock : Clock) :
  RawPath (snd (buildRecord env spec w r errCode token ip clock))
  = fixPath (pathBeforeFix env spec r).
Proof.
  unfold buildRecord, pathBeforeFix.
  repeat (case_match; simplify_eq; cbn [snd RawPath URLPath]); reflexivity.
Qed.

Lemma buildRecord_ExpireAt (w : Http.Header) (r : Request) (errCode : Z)
      (token ip : string) (clock : Clock) :
  ExpireAt (snd (buildRecord env spec w r errCode token ip clock))
  = GoTime.Unix (calcExpiry (nowExpiry clock) (expiresAfter env spec)).
Proof.
  unfold buildRecord.
  repeat (case_match; simplify_eq; cbn [snd ExpireAt]); reflexivity.
Qed.

(** a record reaches the analytics only through [buildRecord] *)
Lemma recorded_buildRecord (w : Http.Header) (r : Request) (errMsg : string)
      (errCode : Z) (writeResponse : bool) (clock : Clock) (rec : AnalyticsRecord) :
  recorded (HandleError env spec w r errMsg errCode writeResponse clock) = Some rec ->
  exists w' token ip,
    rec = snd (buildRecord env spec w' r errCode token ip clock).
Proof.
  unfold HandleError.
  repeat (case_match; simplify_eq; cbn [recorded]); try discriminate;
    intros [= <-]; eexists _, _, _;
    match goal with H : buildRecord _ _ _ _ _ _ _ _ = _ |- _ => rewrite H end;
    reflexivity.
Qed.

(** when a response is written, it is the one of [writeErrorResponse] *)
Lemma written_writeErrorResponse (w : Http.Header) (r : Request)
      (errMsg : string) (errCode : Z) (clock : Clock) :
  written (HandleError env spec w r errMsg errCode true clock)
  = Some (writeErrorResponse env spec w r errMsg errCode).
Proof.
  unfold HandleError.
  repeat (case_match; simplify_eq; cbn [written]); reflexivity.
Qed.

End Handler.

Lemma hundred_years :
  GoTime.mul (GoTime.mul 24 GoTime.Hour) (365 * 100) = 3153600000 * 1000000000.
Proof. reflexivity. Qed.

Lemma Unix_Add_seconds (now : GoTime.Time) (n : Z) :
  GoTime.Unix (GoTime.Add now (n * 1000000000)) = GoTime.Unix now + n.
Proof. unfold GoTime.Unix, GoTime.Add. apply Z.div_add. discriminate. Qed.

End ErrorHandlerFacts.

(** ** The response and the analytics record of [HandleError] *)

Module ErrorPresenter.
Import GoStrings GoStringsFacts ErrorHandler ErrorHandlerFacts.

(** C6.  When [HandleError] writes a response, the template it executes is
    the first that [templates] holds among [error_<code>.<ext>],
    [error.<ext>] and [error.json], where [<ext>] is [xml] when the
    [Content-Type] of the request is [application/xml] and [json] otherwise.
    The [Content-Type] of the response is the one of [<ext>], and
    [application/json] when neither of the first two templates is there. *)
Theorem template_selection
        {Template : Type} (env : Collaborators (Template := Template))
        (spec : APISpec) (w : Http.Header) (r : Request) (errMsg : string)
        (errCode : Z) (clock : Clock) :
  let out := HandleError env spec w r errMsg errCode true clock in
  let xml := String.eqb (Http.Get (ReqHeader r) ContentType) ApplicationXML in
  let ext := if xml then "xml" else "json" in
  let byCode := "error_" +:+ Itoa errCode +:+ "." +:+ ext in
  let generic := "error." +:+ ext in
  let available :=
    omap (fun name => pair name <$> templates env !! name)
         [byCode; generic; "error.json"] in
  exists wr,
    written out = Some wr
    /\ (fun t => (wTemplateName wr, t)) <$> wTemplate wr = head available
    /\ wStatus wr = errCode
    /\ Http.Get (wHeader wr) ContentType
       = match templates env !! byCode, templates env !! generic with
         | None, None => ApplicationJSON
         | _, _ => if xml then ApplicationXML else ApplicationJSON
         end.
Proof.
  intros out xml ext byCode generic available.
  exists (writeErrorResponse env spec w r errMsg errCode).
  split; [apply written_writeErrorResponse|].
  assert (Hadds : forall (h : Http.Header) (v : string),
             Http.Get h ContentType = v -> Http.Has h ContentType = true ->
             Http.Get
               (let h1 := if negb (HideGeneratorHeader (GlobalConfig spec))
                          then Http.Add h (XGenerator env) "tyk.io" else h in
                if CloseConnections (GlobalConfig spec)
                then Http.Add h1 (Connection env) "close" else h1) ContentType = v).
  { intros h v Hg Hh. cbv zeta.
    destruct (negb (HideGeneratorHeader (GlobalConfig spec)));
      destruct (CloseConnections (GlobalConfig spec)); try exact Hg.
    - destruct (HttpFacts.Get_Add_Set h ContentType (XGenerator env) v "tyk.io" Hg Hh)
        as [Hg1 Hh1].
      exact (proj1 (HttpFacts.Get_Add_Set _ ContentType (Connection env) v "close" Hg1 Hh1)).
    - exact (proj1 (HttpFacts.Get_Add_Set h ContentType (XGenerator env) v "tyk.io" Hg Hh)).
    - exact (proj1 (HttpFacts.Get_Add_Set h ContentType (Connection env) v "close" Hg Hh)). }
  assert (Hset : forall (h : Http.Header) (v : string),
             Http.Get (Http.Set' h ContentType v) ContentType = v
             /\ Http.Has (Http.Set' h ContentType v) ContentType = true).
  { intros h v. unfold Http.Get, Http.Has, Http.Set'.
    rewrite lookup_insert_eq. split; reflexivity. }
  subst available. unfold writeErrorResponse, negotiate. fold xml.
  assert (Hext : (if xml then ("xml", ApplicationXML) else ("json", ApplicationJSON))
                 = (ext, if xml then ApplicationXML else ApplicationJSON))
    by (subst ext; destruct xml; reflexivity).
  rewrite Hext. clear Hext. cbv zeta.
  change (defaultTemplateName +:+ "." +:+ ext) with generic.
  change ("error_" +:+ Itoa errCode +:+ "." +:+ ext) with byCode.
  change (defaultTemplateName +:+ "." +:+ defaultTemplateFormat) with "error.json".
  cbn [omap list_omap].
  destruct (templates env !! byCode) as [t1|] eqn:H1.
  - cbn [wTemplateName wTemplate wStatus wHeader fmap option_fmap option_map head].
    repeat split. apply Hadds; apply Hset.
  - destruct (templates env !! generic) as [t2|] eqn:H2.
    + cbn [wTemplateName wTemplate wStatus wHeader fmap option_fmap option_map head].
      repeat split. apply Hadds; apply Hset.
    + cbn [wTemplateName wTemplate wStatus wHeader fmap option_fmap option_map head].
      split; [destruct (templates env !! "error.json"); reflexivity|].
      split; [reflexivity|]. apply Hadds; apply Hset.
Qed.

(** the scenario of the spec: status 404 and a request that declares
    [application/xml], with fewer and fewer templates *)
Example template_404_xml :
  let respond names :=
    (fun wr => (wTemplateName wr, Http.Get (wHeader wr) ContentType))
      <$> written (HandleError (Samples.collaborators names 0)
                     (Samples.trackedSpec 3600 false) ∅
                     (Samples.requestFor "/foo/bar" "application/xml")
                     "not found" 404 true Samples.clock) in
  respond ["error_404.xml"; "error.xml"; "error.json"]
  = Some ("error_404.xml", "application/xml")
  /\ respond ["error.xml"; "error.json"] = Some ("error.xml", "application/xml")
  /\ respond ["error.json"] = Some ("error.json", "application/json").
Proof. repeat split. Qed.

End ErrorPresenter.

Module OutcomeRecorder.
Import GoStrings GoStringsFacts ErrorHandler ErrorHandlerFacts VerificationFacts.

(** C4, as amended.  In the analytics path of [HandleError] the path of the
    request is prefixed with a slash and, when the result starts with two
    slashes, one of them is removed: a path that starts with a slash is
    recorded as it is, any other path with one slash before it.  The
    recorded raw path starts with a slash, and with two slashes exactly when
    the path of the request does; the path [/foo/bar] is recorded as
    [/foo/bar]. *)
Theorem raw_path_fix
        {Template : Type} (env : Collaborators (Template := Template))
        (spec : APISpec) (w : Http.Header) (r : Request) (errMsg : string)
        (errCode : Z) (writeResponse : bool) (clock : Clock)
        (rec : AnalyticsRecord) :
  recorded (HandleError env spec w r errMsg errCode writeResponse clock) = Some rec ->
  let path := pathBeforeFix env spec r in
  RawPath rec = (if HasPrefix path "/" then path else "/" +:+ path)
  /\ HasPrefix (RawPath rec) "/" = true
  /\ HasPrefix (RawPath rec) "//" = HasPrefix path "//"
  /\ (path = "/foo/bar" -> RawPath rec = "/foo/bar").
Proof.
  intros Hrec path.
  destruct (recorded_buildRecord env spec _ _ _ _ _ _ _ Hrec) as (w' & token & ip & ->).
  rewrite buildRecord_RawPath. fold path.
  split; [apply fixPath_cases|].
  split; [apply HasPrefix_slash|].
  split; [apply HasPrefix_two_slashes|].
  intros ->. reflexivity.
Qed.

Lemma raw_path_fix_witness :
  exists rec,
    recorded (HandleError (Samples.collaborators ["error.json"] 0)
                (Samples.trackedSpec 3600 false) ∅
                (Samples.requestFor "/foo/bar" "application/json")
                "not found" 404 true Samples.clock) = Some rec
    /\ RawPath rec = "/foo/bar".
Proof.
  eexists. split; [reflexivity|].
  refine (proj2 (proj2 (proj2 (raw_path_fix
            (Samples.collaborators ["error.json"] 0)
            (Samples.trackedSpec 3600 false) ∅
            (Samples.requestFor "/foo/bar" "application/json")
            "not found" 404 true Samples.clock _ eq_refl))) eq_refl).
Defined.

(** C4, as stated, fails: the path [//foo/bar] is recorded as [//foo/bar]. *)
Lemma double_slash_is_kept :
  RawPath <$> recorded (HandleError (Samples.collaborators ["error.json"] 0)
                          (Samples.trackedSpec 3600 false) ∅
                          (Samples.requestFor "//foo/bar" "application/json")
                          "not found" 404 true Samples.clock)
  = Some "//foo/bar"
  /\ "//foo/bar" <> "/foo/bar".
Proof. split; [reflexivity | discriminate]. Qed.

(** C7, as amended.  The expiry of the analytics record is the instant
    [calcExpiry] reads off the clock plus a duration, in whole seconds.  The
    retention is [ExpireAnalyticsAfter] of the API, unless
    [EnforceOrgDataAge] is set and the cap of the organisation is positive:
    then it is the cap.  A retention of zero gives the instant plus
    [(24 * time.Hour) * (365 * 100)], which is 3153600000 seconds.  The
    duration of a retention that is not zero is
    [time.Duration(retention) * time.Second]: the expiry is the instant plus
    the retention for a retention from -9223372036 to 9223372036 seconds,
    those whose nanoseconds fit the [int64]. *)
Theorem analytics_expiry
        {Template : Type} (env : Collaborators (Template := Template))
        (spec : APISpec) (w : Http.Header) (r : Request) (errMsg : string)
        (errCode : Z) (writeResponse : bool) (clock : Clock)
        (rec : AnalyticsRecord) :
  recorded (HandleError env spec w r errMsg errCode writeResponse clock) = Some rec ->
  let cap := OrgSessionExpiry env (OrgID spec) in
  let retention :=
    if EnforceOrgDataAge (GlobalConfig spec) && (0 <? cap) then cap
    else ExpireAnalyticsAfter spec in
  let now := nowExpiry clock in
  ExpireAt rec
  = GoTime.Unix (GoTime.Add now
                   (if retention =? 0
                    then GoTime.mul (GoTime.mul 24 GoTime.Hour) (365 * 100)
                    else GoTime.mul retention GoTime.Second))
  /\ (retention = 0 -> ExpireAt rec = GoTime.Unix now + 3153600000)
  /\ (retention <> 0 -> -9223372036 <= retention <= 9223372036 ->
      ExpireAt rec = GoTime.Unix now + retention).
Proof.
  intros Hrec cap retention now.
  destruct (recorded_buildRecord env spec _ _ _ _ _ _ _ Hrec) as (w' & token & ip & ->).
  rewrite buildRecord_ExpireAt. fold now.
  assert (Hret : expiresAfter env spec = retention).
  { unfold expiresAfter, retention. fold cap.
    destruct (EnforceOrgDataAge (GlobalConfig spec)); reflexivity. }
  rewrite Hret. unfold calcExpiry.
  split; [reflexivity|]. split.
  - intros ->. cbn [Z.eqb]. rewrite hundred_years. apply Unix_Add_seconds.
  - intros Hnz Hrange. destruct (Z.eqb_spec retention 0) as [E|_]; [contradiction|].
    rewrite seconds_exact by exact Hrange. apply Unix_Add_seconds.
Qed.

Lemma analytics_expiry_witness :
  exists rec,
    recorded (HandleError (Samples.collaborators ["error.json"] 60)
                (Samples.trackedSpec 3600 true) ∅
                (Samples.requestFor "/foo/bar" "application/json")
                "not found" 404 true Samples.clock) = Some rec
    /\ ExpireAt rec = 1793361600 + 60.
Proof.
  eexists. split; [reflexivity|].
  refine (proj2 (proj2 (analytics_expiry
            (Samples.collaborators ["error.json"] 60)
            (Samples.trackedSpec 3600 true) ∅
            (Samples.requestFor "/foo/bar" "application/json")
            "not found" 404 true Samples.clock _ eq_refl)) _ _).
  - discriminate.
  - cbn. lia.
Defined.

(** C7, as stated, fails where the product of the retention and
    [time.Second] leaves the [int64]: with a retention of 9223372037
    seconds the duration is negative, and the record expires in the year
    1734 and not 9223372037 seconds after the instant of the clock. *)
Lemma retention_overflow_is_not_now_plus_retention :
  ExpireAt <$> recorded (HandleError (Samples.collaborators ["error.json"] 0)
                           (Samples.trackedSpec 9223372037 false) ∅
                           (Samples.requestFor "/foo/bar" "application/json")
                           "not found" 404 true Samples.clock)
  = Some (-7430010437)
  /\ GoTime.Unix (nowExpiry Samples.clock) + 9223372037 = 11016733637.
Proof. split; vm_compute; reflexivity. Qed.

(** the numbers of the spec: a retention of 3600 seconds, a retention of
    zero, and a cap of 60 seconds over a retention of 3600 *)
Example expiry_numbers :
  let expiry retention enforce cap :=
    ExpireAt <$> recorded (HandleError (Samples.collaborators ["error.json"] cap)
                             (Samples.trackedSpec retention enforce) ∅
                             (Samples.requestFor "/foo/bar" "application/json")
                             "not found" 404 true Samples.clock) in
  expiry 3600 false 0 = Some (1793361600 + 3600)
  /\ expiry 0 false 0 = Some (1793361600 + 3153600000)
  /\ expiry 3600 true 60 = Some (1793361600 + 60)
  /\ expiry 3600 true 0 = Some (1793361600 + 3600).
Proof. repeat split. Qed.

End OutcomeRecorder.

(** ** More about the hash verifier *)

Module VerifierProperties.
Import BasicAuth VerificationFacts Invariants.

Lemma Get_Some_items (c : GoCache.Cache) (key value : string) (now : GoTime.Time) :
  GoCache.Get c key now = Some value ->
  exists it, GoCache.items c !! key = Some it /\ GoCache.Object it = value.
Proof.
  unfold GoCache.Get. destruct (GoCache.items c !! key) as [it|]; [|discriminate].
  intros H. exists it. split; [reflexivity|].
  destruct (GoCache.Expiration it) as [e|].
  - destruct (e <? now); [discriminate | congruence].
  - congruence.
Qed.

(** an item that was set with a positive duration is returned until the
    duration has passed, and not after *)
Lemma Get_Set'_positive (c : GoCache.Cache) (key value : string)
      (d : GoTime.Duration) (t0 t1 : GoTime.Time) :
  0 < d ->
  GoCache.Get (GoCache.Set' c key value d t0) key t1
  = if t0 + d <? t1 then None else Some value.
Proof.
  intros Hd. unfold GoCache.Get, GoCache.Set'. cbn [GoCache.items].
  rewrite lookup_insert_eq.
  destruct (Z.eqb_spec d 0) as [E|_]; [lia|].
  destruct (Z.ltb_spec 0 d) as [_|C]; [|lia].
  reflexivity.
Qed.

Section Verify.

Variable bcrypt : string -> string -> option error.
Variable murmur3 : string -> string.
Variable k : BasicAuthKeyIsValid.

Let compare := compareHashAndPassword bcrypt murmur3 k.

(** the five ways through [compareHashAndPassword] *)
Lemma compare_cases (hash password : string) (now : GoTime.Time) (w : World) :
  let out := compare hash password now w in
  (fst out = bcrypt hash password
   /\ basicAuthCache (snd out) = basicAuthCache w
   /\ exists level msg,
       trace (snd out)
       = (trace w ++ [Log level msg; BcryptCompare hash password])%list)
  \/ (fst out = None /\ bcrypt hash password = None
      /\ DisableCaching (BasicAuth (Spec k)) = false
      /\ GoCache.Get (basicAuthCache w) hash now = None
      /\ basicAuthCache (snd out)
         = GoCache.Set' (basicAuthCache w) hash (murmur3 password) (cacheTTL k) now
      /\ exists level msg,
          trace (snd out)
          = (trace w ++ [Log level msg; BcryptCompare hash password])%list)
  \/ (fst out = None
      /\ DisableCaching (BasicAuth (Spec k)) = false
      /\ GoCache.Get (basicAuthCache w) hash now = Some (murmur3 password)
      /\ basicAuthCache (snd out) = basicAuthCache w
      /\ exists level msg, trace (snd out) = (trace w ++ [Log level msg])%list).
Proof.
  intros out. subst out compare.
  destruct (DisableCaching (BasicAuth (Spec k))) eqn:Hd.
  - left. rewrite (compare_disabled _ _ _ _ _ _ _ Hd). cbn [fst snd trace basicAuthCache].
    repeat split. eexists _, _. reflexivity.
  - destruct (GoCache.Get (basicAuthCache w) hash now) as [cached|] eqn:Hg.
    + destruct (String.eqb_spec cached (murmur3 password)) as [->|Hne].
      * right. right. rewrite (compare_hit_equal _ _ _ _ _ _ _ Hd Hg).
        cbn [fst snd trace basicAuthCache]. repeat split.
        eexists _, _. reflexivity.
      * left. rewrite (compare_hit_differ _ _ _ _ _ _ _ _ Hd Hg Hne).
        cbn [fst snd trace basicAuthCache]. repeat split.
        eexists _, _. reflexivity.
    + destruct (bcrypt hash password) as [e|] eqn:Hb.
      * left. rewrite (compare_miss_fail _ _ _ _ _ _ _ _ Hd Hg Hb).
        cbn [fst snd trace basicAuthCache]. repeat split.
        eexists _, _. reflexivity.
      * right. left. rewrite (compare_miss_ok _ _ _ _ _ _ _ Hd Hg Hb).
        cbn [fst snd trace basicAuthCache]. repeat split.
        eexists _, _. reflexivity.
Qed.

(** what [compareHashAndPassword] leaves alone *)
Lemma compare_world (hash password : string) (now : GoTime.Time) (w : World) :
  respHeader (snd (compare hash password now w)) = respHeader w
  /\ ctxSession (snd (compare hash password now w)) = ctxSession w.
Proof.
  unfold compare, compareHashAndPassword, doBcryptWithCache, bcryptCompare.
  ExtractionFacts.run. cbn.
  repeat (case_match; cbn in *; simplify_eq); split; reflexivity.
Qed.

End Verify.

(** the bcrypt comparisons and the session lookups of
    [compareHashAndPassword] *)
Lemma compare_calls
      (bcrypt : string -> string -> option error) (murmur3 : string -> string)
      (k : BasicAuthKeyIsValid) (hash password : string)
      (now : GoTime.Time) (w : World) :
  let out := compareHashAndPassword bcrypt murmur3 k hash password now w in
  (slowCalls (trace (snd out)) = slowCalls (trace w)
   \/ slowCalls (trace (snd out))
      = (slowCalls (trace w) ++ [(hash, password)])%list)
  /\ lookups (trace (snd out)) = lookups (trace w).
Proof.
  intros out.
  destruct (compare_cases bcrypt murmur3 k hash password now w)
    as [(_ & _ & level & msg & Ht)
       | [(_ & _ & _ & _ & _ & level & msg & Ht)
         | (_ & _ & _ & _ & level & msg & Ht)]];
    fold out in Ht; rewrite Ht, slowCalls_app, lookups_app; cbn;
    rewrite ?app_nil_r; split; auto.
Qed.

(** the one way in which [compareHashAndPassword] writes the cache *)
Lemma compare_cache
      (bcrypt : string -> string -> option error) (murmur3 : string -> string)
      (k : BasicAuthKeyIsValid) (hash password : string)
      (now : GoTime.Time) (w : World) :
  let out := compareHashAndPassword bcrypt murmur3 k hash password now w in
  basicAuthCache (snd out) = basicAuthCache w
  \/ (GoCache.Get (basicAuthCache w) hash now = None
      /\ bcrypt hash password = None
      /\ fst out = None
      /\ basicAuthCache (snd out)
         = GoCache.Set' (basicAuthCache w) hash (murmur3 password)
                        (cacheTTL k) now).
Proof.
  intros out.
  destruct (compare_cases bcrypt murmur3 k hash password now w)
    as [(Hr & Hcache & _)
       | [(Hr & Hb & Hd & Hg & Hcache & _)
         | (Hr & Hd & Hg & Hcache & _)]];
    fold out in Hr, Hcache; [left; exact Hcache | right; tauto | left; exact Hcache].
Qed.

(** X1.  [compareHashAndPassword] makes at most one bcrypt comparison, and
    only of the stored hash with the supplied password; it looks no session
    up and leaves the response header and the session of the context alone;
    the cache changes only by the [Set] of the fingerprint of the supplied
    password under the stored hash, and only after a miss followed by a
    comparison that succeeds. *)
Theorem compareHashAndPassword_footprint
        (bcrypt : string -> string -> option error) (murmur3 : string -> string)
        (k : BasicAuthKeyIsValid) (hash password : string)
        (now : GoTime.Time) (w : World) :
  let out := compareHashAndPassword bcrypt murmur3 k hash password now w in
  (slowCalls (trace (snd out)) = slowCalls (trace w)
   \/ slowCalls (trace (snd out))
      = (slowCalls (trace w) ++ [(hash, password)])%list)
  /\ lookups (trace (snd out)) = lookups (trace w)
  /\ respHeader (snd out) = respHeader w
  /\ ctxSession (snd out) = ctxSession w
  /\ (basicAuthCache (snd out) = basicAuthCache w
      \/ (GoCache.Get (basicAuthCache w) hash now = None
          /\ bcrypt hash password = None
          /\ fst out = None
          /\ basicAuthCache (snd out)
             = GoCache.Set' (basicAuthCache w) hash (murmur3 password)
                            (cacheTTL k) now)).
Proof.
  intros out.
  destruct (compare_world bcrypt murmur3 k hash password now w) as [Hh Hc].
  destruct (compare_calls bcrypt murmur3 k hash password now w) as [Hcalls Hl].
  pose proof (compare_cache bcrypt murmur3 k hash password now w) as Hcache.
  cbv zeta in Hcache. fold out in Hh, Hc, Hcalls, Hl, Hcache.
  split; [exact Hcalls|]. split; [exact Hl|]. split; [exact Hh|].
  split; [exact Hc | exact Hcache].
Qed.

Lemma cacheSound_New (bcrypt : string -> string -> option error)
      (murmur3 : string -> string) (d : GoTime.Duration) :
  cacheSound bcrypt murmur3 (GoCache.New d).
Proof. intros h it H. cbn in H. rewrite lookup_empty in H. discriminate H. Qed.

Lemma cacheSound_Set' (bcrypt : string -> string -> option error)
      (murmur3 : string -> string) (c : GoCache.Cache) (hash password : string)
      (d : GoTime.Duration) (now : GoTime.Time) :
  cacheSound bcrypt murmur3 c -> bcrypt hash password = None ->
  cacheSound bcrypt murmur3 (GoCache.Set' c hash (murmur3 password) d now).
Proof.
  intros Hs Hb h it. unfold GoCache.Set'. cbn [GoCache.items].
  destruct (decide (hash = h)) as [<-|Hne].
  - rewrite lookup_insert_eq. intros [= <-]. exists password. split; [exact Hb | reflexivity].
  - rewrite lookup_insert_ne by exact Hne. apply Hs.
Qed.

Lemma cacheSound_worldVerified :
  cacheSound Samples.bcrypt Samples.fingerprint
             (basicAuthCache Samples.worldVerified).
Proof.
  apply (cacheSound_Set' Samples.bcrypt Samples.fingerprint
           (basicAuthCache Samples.world0) Samples.storedHash Samples.goodPassword).
  - apply cacheSound_New.
  - reflexivity.
Qed.

(** X2.  [compareHashAndPassword] keeps the cache sound: when every item is
    the fingerprint of a password that bcrypt accepts for the hash it is
    stored under, the same holds of the cache after the call. *)
Theorem compareHashAndPassword_keeps_cache_sound
        (bcrypt : string -> string -> option error) (murmur3 : string -> string)
        (k : BasicAuthKeyIsValid) (hash password : string)
        (now : GoTime.Time) (w : World) :
  cacheSound bcrypt murmur3 (basicAuthCache w) ->
  cacheSound bcrypt murmur3
    (basicAuthCache (snd (compareHashAndPassword bcrypt murmur3 k hash password now w))).
Proof.
  intros Hs.
  destruct (compare_cache bcrypt murmur3 k hash password now w)
    as [-> | (_ & Hb & _ & ->)]; [exact Hs|].
  apply cacheSound_Set'; assumption.
Qed.

Lemma compareHashAndPassword_keeps_cache_sound_witness :
  cacheSound Samples.bcrypt Samples.fingerprint
             (basicAuthCache Samples.worldVerified).
Proof.
  refine (compareHashAndPassword_keeps_cache_sound
            Samples.bcrypt Samples.fingerprint Samples.verifier
            Samples.storedHash Samples.goodPassword 1000 Samples.world0 _).
  apply cacheSound_New.
Defined.

Lemma accepted_password_fingerprint
      (bcrypt : string -> string -> option error) (murmur3 : string -> string)
      (k : BasicAuthKeyIsValid) (hash password : string)
      (now : GoTime.Time) (w : World) :
  cacheSound bcrypt murmur3 (basicAuthCache w) ->
  fst (compareHashAndPassword bcrypt murmur3 k hash password now w) = None ->
  exists verified,
    bcrypt hash verified = None /\ murmur3 verified = murmur3 password.
Proof.
  intros Hs Hok.
  destruct (compare_cases bcrypt murmur3 k hash password now w)
    as [(Hr & _) | [(_ & Hb & _) | (_ & _ & Hg & _)]].
  - exists password. split; [|reflexivity]. rewrite <- Hr. exact Hok.
  - exists password. split; [exact Hb | reflexivity].
  - destruct (Get_Some_items _ _ _ _ Hg) as (it & Hit & Hobj).
    destruct (Hs hash it Hit) as (verified & Hv & Hfp).
    exists verified. split; [exact Hv | congruence].
Qed.

(** X3.  On a sound cache, a password that [compareHashAndPassword] accepts
    has the fingerprint of a password that bcrypt accepts for the stored
    hash. *)
Theorem accepted_password_has_verified_fingerprint
        (bcrypt : string -> string -> option error) (murmur3 : string -> string)
        (k : BasicAuthKeyIsValid) (hash password : string)
        (now : GoTime.Time) (w : World) :
  cacheSound bcrypt murmur3 (basicAuthCache w) ->
  fst (compareHashAndPassword bcrypt murmur3 k hash password now w) = None ->
  exists verified,
    bcrypt hash verified = None /\ murmur3 verified = murmur3 password.
Proof.
  intros Hs Hok.
  exact (accepted_password_fingerprint bcrypt murmur3 k hash password now w Hs Hok).
Qed.

Lemma accepted_password_has_verified_fingerprint_witness :
  exists verified,
    Samples.bcrypt Samples.storedHash verified = None
    /\ Samples.fingerprint verified = Samples.fingerprint Samples.wrongPassword.
Proof.
  refine (accepted_password_has_verified_fingerprint
            Samples.bcrypt Samples.fingerprint Samples.verifier
            Samples.storedHash Samples.wrongPassword 2000 Samples.worldVerified
            cacheSound_worldVerified eq_refl).
Defined.

(** the duration of an item is positive as long as the nanoseconds of the
    configured seconds fit the [int64] *)
Lemma cacheTTL_positive (k : BasicAuthKeyIsValid) :
  CacheTTL (BasicAuth (Spec k)) <= 9223372036 -> 0 < cacheTTL k.
Proof.
  intros H. unfold cacheTTL.
  destruct (Z.ltb_spec 0 (CacheTTL (BasicAuth (Spec k)))) as [Hp|_].
  - rewrite seconds_exact by lia. lia.
  - rewrite defaultBasicAuthTTL_value. lia.
Qed.

(** an item is returned at every instant up to the one it was set at plus
    the duration given to [Set], whatever that duration: it stands for the
    default of the cache when it is 0 and for no expiry when it is negative *)
Lemma Get_Set'_within (c : GoCache.Cache) (key value : string)
      (d : GoTime.Duration) (t0 t1 : GoTime.Time) :
  t1 <= t0 + d ->
  GoCache.Get (GoCache.Set' c key value d t0) key t1 = Some value.
Proof.
  intros Ht. unfold GoCache.Get, GoCache.Set', GoTime.Add. cbn [GoCache.items].
  rewrite lookup_insert_eq. cbn [GoCache.Expiration GoCache.Object].
  destruct (Z.eqb_spec d 0) as [E|N].
  - destruct (Z.ltb_spec 0 (GoCache.defaultExpiration c)) as [Hp|_]; [|reflexivity].
    destruct (Z.ltb_spec (t0 + GoCache.defaultExpiration c) t1); [lia | reflexivity].
  - destruct (Z.ltb_spec 0 d) as [Hp|_]; [|reflexivity].
    destruct (Z.ltb_spec (t0 + d) t1); [lia | reflexivity].
Qed.

(** X4.  After a password was verified by bcrypt on a cache miss at instant
    [t0], the same password for the same hash is accepted at every instant
    up to [t0] plus the duration of the item without any bcrypt comparison,
    and the cache is not written. *)
Theorem verified_password_is_remembered
        (bcrypt : string -> string -> option error) (murmur3 : string -> string)
        (k : BasicAuthKeyIsValid) (hash password : string)
        (t0 t1 : GoTime.Time) (w : World) :
  DisableCaching (BasicAuth (Spec k)) = false ->
  GoCache.Get (basicAuthCache w) hash t0 = None ->
  bcrypt hash password = None ->
  t1 <= t0 + cacheTTL k ->
  let w1 := snd (compareHashAndPassword bcrypt murmur3 k hash password t0 w) in
  let out := compareHashAndPassword bcrypt murmur3 k hash password t1 w1 in
  fst out = None
  /\ slowCalls (trace (snd out)) = slowCalls (trace w1)
  /\ basicAuthCache (snd out) = basicAuthCache w1.
Proof.
  intros Hd Hg Hb Ht w1 out.
  assert (Hw1 : basicAuthCache w1
                = GoCache.Set' (basicAuthCache w) hash (murmur3 password)
                               (cacheTTL k) t0).
  { subst w1. rewrite (compare_miss_ok _ _ _ _ _ _ _ Hd Hg Hb). reflexivity. }
  assert (Hg1 : GoCache.Get (basicAuthCache w1) hash t1 = Some (murmur3 password)).
  { rewrite Hw1. apply Get_Set'_within. exact Ht. }
  subst out. rewrite (compare_hit_equal _ _ _ _ _ _ _ Hd Hg1).
  cbn [fst snd trace basicAuthCache]. rewrite slowCalls_app, app_nil_r.
  repeat split.
Qed.

Lemma verified_password_is_remembered_witness :
  let w1 := snd (compareHashAndPassword Samples.bcrypt Samples.fingerprint
                   Samples.verifier Samples.storedHash Samples.goodPassword
                   1000 Samples.world0) in
  let out := compareHashAndPassword Samples.bcrypt Samples.fingerprint
               Samples.verifier Samples.storedHash Samples.goodPassword
               60000001000 w1 in
  fst out = None
  /\ slowCalls (trace (snd out)) = slowCalls (trace w1)
  /\ basicAuthCache (snd out) = basicAuthCache w1.
Proof.
  refine (verified_password_is_remembered
            Samples.bcrypt Samples.fingerprint Samples.verifier
            Samples.storedHash Samples.goodPassword 1000 60000001000
            Samples.world0 eq_refl eq_refl eq_refl _).
  vm_compute. discriminate.
Defined.

(** X5.  With [CacheTTL] at most 9223372036 seconds, so that the duration
    of the item is positive, once that duration has passed the same
    password is verified by bcrypt again, and the item is set anew from the
    instant of that verification. *)
Theorem remembered_password_expires
        (bcrypt : string -> string -> option error) (murmur3 : string -> string)
        (k : BasicAuthKeyIsValid) (hash password : string)
        (t0 t1 : GoTime.Time) (w : World) :
  DisableCaching (BasicAuth (Spec k)) = false ->
  CacheTTL (BasicAuth (Spec k)) <= 9223372036 ->
  GoCache.Get (basicAuthCache w) hash t0 = None ->
  bcrypt hash password = None ->
  t0 + cacheTTL k < t1 ->
  let w1 := snd (compareHashAndPassword bcrypt murmur3 k hash password t0 w) in
  let out := compareHashAndPassword bcrypt murmur3 k hash password t1 w1 in
  fst out = None
  /\ slowCalls (trace (snd out))
     = (slowCalls (trace w1) ++ [(hash, password)])%list
  /\ GoCache.items (basicAuthCache (snd out)) !! hash
     = Some (GoCache.mkItem (murmur3 password) (Some (t1 + cacheTTL k))).
Proof.
  intros Hd Httl Hg Hb Ht w1 out.
  pose proof (cacheTTL_positive k Httl) as Hpos.
  assert (Hw1 : basicAuthCache w1
                = GoCache.Set' (basicAuthCache w) hash (murmur3 password)
                               (cacheTTL k) t0).
  { subst w1. rewrite (compare_miss_ok _ _ _ _ _ _ _ Hd Hg Hb). reflexivity. }
  assert (Hg1 : GoCache.Get (basicAuthCache w1) hash t1 = None).
  { rewrite Hw1, Get_Set'_positive by exact Hpos.
    destruct (Z.ltb_spec (t0 + cacheTTL k) t1); [reflexivity | lia]. }
  subst out. rewrite (compare_miss_ok _ _ _ _ _ _ _ Hd Hg1 Hb).
  cbn [fst snd trace basicAuthCache]. rewrite !slowCalls_app.
  split; [reflexivity|]. split; [reflexivity|].
  unfold GoCache.Set' at 1. cbn [GoCache.items]. rewrite lookup_insert_eq.
  destruct (Z.eqb_spec (cacheTTL k) 0) as [E|_]; [lia|].
  destruct (Z.ltb_spec 0 (cacheTTL k)) as [_|C]; [|lia].
  reflexivity.
Qed.

Lemma remembered_password_expires_witness :
  let w1 := snd (compareHashAndPassword Samples.bcrypt Samples.fingerprint
                   Samples.verifier Samples.storedHash Samples.goodPassword
                   1000 Samples.world0) in
  let out := compareHashAndPassword Samples.bcrypt Samples.fingerprint
               Samples.verifier Samples.storedHash Samples.goodPassword
               60000001001 w1 in
  slowCalls (trace (snd out))
  = (slowCalls (trace w1) ++ [(Samples.storedHash, Samples.goodPassword)])%list.
Proof.
  refine (proj1 (proj2 (remembered_password_expires
            Samples.bcrypt Samples.fingerprint Samples.verifier
            Samples.storedHash Samples.goodPassword 1000 60000001001
            Samples.world0 eq_refl _ eq_refl eq_refl _))).
  - vm_compute. discriminate.
  - vm_compute. reflexivity.
Defined.

End VerifierProperties.

(** ** More about [ProcessRequest] *)

Module MiddlewareProperties.
Import GoStrings BasicAuth ExtractionFacts VerificationFacts ProcessFacts
       Invariants VerifierProperties.

Lemma sameButChallenge_refl (h : Http.Header) : sameButChallenge h h.
Proof. intros key _. reflexivity. Qed.

Lemma sameButChallenge_trans (h1 h2 h3 : Http.Header) :
  sameButChallenge h1 h2 -> sameButChallenge h2 h3 -> sameButChallenge h1 h3.
Proof. intros H12 H23 key Hk. rewrite (H23 key Hk). apply H12, Hk. Qed.

Lemma sameButChallenge_Add (h : Http.Header) (value : string) :
  sameButChallenge h (Http.Add h "WWW-Authenticate" value).
Proof. intros key Hk. unfold Http.Add. rewrite lookup_insert_ne; [reflexivity | congruence]. Qed.

Lemma sameButChallenge_Del (h : Http.Header) :
  sameButChallenge h (Http.Del h "WWW-Authenticate").
Proof. intros key Hk. unfold Http.Del. rewrite lookup_delete_ne; [reflexivity | congruence]. Qed.

Lemma logged_fields (w : World) (events : list Event) :
  respHeader (logged w events) = respHeader w
  /\ basicAuthCache (logged w events) = basicAuthCache w
  /\ ctxSession (logged w events) = ctxSession w
  /\ trace (logged w events) = (trace w ++ events)%list.
Proof. repeat split. Qed.

Lemma respHeader_logged (w : World) (events : list Event) :
  respHeader (logged w events) = respHeader w.
Proof. reflexivity. Qed.

Lemma basicAuthCache_logged (w : World) (events : list Event) :
  basicAuthCache (logged w events) = basicAuthCache w.
Proof. reflexivity. Qed.

Lemma ctxSession_logged (w : World) (events : list Event) :
  ctxSession (logged w events) = ctxSession w.
Proof. reflexivity. Qed.

Lemma trace_logged (w : World) (events : list Event) :
  trace (logged w events) = (trace w ++ events)%list.
Proof. reflexivity. Qed.

Ltac logged_fields :=
  rewrite ?respHeader_logged, ?basicAuthCache_logged, ?ctxSession_logged,
    ?trace_logged.

Ltac logged_fields_in H :=
  rewrite ?respHeader_logged, ?basicAuthCache_logged, ?ctxSession_logged,
    ?trace_logged in H.

(** the events of a trace that are neither a comparison nor a lookup *)
Lemma slowCalls_Log (level : Level) (msg : string) (t : list Event) :
  slowCalls (Log level msg :: t) = slowCalls t.
Proof. reflexivity. Qed.

Section Process.

Variable bcrypt : string -> string -> option error.
Variable murmur3 : string -> string.
Variable generateToken : string -> string -> string.
Variable storage_GenerateToken : string -> string -> string -> string.
Variable globalConf : Config.
Variable k : BasicAuthKeyIsValid.

Let process := ProcessRequest bcrypt murmur3 generateToken storage_GenerateToken globalConf k.
Let check := checkPasswordAndBind bcrypt murmur3 k.
Let compare := compareHashAndPassword bcrypt murmur3 k.

(** the extractor from the header: what it leaves alone *)
Lemma header_world (r : Request) (w : World) :
  let out := basicAuthHeaderCredentials k r w in
  basicAuthCache (snd out) = basicAuthCache w
  /\ ctxSession (snd out) = ctxSession w
  /\ sameButChallenge (respHeader w) (respHeader (snd out))
  /\ slowCalls (trace (snd out)) = slowCalls (trace w)
  /\ lookups (trace (snd out)) = lookups (trace w).
Proof.
  cbv zeta. unfold basicAuthHeaderCredentials, requestForBasicAuth. run.
  repeat (case_match; cbn [fst snd basicAuthCache ctxSession respHeader trace]);
    rewrite ?slowCalls_app, ?lookups_app; cbn [slowCalls lookups];
    rewrite ?app_nil_r;
    repeat split; try apply sameButChallenge_refl; apply sameButChallenge_Add.
Qed.

(** the three ways through the extraction *)
Lemma extract_cases (r : Request) (w : World) :
  let hdr := basicAuthHeaderCredentials k r w in
  (credErr (fst hdr) = None /\ extractCredentials k r w = hdr)
  \/ (credErr (fst hdr) <> None
      /\ ExtractFromBody (BasicAuth (Spec k)) = false
      /\ extractCredentials k r w = hdr)
  \/ (credErr (fst hdr) <> None
      /\ ExtractFromBody (BasicAuth (Spec k)) = true
      /\ extractCredentials k r w
         = (fst (basicAuthBodyCredentials k r w),
            mkWorld (Http.Del (respHeader (snd hdr)) "WWW-Authenticate")
                    (basicAuthCache (snd hdr)) (ctxSession (snd hdr))
                    (trace (snd hdr)))).
Proof.
  cbv zeta. unfold extractCredentials. run.
  destruct (basicAuthHeaderCredentials k r w) as [[[[u p] err] code] wh].
  cbn [fst snd credErr]. destruct err as [e|]; [|left; split; reflexivity].
  right. destruct (ExtractFromBody (BasicAuth (Spec k))).
  - right. split; [discriminate|]. split; [reflexivity|].
    match goal with |- basicAuthBodyCredentials k r ?w' = _ =>
      destruct (body_world k r w') as (Hw & Hfst & _);
      rewrite (surjective_pairing (basicAuthBodyCredentials k r w')), Hw,
        (Hfst w) end.
    reflexivity.
  - left. split; [discriminate|]. split; reflexivity.
Qed.

Lemma extract_world (r : Request) (w : World) :
  let out := extractCredentials k r w in
  basicAuthCache (snd out) = basicAuthCache w
  /\ ctxSession (snd out) = ctxSession w
  /\ sameButChallenge (respHeader w) (respHeader (snd out))
  /\ slowCalls (trace (snd out)) = slowCalls (trace w)
  /\ lookups (trace (snd out)) = lookups (trace w).
Proof.
  cbv zeta. destruct (header_world r w) as (Hc & Hx & Hh & Hs & Hl).
  destruct (extract_cases r w) as [(_ & ->) | [(_ & _ & ->) | (_ & _ & ->)]];
    try (repeat split; assumption).
  cbn [snd basicAuthCache ctxSession respHeader trace].
  repeat split; try assumption.
  eapply sameButChallenge_trans; [exact Hh | apply sameButChallenge_Del].
Qed.

(** the switch on the hash kind and what follows it: the password is
    accepted and the session bound, or the request fails *)
Lemma check_cases (r : Request) (token : string) (s : SessionState)
      (keyName password : string) (now : GoTime.Time) (w : World) :
  let stored := Password (SessionBasicAuthData s) in
  let cmp := compare stored password now w in
  let wc := match Hash (SessionBasicAuthData s) with
            | HashBCrypt => snd cmp
            | _ => w
            end in
  let accepted := match Hash (SessionBasicAuthData s) with
                  | HashBCrypt => fst cmp = None
                  | HashPlainText => stored = password
                  | HashOther _ => True
                  end in
  (accepted
   /\ check r token s keyName password now w
      = ((None, Http.StatusOK),
         mkWorld (respHeader wc) (basicAuthCache wc)
                 (match BaseIdentityProvidedBy (Spec k) with
                  | BasicAuthUser | UnsetAuth => Some (s, keyName)
                  | OtherAuth _ => ctxSession wc
                  end)
                 (trace wc)))
  \/ (~ accepted
      /\ check r token s keyName password now w
         = handleAuthFail k r token
             (logged wc [Log Warn "Attempted access with existing user, failed password check."])).
Proof.
  cbv zeta. unfold check, checkPasswordAndBind. fold compare.
  destruct (Hash (SessionBasicAuthData s)).
  - destruct (String.eqb_spec (Password (SessionBasicAuthData s)) password) as [E|N].
    + left. split; [exact E|]. cbn [negb]. run. destruct w.
      destruct (BaseIdentityProvidedBy (Spec k)); reflexivity.
    + right. split; [exact N|]. cbn [negb]. run. reflexivity.
  - run. destruct (compare (Password (SessionBasicAuthData s)) password now w)
      as [[e|] wc] eqn:Hc; cbn [fst snd].
    + right. split; [discriminate|]. reflexivity.
    + left. split; [reflexivity|]. destruct wc.
      destruct (BaseIdentityProvidedBy (Spec k)); reflexivity.
  - left. split; [exact I|]. run. destruct w.
    destruct (BaseIdentityProvidedBy (Spec k)); reflexivity.
Qed.

(** the world the switch hands on, against the world it got *)
Lemma check_world (s : SessionState) (password : string) (now : GoTime.Time)
      (w : World) :
  let stored := Password (SessionBasicAuthData s) in
  let wc := match Hash (SessionBasicAuthData s) with
            | HashBCrypt => snd (compare stored password now w)
            | _ => w
            end in
  respHeader wc = respHeader w
  /\ ctxSession wc = ctxSession w
  /\ (exists events, trace wc = (trace w ++ events)%list)
  /\ lookups (trace wc) = lookups (trace w)
  /\ (slowCalls (trace wc) = slowCalls (trace w)
      \/ (Hash (SessionBasicAuthData s) = HashBCrypt
          /\ slowCalls (trace wc)
             = (slowCalls (trace w) ++ [(stored, password)])%list))
  /\ (cacheSound bcrypt murmur3 (basicAuthCache w) ->
      cacheSound bcrypt murmur3 (basicAuthCache wc)).
Proof.
  cbv zeta. destruct (Hash (SessionBasicAuthData s)) eqn:Hk;
    try (repeat split; auto; exists []; rewrite app_nil_r; reflexivity).
  destruct (compare_world bcrypt murmur3 k
              (Password (SessionBasicAuthData s)) password now w) as [Hh Hx].
  destruct (compare_calls bcrypt murmur3 k
              (Password (SessionBasicAuthData s)) password now w) as [Hcalls Hl].
  pose proof (compare_cache bcrypt murmur3 k
                (Password (SessionBasicAuthData s)) password now w) as Hcache.
  cbv zeta in Hcache.
  fold compare in Hcalls, Hl, Hh, Hx, Hcache.
  split; [exact Hh|]. split; [exact Hx|]. split.
  { destruct (compare_cases bcrypt murmur3 k
                (Password (SessionBasicAuthData s)) password now w)
      as [(_ & _ & lv & msg & Ht) | [(_ & _ & _ & _ & _ & lv & msg & Ht)
                                    | (_ & _ & _ & _ & lv & msg & Ht)]];
      fold compare in Ht; rewrite Ht; eexists; reflexivity. }
  split; [exact Hl|]. split.
  - destruct Hcalls as [Hc|Hc]; [left; exact Hc | right; split; [reflexivity | exact Hc]].
  - intros Hs. destruct Hcache as [-> | (_ & Hb & _ & ->)]; [exact Hs|].
    apply cacheSound_Set'; assumption.
Qed.

(** how the session is resolved, once the credentials are extracted *)
Lemma resolve_cases (r : Request) (now : GoTime.Time) (w w1 : World)
      (username password : string) (code : Z) :
  extractCredentials k r w = ((username, password, None, code), w1) ->
  let token := Http.Get (ReqHeader r) "Authorization" in
  let canonical := generateToken (OrgID (Spec k)) username in
  let legacy := storage_GenerateToken (OrgID (Spec k))
                  (TrimPrefix username (OrgID (Spec k))) EmptyString in
  let lookup := CheckSessionAndIdentityForValidKey k in
  exists events,
    slowCalls events = []
    /\ ((exists s keyName,
            ((lookup canonical r = Some s /\ keyName = canonical)
             \/ (lookup canonical r = None
                 /\ HashKeyFunction globalConf <> EmptyString
                 /\ lookup legacy r = Some s /\ keyName = legacy))
            /\ process r now w
               = check r token s keyName password now (logged w1 events))
        \/ (lookup canonical r = None
            /\ (HashKeyFunction globalConf = EmptyString \/ lookup legacy r = None)
            /\ process r now w = handleAuthFail k r token (logged w1 events))).
Proof.
  intros He token canonical legacy lookup.
  destruct (lookup canonical r) as [s|] eqn:Hc.
  - eexists. split; [|left; exists s, canonical; split; [left; split; reflexivity|]].
    2: exact (process_canonical_hit bcrypt murmur3 generateToken
                storage_GenerateToken globalConf k r now w w1 username password
                code s He Hc).
    reflexivity.
  - pose proof (process_miss bcrypt murmur3 generateToken storage_GenerateToken
                  globalConf k r now w w1 username password code He Hc) as Hm.
    fold legacy canonical process in Hm. fold token in Hm.
    destruct (String.eqb_spec (HashKeyFunction globalConf) EmptyString) as [E|N].
    + eexists. split; [|right; split; [reflexivity|split; [left; exact E | exact Hm]]].
      reflexivity.
    + destruct (CheckSessionAndIdentityForValidKey k legacy r) as [s|] eqn:Hl.
      * eexists. split; [|left; exists s, legacy; split; [right|exact Hm]].
        -- reflexivity.
        -- repeat split; assumption.
      * eexists. split; [|right; split; [reflexivity|split; [right; exact Hl | exact Hm]]].
        reflexivity.
Qed.

(** a call that returns nil: the session it found and what it did *)
Lemma process_success (r : Request) (now : GoTime.Time) (w w1 : World)
      (username password : string) (code : Z) :
  extractCredentials k r w = ((username, password, None, code), w1) ->
  fst (fst (process r now w)) = None ->
  let canonical := generateToken (OrgID (Spec k)) username in
  let legacy := storage_GenerateToken (OrgID (Spec k))
                  (TrimPrefix username (OrgID (Spec k))) EmptyString in
  let lookup := CheckSessionAndIdentityForValidKey k in
  exists s keyName events,
    ((lookup canonical r = Some s /\ keyName = canonical)
     \/ (lookup canonical r = None
         /\ HashKeyFunction globalConf <> EmptyString
         /\ lookup legacy r = Some s /\ keyName = legacy))
    /\ slowCalls events = []
    /\ match Hash (SessionBasicAuthData s) with
       | HashBCrypt =>
           fst (compare (Password (SessionBasicAuthData s)) password now
                        (logged w1 events)) = None
       | HashPlainText => Password (SessionBasicAuthData s) = password
       | HashOther _ => True
       end
    /\ snd (fst (process r now w)) = Http.StatusOK
    /\ respHeader (snd (process r now w)) = respHeader w1
    /\ ctxSession (snd (process r now w))
       = match BaseIdentityProvidedBy (Spec k) with
         | BasicAuthUser | UnsetAuth => Some (s, keyName)
         | OtherAuth _ => ctxSession w1
         end.
Proof.
  intros He Hok canonical legacy lookup.
  destruct (resolve_cases r now w w1 username password code He)
    as (events & Hev & [(s & keyName & Hres & Hout) | (_ & _ & Hout)]).
  - exists s, keyName, events. split; [exact Hres|]. split; [exact Hev|].
    rewrite Hout in Hok |- *.
    destruct (check_cases r (Http.Get (ReqHeader r) "Authorization") s keyName
                password now (logged w1 events)) as [[Hacc Hc] | [_ Hc]].
    + rewrite Hc. cbn [fst snd respHeader ctxSession].
      destruct (check_world s password now (logged w1 events))
        as (Hh & Hx & _).
      split; [exact Hacc|]. split; [reflexivity|]. split; [exact Hh|].
      rewrite Hx. reflexivity.
    + rewrite Hc, handleAuthFail_result in Hok. discriminate Hok.
  - rewrite Hout, handleAuthFail_result in Hok. discriminate Hok.
Qed.

(** a call that fails after the credentials were extracted *)
Lemma process_failure (r : Request) (now : GoTime.Time) (w w1 : World)
      (username password : string) (code : Z) :
  extractCredentials k r w = ((username, password, None, code), w1) ->
  fst (fst (process r now w)) <> None ->
  exists wf,
    process r now w
    = handleAuthFail k r (Http.Get (ReqHeader r) "Authorization") wf
    /\ respHeader wf = respHeader w1
    /\ ctxSession wf = ctxSession w1
    /\ exists events, trace wf = (trace w1 ++ events)%list.
Proof.
  intros He Hfail.
  destruct (resolve_cases r now w w1 username password code He)
    as (events & Hev & [(s & keyName & Hres & Hout) | (_ & _ & Hout)]).
  - destruct (check_cases r (Http.Get (ReqHeader r) "Authorization") s keyName
                password now (logged w1 events)) as [[_ Hc] | [_ Hc]].
    + exfalso. apply Hfail. rewrite Hout, Hc. reflexivity.
    + destruct (check_world s password now (logged w1 events))
        as (Hh & Hx & (ev & Ht) & _).
      eexists. split; [rewrite Hout; exact Hc|].
      destruct (logged_fields w1 events) as (Lh & _ & Lx & Lt).
      rewrite Lh in Hh. rewrite Lx in Hx. rewrite Lt in Ht.
      match goal with |- respHeader (logged ?wc ?l) = _ /\ _ =>
        destruct (logged_fields wc l) as (-> & _ & -> & ->) end.
      split; [exact Hh|]. split; [exact Hx|].
      rewrite Ht, <- !app_assoc. eexists. reflexivity.
  - eexists. split; [exact Hout|]. unfold logged. cbn [respHeader ctxSession trace].
    repeat split. eexists. reflexivity.
Qed.

(** every call: what it leaves alone *)
Lemma process_summary (r : Request) (now : GoTime.Time) (w : World) :
  let out := process r now w in
  sameButChallenge (respHeader w) (respHeader (snd out))
  /\ (slowCalls (trace (snd out)) = slowCalls (trace w)
      \/ exists hash password,
           slowCalls (trace (snd out))
           = (slowCalls (trace w) ++ [(hash, password)])%list)
  /\ (cacheSound bcrypt murmur3 (basicAuthCache w) ->
      cacheSound bcrypt murmur3 (basicAuthCache (snd out)))
  /\ (fst (fst out) <> None -> ctxSession (snd out) = ctxSession w).
Proof.
  cbv zeta. unfold process.
  destruct (extract_world r w) as (Hc & Hx & Hh & Hs & _).
  destruct (extractCredentials k r w) as [[[[u p] [e|]] code] w1] eqn:He;
    cbn [snd] in Hc, Hx, Hh, Hs.
  - rewrite (process_failed bcrypt murmur3 generateToken storage_GenerateToken
               globalConf k r now w w1 u p e code He).
    cbn [fst snd]. split; [exact Hh|]. split; [left; exact Hs|].
    split; [rewrite Hc; auto | intros _; exact Hx].
  - destruct (resolve_cases r now w w1 u p code He)
      as (events & Hev & [(s & keyName & _ & Hout) | (_ & _ & Hout)]);
      unfold process in Hout; rewrite Hout.
    + destruct (check_world s p now (logged w1 events))
        as (Hwh & Hwx & _ & _ & Hwcalls & Hwsound).
      logged_fields_in Hwh. logged_fields_in Hwx. logged_fields_in Hwcalls.
      logged_fields_in Hwsound.
      rewrite slowCalls_app, Hev, app_nil_r, Hs in Hwcalls.
      rewrite Hc in Hwsound.
      destruct (check_cases r (Http.Get (ReqHeader r) "Authorization") s keyName
                  p now (logged w1 events)) as [[_ Hk] | [_ Hk]];
        rewrite Hk.
      * cbn [fst snd respHeader trace basicAuthCache].
        split; [rewrite Hwh; exact Hh|]. split.
        { destruct Hwcalls as [Hw|[_ Hw]]; [left; exact Hw | right; eauto]. }
        split; [exact Hwsound | intros C; contradiction].
      * rewrite handleAuthFail_result.
        cbn [fst snd respHeader trace basicAuthCache ctxSession].
        logged_fields.
        rewrite Hwh, Hwx, Hx, !slowCalls_app. cbn [slowCalls]. rewrite !app_nil_r.
        split; [eapply sameButChallenge_trans;
                  [exact Hh | apply sameButChallenge_Add]|].
        split.
        { destruct Hwcalls as [Hw|[_ Hw]]; [left; exact Hw | right; eauto]. }
        split; [exact Hwsound | reflexivity].
    + rewrite handleAuthFail_result.
      cbn [fst snd respHeader trace basicAuthCache ctxSession].
      logged_fields.
      rewrite !slowCalls_app, Hev. cbn [slowCalls]. rewrite !app_nil_r.
      split; [eapply sameButChallenge_trans;
                [exact Hh | apply sameButChallenge_Add]|].
      split; [left; exact Hs|]. split; [rewrite Hc; auto | intros _; exact Hx].
Qed.

(** a session that is resolved goes to the switch *)
Lemma process_resolved (r : Request) (now : GoTime.Time) (w w1 : World)
      (username password : string) (code : Z) (s : SessionState)
      (keyName : string) :
  extractCredentials k r w = ((username, password, None, code), w1) ->
  let canonical := generateToken (OrgID (Spec k)) username in
  let legacy := storage_GenerateToken (OrgID (Spec k))
                  (TrimPrefix username (OrgID (Spec k))) EmptyString in
  let lookup := CheckSessionAndIdentityForValidKey k in
  (lookup canonical r = Some s /\ keyName = canonical)
  \/ (lookup canonical r = None /\ HashKeyFunction globalConf <> EmptyString
      /\ lookup legacy r = Some s /\ keyName = legacy) ->
  exists events,
    slowCalls events = []
    /\ process r now w
       = check r (Http.Get (ReqHeader r) "Authorization") s keyName password
               now (logged w1 events).
Proof.
  intros He canonical legacy lookup [[Hc ->] | (Hc & Hm & Hl & ->)].
  - eexists. split; [|exact (process_canonical_hit bcrypt murmur3 generateToken
                               storage_GenerateToken globalConf k r now w w1
                               username password code s He Hc)].
    reflexivity.
  - eexists. split; [|exact (process_legacy_hit bcrypt murmur3 generateToken
                               storage_GenerateToken globalConf k r now w w1
                               username password code s He Hc Hm Hl)].
    reflexivity.
Qed.

End Process.

(** X6.  When the header gives no credentials and extraction from the body
    is configured, the credentials are the first capture groups of the first
    matches of the two patterns in the body, the response carries no
    [WWW-Authenticate] header (a challenge that the header extraction added
    is removed) and no other header of the response is touched. *)
Theorem body_fallback_credentials
        (k : BasicAuthKeyIsValid) (r : Request) (w : World)
        (userAll passAll user pass : string)
        (userMore passMore : list string) (userRest passRest : list (list string)) :
  credErr (fst (basicAuthHeaderCredentials k r w)) <> None ->
  ExtractFromBody (BasicAuth (Spec k)) = true ->
  bodyUserRegexp k (ReqBody r) = (userAll :: user :: userMore) :: userRest ->
  bodyPasswordRegexp k (ReqBody r) = (passAll :: pass :: passMore) :: passRest ->
  let out := extractCredentials k r w in
  fst out = (user, pass, None, 0)
  /\ Http.Has (respHeader (snd out)) "WWW-Authenticate" = false
  /\ sameButChallenge (respHeader w) (respHeader (snd out))
  /\ basicAuthCache (snd out) = basicAuthCache w.
Proof.
  intros Herr Hbody Hu Hp out.
  destruct (extract_world k r w) as (Hc & _ & Hh & _).
  fold out in Hc, Hh. split; [|split; [|split; [exact Hh | exact Hc]]].
  - subst out.
    destruct (extract_cases k r w) as [(Hn & _) | [(_ & Hf & _) | (_ & _ & ->)]].
    + contradiction.
    + rewrite Hbody in Hf. discriminate Hf.
    + cbn [fst]. unfold basicAuthBodyCredentials. rewrite Hu, Hp. reflexivity.
  - subst out.
    destruct (extract_cases k r w) as [(Hn & _) | [(_ & Hf & _) | (_ & _ & ->)]].
    + contradiction.
    + rewrite Hbody in Hf. discriminate Hf.
    + cbn [snd respHeader]. apply HttpFacts.Has_Del.
Qed.

Lemma body_fallback_credentials_witness :
  let out := extractCredentials MoreSamples.formReader
               (Samples.request [] "user=alice&pass=password-one")
               Samples.world0 in
  fst out = ("alice", "password-one", None, 0)
  /\ Http.Has (respHeader (snd out)) "WWW-Authenticate" = false.
Proof.
  pose proof (body_fallback_credentials MoreSamples.formReader
                (Samples.request [] "user=alice&pass=password-one")
                Samples.world0 "user=alice" "pass=password-one"
                "alice" "password-one" [] [] [] []) as H.
  destruct H as (Hc & Hh & _); try reflexivity; [discriminate|].
  split; [exact Hc | exact Hh].
Defined.

(** X7.  For a resolved session whose password is kept in plain text,
    [ProcessRequest] returns nil and 200 when the stored password and the
    supplied one are the same string and fails with 401 otherwise; it makes
    no bcrypt comparison and leaves the cache as it was. *)
Theorem plain_text_password_check
        (bcrypt : string -> string -> option error) (murmur3 : string -> string)
        (generateToken : string -> string -> string)
        (storage_GenerateToken : string -> string -> string -> string)
        (globalConf : Config) (k : BasicAuthKeyIsValid) (r : Request)
        (now : GoTime.Time) (w w1 : World) (username password : string) (code : Z)
        (s : SessionState) (keyName : string) :
  extractCredentials k r w = ((username, password, None, code), w1) ->
  let canonical := generateToken (OrgID (Spec k)) username in
  let legacy := storage_GenerateToken (OrgID (Spec k))
                  (TrimPrefix username (OrgID (Spec k))) EmptyString in
  let lookup := CheckSessionAndIdentityForValidKey k in
  (lookup canonical r = Some s /\ keyName = canonical)
  \/ (lookup canonical r = None /\ HashKeyFunction globalConf <> EmptyString
      /\ lookup legacy r = Some s /\ keyName = legacy) ->
  Hash (SessionBasicAuthData s) = HashPlainText ->
  let out := ProcessRequest bcrypt murmur3 generateToken storage_GenerateToken
                            globalConf k r now w in
  (Password (SessionBasicAuthData s) = password ->
   fst out = (None, Http.StatusOK))
  /\ (Password (SessionBasicAuthData s) <> password ->
      fst out = (Some "User not authorised", Http.StatusUnauthorized))
  /\ slowCalls (trace (snd out)) = slowCalls (trace w1)
  /\ basicAuthCache (snd out) = basicAuthCache w1.
Proof.
  intros He canonical legacy lookup Hres Hkind out.
  destruct (process_resolved bcrypt murmur3 generateToken storage_GenerateToken
              globalConf k r now w w1 username password code s keyName He Hres)
    as (events & Hev & Hout).
  subst out. rewrite Hout.
  destruct (check_cases bcrypt murmur3 k r (Http.Get (ReqHeader r) "Authorization")
              s keyName password now (logged w1 events)) as [[Hacc ->] | [Hacc ->]];
    rewrite Hkind in *; rewrite ?handleAuthFail_result;
    cbn [fst snd trace basicAuthCache]; logged_fields;
    rewrite ?slowCalls_app, Hev; cbn [slowCalls]; rewrite ?app_nil_r.
  - split; [reflexivity|]. split; [intros C; contradiction|]. split; reflexivity.
  - split; [intros C; contradiction|]. split; [reflexivity|]. split; reflexivity.
Qed.

Lemma plain_text_password_check_witness :
  fst (ProcessRequest Samples.bcrypt Samples.fingerprint Samples.generateToken
         Samples.legacyToken Samples.conf MoreSamples.plain
         (Samples.request [Samples.basicAlice] EmptyString) 1000 Samples.world0)
  = (None, Http.StatusOK).
Proof.
  refine (proj1 (plain_text_password_check
                   Samples.bcrypt Samples.fingerprint Samples.generateToken
                   Samples.legacyToken Samples.conf MoreSamples.plain
                   (Samples.request [Samples.basicAlice] EmptyString) 1000
                   Samples.world0 Samples.world0 "alice" "password-one" 0
                   (Samples.session HashPlainText "password-one") "org1alice"
                   eq_refl _ eq_refl) eq_refl).
  left. split; reflexivity.
Defined.

(** X8.  Once the credentials are extracted, every failure of
    [ProcessRequest] is the same to the client, whether the user is unknown
    or the password wrong: the error [User not authorised] with 401 and the
    challenge added to the response.  The failure is reported by an
    [AuthFailed] event and the health value [KeyFailure] of [-1], and no
    session is set on the context. *)
Theorem authentication_failure_is_uniform
        (bcrypt : string -> string -> option error) (murmur3 : string -> string)
        (generateToken : string -> string -> string)
        (storage_GenerateToken : string -> string -> string -> string)
        (globalConf : Config) (k : BasicAuthKeyIsValid) (r : Request)
        (now : GoTime.Time) (w w1 : World) (username password : string) (code : Z) :
  extractCredentials k r w = ((username, password, None, code), w1) ->
  let out := ProcessRequest bcrypt murmur3 generateToken storage_GenerateToken
                            globalConf k r now w in
  fst (fst out) <> None ->
  fst out = (Some "User not authorised", Http.StatusUnauthorized)
  /\ respHeader (snd out)
     = Http.Add (respHeader w1) "WWW-Authenticate" (authReply k)
  /\ ctxSession (snd out) = ctxSession w1
  /\ exists events,
      trace (snd out)
      = (trace w1 ++ events
         ++ [AuthFailed (Http.Get (ReqHeader r) "Authorization");
             HealthValue KeyFailure "-1"])%list.
Proof.
  intros He out Hfail.
  destruct (process_failure bcrypt murmur3 generateToken storage_GenerateToken
              globalConf k r now w w1 username password code He Hfail)
    as (wf & Hout & Hh & Hx & events & Ht).
  subst out. rewrite Hout, handleAuthFail_result.
  cbn [fst snd respHeader ctxSession trace]. rewrite Hh, Hx, Ht, <- app_assoc.
  repeat split. exists events. reflexivity.
Qed.

Lemma authentication_failure_is_uniform_witness :
  let unknown :=
    ProcessRequest Samples.bcrypt Samples.fingerprint Samples.generateToken
      Samples.legacyToken Samples.conf MoreSamples.plain
      (Samples.request [Samples.basicOrgAlice] EmptyString) 1000 Samples.world0 in
  fst unknown = (Some "User not authorised", Http.StatusUnauthorized).
Proof.
  refine (proj1 (authentication_failure_is_uniform
                   Samples.bcrypt Samples.fingerprint Samples.generateToken
                   Samples.legacyToken Samples.conf MoreSamples.plain
                   (Samples.request [Samples.basicOrgAlice] EmptyString) 1000
                   Samples.world0 Samples.world0 "org1alice" "password-one" 0
                   eq_refl _)).
  discriminate.
Defined.

(** X9.  When [ProcessRequest] returns nil, the code is 200, the response
    header is as the extraction left it, and the session that was resolved
    (by the first lookup, or by the legacy one) is set on the context under
    the key it was found with when the identity of the API is provided by
    basic auth or by nothing; otherwise the context is left alone. *)
Theorem success_binds_session
        (bcrypt : string -> string -> option error) (murmur3 : string -> string)
        (generateToken : string -> string -> string)
        (storage_GenerateToken : string -> string -> string -> string)
        (globalConf : Config) (k : BasicAuthKeyIsValid) (r : Request)
        (now : GoTime.Time) (w w1 : World) (username password : string) (code : Z) :
  extractCredentials k r w = ((username, password, None, code), w1) ->
  let out := ProcessRequest bcrypt murmur3 generateToken storage_GenerateToken
                            globalConf k r now w in
  fst (fst out) = None ->
  let canonical := generateToken (OrgID (Spec k)) username in
  let legacy := storage_GenerateToken (OrgID (Spec k))
                  (TrimPrefix username (OrgID (Spec k))) EmptyString in
  let lookup := CheckSessionAndIdentityForValidKey k in
  snd (fst out) = Http.StatusOK
  /\ respHeader (snd out) = respHeader w1
  /\ exists s keyName,
      ((lookup canonical r = Some s /\ keyName = canonical)
       \/ (lookup canonical r = None
           /\ HashKeyFunction globalConf <> EmptyString
           /\ lookup legacy r = Some s /\ keyName = legacy))
      /\ ctxSession (snd out)
         = match BaseIdentityProvidedBy (Spec k) with
           | BasicAuthUser | UnsetAuth => Some (s, keyName)
           | OtherAuth _ => ctxSession w1
           end.
Proof.
  intros He out Hok canonical legacy lookup.
  destruct (process_success bcrypt murmur3 generateToken storage_GenerateToken
              globalConf k r now w w1 username password code He Hok)
    as (s & keyName & events & Hres & _ & _ & Hcode & Hh & Hx).
  split; [exact Hcode|]. split; [exact Hh|].
  exists s, keyName. split; [exact Hres | exact Hx].
Qed.

Lemma success_binds_session_witness :
  ctxSession (snd (ProcessRequest Samples.bcrypt Samples.fingerprint
                     Samples.generateToken Samples.legacyToken Samples.conf
                     MoreSamples.plain
                     (Samples.request [Samples.basicAlice] EmptyString) 1000
                     Samples.world0))
  = Some (Samples.session HashPlainText "password-one", "org1alice").
Proof.
  destruct (success_binds_session
              Samples.bcrypt Samples.fingerprint Samples.generateToken
              Samples.legacyToken Samples.conf MoreSamples.plain
              (Samples.request [Samples.basicAlice] EmptyString) 1000
              Samples.world0 Samples.world0 "alice" "password-one" 0
              eq_refl eq_refl) as (_ & _ & s & keyName & Hres & Hx).
  rewrite Hx. destruct Hres as [[Hs ->] | (Hs & _)].
  - injection Hs as <-. reflexivity.
  - discriminate Hs.
Defined.

(** X10.  On a sound cache, a request that [ProcessRequest] lets through has
    a resolved session and a password that agrees with it: for a plain text
    session the supplied password is the stored one, and for a bcrypt
    session it has the fingerprint of a password that bcrypt accepts for the
    stored hash. *)
Theorem authenticated_request_is_sound
        (bcrypt : string -> string -> option error) (murmur3 : string -> string)
        (generateToken : string -> string -> string)
        (storage_GenerateToken : string -> string -> string -> string)
        (globalConf : Config) (k : BasicAuthKeyIsValid) (r : Request)
        (now : GoTime.Time) (w w1 : World) (username password : string) (code : Z) :
  cacheSound bcrypt murmur3 (basicAuthCache w) ->
  extractCredentials k r w = ((username, password, None, code), w1) ->
  fst (fst (ProcessRequest bcrypt murmur3 generateToken storage_GenerateToken
                           globalConf k r now w)) = None ->
  let canonical := generateToken (OrgID (Spec k)) username in
  let legacy := storage_GenerateToken (OrgID (Spec k))
                  (TrimPrefix username (OrgID (Spec k))) EmptyString in
  let lookup := CheckSessionAndIdentityForValidKey k in
  exists s,
    (lookup canonical r = Some s
     \/ (lookup canonical r = None
         /\ HashKeyFunction globalConf <> EmptyString
         /\ lookup legacy r = Some s))
    /\ match Hash (SessionBasicAuthData s) with
       | HashPlainText => Password (SessionBasicAuthData s) = password
       | HashBCrypt =>
           exists verified,
             bcrypt (Password (SessionBasicAuthData s)) verified = None
             /\ murmur3 verified = murmur3 password
       | HashOther _ => True
       end.
Proof.
  intros Hsound He Hok canonical legacy lookup.
  destruct (process_success bcrypt murmur3 generateToken storage_GenerateToken
              globalConf k r now w w1 username password code He Hok)
    as (s & keyName & events & Hres & _ & Hacc & _).
  exists s. split; [tauto|].
  destruct (Hash (SessionBasicAuthData s)); [exact Hacc | | exact I].
  refine (VerifierProperties.accepted_password_fingerprint bcrypt murmur3 k _ _ _ _ _ Hacc).
  rewrite basicAuthCache_logged.
  destruct (extract_world k r w) as (Hc & _). rewrite He in Hc. cbn [snd] in Hc.
  rewrite Hc. exact Hsound.
Qed.

Lemma authenticated_request_is_sound_witness :
  exists s,
    CheckSessionAndIdentityForValidKey MoreSamples.plain "org1alice"
      (Samples.request [Samples.basicAlice] EmptyString) = Some s
    /\ Password (SessionBasicAuthData s) = "password-one".
Proof.
  destruct (authenticated_request_is_sound
              Samples.bcrypt Samples.fingerprint Samples.generateToken
              Samples.legacyToken Samples.conf MoreSamples.plain
              (Samples.request [Samples.basicAlice] EmptyString) 1000
              Samples.world0 Samples.world0 "alice" "password-one" 0
              (cacheSound_New _ _ _) eq_refl eq_refl) as (s & Hres & Hacc).
  exists s. destruct Hres as [Hs | (Hs & _)]; [|discriminate Hs].
  split; [exact Hs|].
  injection Hs as <-. reflexivity.
Defined.

(** X11.  [ProcessRequest] keeps the cache sound, whatever the request: when
    the cache holds only fingerprints of passwords that bcrypt accepts for
    the hash they are stored under before the call, it does so after it. *)
Theorem ProcessRequest_keeps_cache_sound
        (bcrypt : string -> string -> option error) (murmur3 : string -> string)
        (generateToken : string -> string -> string)
        (storage_GenerateToken : string -> string -> string -> string)
        (globalConf : Config) (k : BasicAuthKeyIsValid) (r : Request)
        (now : GoTime.Time) (w : World) :
  cacheSound bcrypt murmur3 (basicAuthCache w) ->
  cacheSound bcrypt murmur3
    (basicAuthCache (snd (ProcessRequest bcrypt murmur3 generateToken
                            storage_GenerateToken globalConf k r now w))).
Proof.
  intros Hs.
  exact (proj1 (proj2 (proj2 (process_summary bcrypt murmur3 generateToken
                                storage_GenerateToken globalConf k r now w))) Hs).
Qed.

Lemma ProcessRequest_keeps_cache_sound_witness :
  cacheSound Samples.bcrypt Samples.fingerprint
    (basicAuthCache
       (snd (ProcessRequest Samples.bcrypt Samples.fingerprint
               Samples.generateToken Samples.legacyToken Samples.conf
               Samples.verifier
               (Samples.request [Samples.basicAlice] EmptyString) 1000
               Samples.world0))).
Proof.
  exact (ProcessRequest_keeps_cache_sound
           Samples.bcrypt Samples.fingerprint Samples.generateToken
           Samples.legacyToken Samples.conf Samples.verifier
           (Samples.request [Samples.basicAlice] EmptyString) 1000
           Samples.world0 (cacheSound_New _ _ _)).
Defined.

(** X12.  Whatever the request, [ProcessRequest] makes at most one bcrypt
    comparison, changes no header of the response other than
    [WWW-Authenticate], and sets no session on the context when it fails. *)
Theorem ProcessRequest_footprint
        (bcrypt : string -> string -> option error) (murmur3 : string -> string)
        (generateToken : string -> string -> string)
        (storage_GenerateToken : string -> string -> string -> string)
        (globalConf : Config) (k : BasicAuthKeyIsValid) (r : Request)
        (now : GoTime.Time) (w : World) :
  let out := ProcessRequest bcrypt murmur3 generateToken storage_GenerateToken
                            globalConf k r now w in
  (slowCalls (trace (snd out)) = slowCalls (trace w)
   \/ exists hash password,
        slowCalls (trace (snd out))
        = (slowCalls (trace w) ++ [(hash, password)])%list)
  /\ (forall key, key <> "WWW-Authenticate" ->
      respHeader (snd out) !! key = respHeader w !! key)
  /\ (fst (fst out) <> None -> ctxSession (snd out) = ctxSession w).
Proof.
  intros out.
  destruct (process_summary bcrypt murmur3 generateToken storage_GenerateToken
              globalConf k r now w) as (Hh & Hcalls & _ & Hx).
  split; [exact Hcalls|]. split; [exact Hh | exact Hx].
Qed.

End MiddlewareProperties.

(** ** Enabling the middleware *)

Module EnablingProperties.
Import BasicAuth Enabling.

(** X13.  [EnabledForSpec] answers true exactly when basic auth is in use
    and, if the credentials may come from the body, both patterns are given
    and compile; the middleware then holds the two compiled patterns.  It
    never changes the specification nor the session lookup, and without
    extraction from the body it changes nothing. *)
Theorem EnabledForSpec_cases
        (Compile : string -> option Regexp) (UseBasicAuth : bool)
        (BodyUserRegexp BodyPasswordRegexp : string) (k : BasicAuthKeyIsValid) :
  let out := EnabledForSpec Compile UseBasicAuth BodyUserRegexp
                            BodyPasswordRegexp k in
  let fromBody := ExtractFromBody (BasicAuth (Spec k)) in
  (fst out = true <->
   UseBasicAuth = true
   /\ (fromBody = true ->
       BodyUserRegexp <> EmptyString /\ BodyPasswordRegexp <> EmptyString
       /\ is_Some (Compile BodyUserRegexp)
       /\ is_Some (Compile BodyPasswordRegexp)))
  /\ (fst out = true -> fromBody = true ->
      Compile BodyUserRegexp = Some (bodyUserRegexp (snd out))
      /\ Compile BodyPasswordRegexp = Some (bodyPasswordRegexp (snd out)))
  /\ Spec (snd out) = Spec k
  /\ CheckSessionAndIdentityForValidKey (snd out)
     = CheckSessionAndIdentityForValidKey k
  /\ (fromBody = false -> snd out = k).
Proof.
  cbv zeta. unfold EnabledForSpec.
  destruct UseBasicAuth; cbn [negb fst snd];
    [|repeat split; try discriminate; intros [C _]; discriminate C].
  destruct (ExtractFromBody (BasicAuth (Spec k))); cbn [fst snd];
    [|repeat split; intros; discriminate].
  destruct (String.eqb_spec BodyUserRegexp EmptyString) as [Eu|Nu]; cbn [orb fst snd].
  { repeat split; try discriminate.
    intros (_ & H). destruct (H eq_refl) as (C & _). contradiction. }
  destruct (String.eqb_spec BodyPasswordRegexp EmptyString) as [Ep|Np]; cbn [fst snd].
  { repeat split; try discriminate.
    intros (_ & H). destruct (H eq_refl) as (_ & C & _). contradiction. }
  destruct (Compile BodyUserRegexp) as [user|]; cbn [fst snd].
  2: { repeat split; try discriminate.
       intros (_ & H). destruct (H eq_refl) as (_ & _ & [x C] & _). discriminate C. }
  destruct (Compile BodyPasswordRegexp) as [pass|]; cbn [fst snd].
  2: { repeat split; try discriminate.
       intros (_ & H). destruct (H eq_refl) as (_ & _ & _ & [x C]). discriminate C. }
  repeat split; try discriminate; eauto.
Qed.

End EnablingProperties.

(** ** The registry of errors *)

Module RegistryProperties.
Import ErrorRegistry.

Lemma overridden_twice (base err : TykError) :
  overridden (overridden base err) err = overridden base err.
Proof.
  unfold overridden. cbn [Message Code].
  destruct (String.eqb (Message err) EmptyString), (Code err =? 0); reflexivity.
Qed.

Lemma overrideOne_lookup (id : string) (err : TykError)
      (TykErrors : gmap string TykError) (key : string) :
  overrideOne id err TykErrors !! key
  = if decide (id = key)
    then Some (overridden (default zeroTykError (TykErrors !! id)) err)
    else TykErrors !! key.
Proof.
  unfold overrideOne, overridden. destruct (decide (id = key)) as [<-|Hne].
  - rewrite lookup_insert_eq. f_equal.
    destruct (default zeroTykError (TykErrors !! id)) as [m c].
    destruct err as [m' c']. cbn [Message Code].
    destruct (c' =? 0), (String.eqb m' EmptyString); reflexivity.
  - rewrite lookup_insert_ne by exact Hne. reflexivity.
Qed.

Lemma overrideTykErrors_lookup (OverrideMessages TykErrors : gmap string TykError)
      (key : string) :
  overrideTykErrors OverrideMessages TykErrors !! key
  = match OverrideMessages !! key with
    | Some err => Some (overridden (default zeroTykError (TykErrors !! key)) err)
    | None => TykErrors !! key
    end.
Proof.
  unfold overrideTykErrors.
  apply (map_fold_weak_ind
           (fun (acc : gmap string TykError) (m : gmap string TykError) =>
              forall key,
                acc !! key
                = match m !! key with
                  | Some err =>
                      Some (overridden (default zeroTykError (TykErrors !! key)) err)
                  | None => TykErrors !! key
                  end)).
  - intros key'. rewrite lookup_empty. reflexivity.
  - intros id err m acc Hfresh IH key'. rewrite overrideOne_lookup.
    destruct (decide (id = key')) as [<-|Hne].
    + rewrite lookup_insert_eq, (IH id), Hfresh. reflexivity.
    + rewrite lookup_insert_ne by exact Hne. apply IH.
Qed.

(** the loop in a given order of visits, as long as no identifier is
    visited twice *)
Lemma overrideInOrder_lookup (visits : list (string * TykError))
      (TykErrors : gmap string TykError) (key : string) :
  NoDup visits.*1 ->
  overrideInOrder visits TykErrors !! key
  = match (list_to_map visits : gmap string TykError) !! key with
    | Some err => Some (overridden (default zeroTykError (TykErrors !! key)) err)
    | None => TykErrors !! key
    end.
Proof.
  unfold overrideInOrder. revert TykErrors.
  induction visits as [|[id err] visits IH]; intros TykErrors Hnd.
  - cbn. rewrite lookup_empty. reflexivity.
  - apply NoDup_cons in Hnd as [Hfresh Hnd]. cbn [foldl list_to_map foldr fmap list_fmap fst] in *.
    rewrite (IH _ Hnd). cbn [uncurry]. rewrite !overrideOne_lookup.
    destruct (decide (id = key)) as [<-|Hne].
    + rewrite lookup_insert_eq.
      rewrite (not_elem_of_list_to_map_1 visits id Hfresh). reflexivity.
    + rewrite lookup_insert_ne by exact Hne. reflexivity.
Qed.

(** X14.  After [overrideTykErrors], an identifier that has an override
    answers with the code of the override unless that is 0 and with its
    message unless that is empty, and with what the registry held before
    (or the zero error) for the rest; every other identifier answers as
    before; an identifier that is in neither answers with the empty message
    and the code 0.  The order in which the overrides are visited plays no
    part: the loop run over any arrangement of the overrides ends with the
    same registry. *)
Theorem overrideTykErrors_errorAndStatusCode
        (OverrideMessages TykErrors : gmap string TykError) (errType : string) :
  errorAndStatusCode (overrideTykErrors OverrideMessages TykErrors) errType
  = match OverrideMessages !! errType with
    | Some err =>
        let old := errorAndStatusCode TykErrors errType in
        (if String.eqb (Message err) EmptyString then fst old else Message err,
         if Code err =? 0 then snd old else Code err)
    | None => errorAndStatusCode TykErrors errType
    end
  /\ (OverrideMessages !! errType = None -> TykErrors !! errType = None ->
      errorAndStatusCode (overrideTykErrors OverrideMessages TykErrors) errType
      = (EmptyString, 0))
  /\ (forall visits : list (string * TykError),
        visits ≡ₚ map_to_list OverrideMessages ->
        overrideInOrder visits TykErrors
        = overrideTykErrors OverrideMessages TykErrors).
Proof.
  split; [|split].
  - unfold errorAndStatusCode. rewrite overrideTykErrors_lookup.
    destruct (OverrideMessages !! errType); reflexivity.
  - unfold errorAndStatusCode. rewrite overrideTykErrors_lookup.
    intros -> ->. reflexivity.
  - intros visits Hperm. apply map_eq. intros key.
    rewrite overrideTykErrors_lookup, overrideInOrder_lookup.
    + assert (E : (list_to_map visits : gmap string TykError) = OverrideMessages).
      { rewrite <- (list_to_map_to_list OverrideMessages).
        apply list_to_map_proper; [|exact Hperm].
        rewrite Hperm. apply NoDup_fst_map_to_list. }
      rewrite E. reflexivity.
    + rewrite Hperm. apply NoDup_fst_map_to_list.
Qed.

(** X15.  Overriding twice with the same messages is overriding once. *)
Theorem overrideTykErrors_idempotent
        (OverrideMessages TykErrors : gmap string TykError) :
  overrideTykErrors OverrideMessages (overrideTykErrors OverrideMessages TykErrors)
  = overrideTykErrors OverrideMessages TykErrors.
Proof.
  apply map_eq. intros key. rewrite !overrideTykErrors_lookup.
  destruct (OverrideMessages !! key) as [err|]; [|reflexivity].
  cbn [default from_option id]. rewrite overridden_twice. reflexivity.
Qed.

(** X16.  After [defaultTykErrors] the registry answers with a message and a
    code that is 400, 401 or 403 for the six identifiers, and with the empty
    message and the code 0 for every other one. *)
Theorem defaultTykErrors_errorAndStatusCode
        (missing notFound oauthMissing oauthMalformed oauthNotFound
           oauthDeleted : string) (errType : string) :
  let defaults := defaultTykErrors missing notFound oauthMissing oauthMalformed
                                   oauthNotFound oauthDeleted in
  let answer := errorAndStatusCode defaults errType in
  (errType ∈ [missing; notFound; oauthMissing; oauthMalformed; oauthNotFound;
              oauthDeleted] ->
   fst answer <> EmptyString
   /\ snd answer ∈ [Http.StatusBadRequest; Http.StatusUnauthorized;
                    Http.StatusForbidden])
  /\ (errType ∉ [missing; notFound; oauthMissing; oauthMalformed; oauthNotFound;
                 oauthDeleted] ->
      answer = (EmptyString, 0)).
Proof.
  cbv zeta. unfold errorAndStatusCode, defaultTykErrors. split.
  - intros Hin.
    repeat (rewrite lookup_insert; case_decide;
            [cbn; split; [discriminate | rewrite !elem_of_cons; auto 10]|]).
    rewrite !elem_of_cons, elem_of_nil in Hin. intuition congruence.
  - intros Hnot. rewrite !not_elem_of_cons in Hnot.
    destruct Hnot as (N1 & N2 & N3 & N4 & N5 & N6 & _).
    rewrite !lookup_insert_ne by congruence.
    rewrite lookup_empty. reflexivity.
Qed.

Lemma defaultTykErrors_errorAndStatusCode_witness :
  errorAndStatusCode MoreSamples.registry "auth.key_not_found"
  = ("Access to this API has been disallowed", Http.StatusForbidden)
  /\ errorAndStatusCode MoreSamples.registry "quota.exceeded" = (EmptyString, 0).
Proof.
  split; [reflexivity|].
  refine (proj2 (defaultTykErrors_errorAndStatusCode
                   "auth.auth_field_missing" "auth.key_not_found"
                   "oauth.auth_field_missing" "oauth.auth_field_malformed"
                   "oauth.key_not_found" "oauth.client_deleted"
                   "quota.exceeded") _).
  intros H. repeat (apply elem_of_cons in H as [H|H]; [discriminate H|]).
  apply elem_of_nil in H. exact H.
Defined.

End RegistryProperties.

(** ** More about [HandleError] *)

Module HandlerProperties.
Import GoStrings GoStringsFacts ErrorHandler ErrorHandlerFacts VerificationFacts.

Section Handler.

Context {Template : Type}.
Variable env : Collaborators (Template := Template).
Variable spec : APISpec.

(** the record and the request that [buildRecord] gives do not depend on the
    header map *)
Lemma buildRecord_header (w w' : Http.Header) (r : Request) (errCode : Z)
      (token ip : string) (clock : Clock) :
  snd (buildRecord env spec w r errCode token ip clock)
  = snd (buildRecord env spec w' r errCode token ip clock)
  /\ snd (fst (buildRecord env spec w r errCode token ip clock))
     = snd (fst (buildRecord env spec w' r errCode token ip clock)).
Proof.
  unfold buildRecord.
  repeat (case_match; simplify_eq; cbn [fst snd]); split; reflexivity.
Qed.

Lemma buildRecord_path (w : Http.Header) (r : Request) (errCode : Z)
      (token ip : string) (clock : Clock) :
  URLPath (snd (fst (buildRecord env spec w r errCode token ip clock)))
  = fixPath (pathBeforeFix env spec r).
Proof.
  unfold buildRecord, pathBeforeFix.
  repeat (case_match; simplify_eq; cbn [fst snd URLPath]); reflexivity.
Qed.

(** the template that [writeErrorResponse] ends with *)
Lemma writeErrorResponse_template (w : Http.Header) (r : Request)
      (errMsg : string) (errCode : Z) :
  let ext := fst (negotiate r) in
  wTemplate (writeErrorResponse env spec w r errMsg errCode)
  = match templates env !! ("error_" +:+ Itoa errCode +:+ "." +:+ ext) with
    | Some t => Some t
    | None =>
        match templates env !! ("error." +:+ ext) with
        | Some t => Some t
        | None => templates env !! "error.json"
        end
    end.
Proof.
  cbv zeta. unfold writeErrorResponse. destruct (negotiate r) as [ext ct].
  cbn [fst].
  change (defaultTemplateName +:+ "." +:+ ext) with ("error." +:+ ext).
  change (defaultTemplateName +:+ "." +:+ defaultTemplateFormat) with "error.json".
  destruct (templates env !! ("error_" +:+ Itoa errCode +:+ "." +:+ ext));
    [reflexivity|].
  destruct (templates env !! ("error." +:+ ext)); reflexivity.
Qed.

(** the four ends of [HandleError] *)
Lemma HandleError_cases (w : Http.Header) (r : Request) (errMsg : string)
      (errCode : Z) (writeResponse : bool) (clock : Clock) :
  let out := HandleError env spec w r errMsg errCode writeResponse clock in
  let wr := writeErrorResponse env spec w r errMsg errCode in
  let w1 := if writeResponse then wHeader wr else w in
  written out = (if writeResponse then Some wr else None)
  /\ ((writeResponse = true /\ wTemplate wr = None
       /\ panicked out = true /\ recorded out = None
       /\ healthReported out = false /\ finalHeader out = w1
       /\ finalPath out = URLPath r)
      \/ ((writeResponse = false \/ wTemplate wr <> None)
          /\ panicked out = false
          /\ ((DoNotTrack spec = true
               /\ recorded out = None /\ healthReported out = false
               /\ finalHeader out = w1 /\ finalPath out = URLPath r)
              \/ (DoNotTrack spec = false
                  /\ StoreAnalytics (GlobalConfig spec) (RealIP env r) = false
                  /\ recorded out = None /\ healthReported out = true
                  /\ finalHeader out = w1 /\ finalPath out = URLPath r)
              \/ (DoNotTrack spec = false
                  /\ StoreAnalytics (GlobalConfig spec) (RealIP env r) = true
                  /\ healthReported out = true
                  /\ (let b := buildRecord env spec w1 r errCode
                                 (ctxGetAuthToken env r) (RealIP env r) clock in
                      recorded out = Some (snd b)
                      /\ finalHeader out = fst (fst b)
                      /\ finalPath out = URLPath (snd (fst b))))))).
Proof.
  cbv zeta. unfold HandleError.
  destruct writeResponse; cbn [from_option].
  - destruct (writeErrorResponse env spec w r errMsg errCode)
      as [h st name [t|] msg] eqn:Hw; cbn [wHeader wTemplate].
    + destruct (DoNotTrack spec).
      { split; [reflexivity|]. right. split; [right; discriminate|].
        split; [reflexivity|]. left. repeat split. }
      destruct (StoreAnalytics (GlobalConfig spec) (RealIP env r)).
      * destruct (buildRecord env spec h r errCode (ctxGetAuthToken env r)
                    (RealIP env r) clock) as [[w' r'] rec].
        split; [reflexivity|]. right. split; [right; discriminate|].
        split; [reflexivity|]. right. right. repeat split.
      * split; [reflexivity|]. right. split; [right; discriminate|].
        split; [reflexivity|]. right. left. repeat split.
    + split; [reflexivity|]. left. repeat split.
  - destruct (DoNotTrack spec).
    { split; [reflexivity|]. right. split; [left; reflexivity|].
      split; [reflexivity|]. left. repeat split. }
    destruct (StoreAnalytics (GlobalConfig spec) (RealIP env r)).
    + destruct (buildRecord env spec w r errCode (ctxGetAuthToken env r)
                  (RealIP env r) clock) as [[w' r'] rec].
      split; [reflexivity|]. right. split; [left; reflexivity|].
      split; [reflexivity|]. right. right. repeat split.
    + split; [reflexivity|]. right. split; [left; reflexivity|].
      split; [reflexivity|]. right. left. repeat split.
Qed.

(** the fields of the record that [buildRecord] fills from the path, the
    version and the code *)
Lemma buildRecord_fields (w : Http.Header) (r : Request) (errCode : Z)
      (token ip : string) (clock : Clock) :
  let rec := snd (buildRecord env spec w r errCode token ip clock) in
  RawPath rec = fixPath (pathBeforeFix env spec r)
  /\ RecPath rec <> EmptyString
  /\ (TrackPath rec = false -> RecPath rec = RawPath rec)
  /\ APIVersion rec <> EmptyString
  /\ ResponseCode rec = wrap32 errCode
  /\ RawResponse rec = EmptyString.
Proof.
  cbv zeta. split; [apply buildRecord_RawPath|].
  assert (Hfix : forall p, fixPath p <> EmptyString).
  { intros p E. pose proof (HasPrefix_slash p) as H. rewrite E in H. discriminate H. }
  unfold buildRecord.
  repeat (case_match; simplify_eq;
          cbn [snd RecPath RawPath TrackPath APIVersion ResponseCode RawResponse URLPath]);
    repeat split; try discriminate; try apply Hfix;
    repeat match goal with
           | H : (_ =? _)%string = false |- _ => apply String.eqb_neq in H
           | H : negb _ && _ = true |- _ => apply andb_prop in H as [H _]
           | H : negb _ = true |- _ => apply Bool.negb_true_iff in H
           end; assumption.
Qed.

(** the path the request is left with *)
Lemma HandleError_path (w : Http.Header) (r : Request) (errMsg : string)
      (errCode : Z) (writeResponse : bool) (clock : Clock) :
  let out := HandleError env spec w r errMsg errCode writeResponse clock in
  match recorded out with
  | Some rec => finalPath out = RawPath rec
                /\ RawPath rec = fixPath (pathBeforeFix env spec r)
  | None => finalPath out = URLPath r
  end.
Proof.
  intros out.
  destruct (HandleError_cases w r errMsg errCode writeResponse clock)
    as (_ & Hends). fold out in Hends.
  destruct Hends as [(_ & _ & _ & Hr & _ & _ & Hf)
                    | (_ & _ & [(_ & Hr & _ & _ & Hf)
                               | [(_ & _ & Hr & _ & _ & Hf)
                                 | (_ & _ & _ & Hr & _ & Hf)]])];
    rewrite Hr, Hf; try reflexivity.
  rewrite buildRecord_path, buildRecord_RawPath. split; reflexivity.
Qed.

End Handler.

Lemma fixPath_idempotent (path : string) : fixPath (fixPath path) = fixPath path.
Proof. rewrite (fixPath_cases (fixPath path)), HasPrefix_slash. reflexivity. Qed.

Lemma wrap32_range (z : Z) : - 2 ^ 31 <= wrap32 z < 2 ^ 31.
Proof.
  unfold wrap32. pose proof (Z.mod_pos_bound (z + 2 ^ 31) (2 ^ 32)). lia.
Qed.

Lemma wrap32_small (z : Z) : - 2 ^ 31 <= z < 2 ^ 31 -> wrap32 z = z.
Proof. intros H. unfold wrap32. rewrite Z.mod_small by lia. lia. Qed.

(** X17.  What [HandleError] does, by its arguments and the configuration.
    It writes a response exactly when told to.  It ends in the panic of a
    nil template exactly when it is to write and none of the three candidate
    templates is there.  It hands a record to the analytics exactly when it
    does not panic, the API is tracked and analytics are stored for the
    address of the client; it reports the health value exactly when it does
    not panic and the API is tracked. *)
Theorem HandleError_dispatch
        {Template : Type} (env : Collaborators (Template := Template))
        (spec : APISpec) (w : Http.Header) (r : Request) (errMsg : string)
        (errCode : Z) (writeResponse : bool) (clock : Clock) :
  let out := HandleError env spec w r errMsg errCode writeResponse clock in
  let ext := fst (negotiate r) in
  (is_Some (written out) <-> writeResponse = true)
  /\ (panicked out = true <->
      writeResponse = true
      /\ templates env !! ("error_" +:+ Itoa errCode +:+ "." +:+ ext) = None
      /\ templates env !! ("error." +:+ ext) = None
      /\ templates env !! "error.json" = None)
  /\ (is_Some (recorded out) <->
      panicked out = false /\ DoNotTrack spec = false
      /\ StoreAnalytics (GlobalConfig spec) (RealIP env r) = true)
  /\ (healthReported out = true <->
      panicked out = false /\ DoNotTrack spec = false).
Proof.
  intros out ext.
  pose proof (writeErrorResponse_template env spec w r errMsg errCode) as Ht.
  cbv zeta in Ht. fold ext in Ht.
  destruct (HandleError_cases env spec w r errMsg errCode writeResponse clock)
    as (Hwr & Hends). fold out in Hwr, Hends.
  split.
  { rewrite Hwr. destruct writeResponse; split; intros H;
      try reflexivity; try discriminate H; [eexists; reflexivity|].
    destruct H as [x H]. discriminate H. }
  assert (Hnone : wTemplate (writeErrorResponse env spec w r errMsg errCode) = None
                  <-> templates env !! ("error_" +:+ Itoa errCode +:+ "." +:+ ext) = None
                      /\ templates env !! ("error." +:+ ext) = None
                      /\ templates env !! "error.json" = None).
  { rewrite Ht.
    destruct (templates env !! ("error_" +:+ Itoa errCode +:+ "." +:+ ext));
      [split; [discriminate | intros [C _]; discriminate C]|].
    destruct (templates env !! ("error." +:+ ext));
      [split; [discriminate | intros (_ & C & _); discriminate C]|].
    tauto. }
  destruct Hends as [(Hw & Hn & Hp & Hr & Hh & _)
                    | (Hw & Hp & [(Hd & Hr & Hh & _)
                                 | [(Hd & Hs & Hr & Hh & _)
                                   | (Hd & Hs & Hh & Hr & _)]])];
    rewrite Hp, ?Hr, Hh; clear Ht.
  - split; [split; [intros _; split; [exact Hw | apply Hnone, Hn] | reflexivity]|].
    split; split; try (intros [C _]; discriminate C); try discriminate.
    intros [x C]. discriminate C.
  - split; [split; [discriminate|]|].
    { intros (Ew & Hx). destruct Hw as [C|C]; [congruence|].
      exfalso. apply C, Hnone, Hx. }
    split; split; try discriminate.
    + intros [x C]. discriminate C.
    + intros (_ & C & _). congruence.
    + intros (_ & C). congruence.
  - split; [split; [discriminate|]|].
    { intros (Ew & Hx). destruct Hw as [C|C]; [congruence|].
      exfalso. apply C, Hnone, Hx. }
    split; split; try discriminate; auto.
    + intros [x C]. discriminate C.
    + intros (_ & _ & C). congruence.
  - split; [split; [discriminate|]|].
    { intros (Ew & Hx). destruct Hw as [C|C]; [congruence|].
      exfalso. apply C, Hnone, Hx. }
    split; split; auto.
Qed.

(** X18.  The record that reaches the analytics, the path the request is
    left with and the health report do not depend on the response: two
    calls for the same request, code and readings of the clock that do not
    panic record the same, whatever the header map of the response, the
    message and the flag to write. *)
Theorem recording_ignores_response
        {Template : Type} (env : Collaborators (Template := Template))
        (spec : APISpec) (w w' : Http.Header) (r : Request)
        (errMsg errMsg' : string) (errCode : Z)
        (writeResponse writeResponse' : bool) (clock : Clock) :
  let out := HandleError env spec w r errMsg errCode writeResponse clock in
  let out' := HandleError env spec w' r errMsg' errCode writeResponse' clock in
  panicked out = false -> panicked out' = false ->
  recorded out = recorded out'
  /\ finalPath out = finalPath out'
  /\ healthReported out = healthReported out'.
Proof.
  intros out out' Hp Hp'.
  destruct (HandleError_cases env spec w r errMsg errCode writeResponse clock)
    as (_ & Hends). fold out in Hends.
  destruct (HandleError_cases env spec w' r errMsg' errCode writeResponse' clock)
    as (_ & Hends'). fold out' in Hends'.
  destruct Hends as [(_ & _ & C & _) | (_ & _ & Hends)]; [congruence|].
  destruct Hends' as [(_ & _ & C & _) | (_ & _ & Hends')]; [congruence|].
  destruct Hends as [(Hd & Hr & Hh & _ & Hf)
                    | [(Hd & Hs & Hr & Hh & _ & Hf)
                      | (Hd & Hs & Hh & Hr & _ & Hf)]];
    destruct Hends' as [(Hd' & Hr' & Hh' & _ & Hf')
                       | [(Hd' & Hs' & Hr' & Hh' & _ & Hf')
                         | (Hd' & Hs' & Hh' & Hr' & _ & Hf')]];
    try congruence;
    rewrite Hr, Hr', Hf, Hf', Hh, Hh'; try (repeat split; fail).
  match goal with
  | |- Some (snd (buildRecord _ _ ?a _ _ _ _ _)) = Some (snd (buildRecord _ _ ?b _ _ _ _ _)) /\ _ =>
      destruct (buildRecord_header env spec a b r errCode (ctxGetAuthToken env r)
                  (RealIP env r) clock) as [-> ->]
  end.
  repeat split.
Qed.

Lemma recording_ignores_response_witness :
  recorded (HandleError (Samples.collaborators ["error.json"] 0)
              (Samples.trackedSpec 3600 false) ∅
              (Samples.requestFor "/foo/bar" "application/json")
              "not found" 404 true Samples.clock)
  = recorded (HandleError (Samples.collaborators ["error.json"] 0)
                (Samples.trackedSpec 3600 false) {[ "Vary" := ["Accept"] ]}
                (Samples.requestFor "/foo/bar" "application/json")
                "gone" 404 false Samples.clock).
Proof.
  exact (proj1 (recording_ignores_response
                  (Samples.collaborators ["error.json"] 0)
                  (Samples.trackedSpec 3600 false) ∅ {[ "Vary" := ["Accept"] ]}
                  (Samples.requestFor "/foo/bar" "application/json")
                  "not found" "gone" 404 true false Samples.clock
                  eq_refl eq_refl)).
Defined.

(** X19.  What the written response carries besides the status and the
    content type: the message after [JSEscapeString]; the value [tyk.io]
    under the generator header unless the configuration hides it; the value
    [close] under [Connection] when connections are to be closed.  No other
    key of the header map changes, and with the generator hidden and
    connections kept open only [Content-Type] does. *)
Theorem response_header_footprint
        {Template : Type} (env : Collaborators (Template := Template))
        (spec : APISpec) (w : Http.Header) (r : Request) (errMsg : string)
        (errCode : Z) (clock : Clock) :
  let out := HandleError env spec w r errMsg errCode true clock in
  let hidden := HideGeneratorHeader (GlobalConfig spec) in
  let closing := CloseConnections (GlobalConfig spec) in
  exists wr,
    written out = Some wr
    /\ wMessage wr = JSEscapeString env errMsg
    /\ (hidden = false -> In "tyk.io" (default [] (wHeader wr !! XGenerator env)))
    /\ (closing = true -> In "close" (default [] (wHeader wr !! Connection env)))
    /\ (forall key, key <> ContentType ->
                    (hidden = true \/ key <> XGenerator env) ->
                    (closing = false \/ key <> Connection env) ->
                    wHeader wr !! key = w !! key).
Proof.
  intros out hidden closing.
  exists (writeErrorResponse env spec w r errMsg errCode).
  split; [apply written_writeErrorResponse|].
  unfold writeErrorResponse. fold hidden closing.
  destruct (negotiate r) as [ext ct].
  cbv zeta.
  set (pick := match templates env !! ("error_" +:+ Itoa errCode +:+ "." +:+ ext) with
               | Some _ => _ | None => _ end).
  destruct pick as [name1 tmpl1].
  set (w0 := Http.Set' w ContentType ct).
  set (pick2 := match tmpl1 with Some _ => _ | None => _ end).
  assert (Hw : exists ct', snd pick2 = Http.Set' w ContentType ct').
  { subst pick2. destruct tmpl1; cbn [snd].
    - exists ct. reflexivity.
    - exists defaultContentType. unfold w0, Http.Set'.
      rewrite insert_insert_eq. reflexivity. }
  destruct pick2 as [[name2 tmpl2] w2]. cbn [snd] in Hw. destruct Hw as [ct' ->].
  cbn [wMessage wHeader]. split; [reflexivity|].
  unfold Http.Add, Http.Set'.
  split; [|split].
  - intros ->. cbn [negb].
    destruct closing.
    + destruct (decide (Connection env = XGenerator env)) as [E|N].
      * rewrite E, !lookup_insert_eq. cbn [default from_option id]. rewrite !in_app_iff.
        left. right. left. reflexivity.
      * rewrite lookup_insert_ne by exact N. rewrite lookup_insert_eq.
        cbn [default from_option id]. rewrite in_app_iff. right. left. reflexivity.
    + rewrite lookup_insert_eq. cbn [default from_option id]. rewrite in_app_iff.
      right. left. reflexivity.
  - intros ->. rewrite lookup_insert_eq. cbn [default from_option id]. rewrite in_app_iff.
    right. left. reflexivity.
  - intros key Hc Hg Hk.
    destruct closing.
    + destruct Hk as [C|Hk]; [discriminate C|].
      rewrite lookup_insert_ne by congruence.
      destruct hidden; cbn [negb].
      * rewrite lookup_insert_ne by congruence. reflexivity.
      * destruct Hg as [C|Hg]; [discriminate C|].
        rewrite !lookup_insert_ne by congruence. reflexivity.
    + destruct hidden; cbn [negb].
      * rewrite lookup_insert_ne by congruence. reflexivity.
      * destruct Hg as [C|Hg]; [discriminate C|].
        rewrite !lookup_insert_ne by congruence. reflexivity.
Qed.

(** X20.  [HandleError] changes the path of the request only on the way to
    the analytics: when no record is written the request keeps its path, and
    when one is written the request is left with the raw path of the record,
    which starts with a slash. *)
Theorem request_path_after_HandleError
        {Template : Type} (env : Collaborators (Template := Template))
        (spec : APISpec) (w : Http.Header) (r : Request) (errMsg : string)
        (errCode : Z) (writeResponse : bool) (clock : Clock) :
  let out := HandleError env spec w r errMsg errCode writeResponse clock in
  (recorded out = None -> finalPath out = URLPath r)
  /\ (forall rec, recorded out = Some rec ->
                  finalPath out = RawPath rec
                  /\ HasPrefix (finalPath out) "/" = true).
Proof.
  intros out.
  pose proof (HandleError_path env spec w r errMsg errCode writeResponse clock) as H.
  cbv zeta in H. fold out in H.
  split.
  - intros E. rewrite E in H. exact H.
  - intros rec E. rewrite E in H. destruct H as [Hf Hr].
    split; [exact Hf|]. rewrite Hf, Hr. apply HasPrefix_slash.
Qed.

(** X21.  Handling a request twice records the same raw path: when the
    listen path is not stripped, the path that the first call leaves in the
    request is a fixed point of the analytics path, whatever the response,
    the code and the clock of the second call. *)
Theorem second_handling_keeps_raw_path
        {Template : Type} (env : Collaborators (Template := Template))
        (spec : APISpec) (w w' : Http.Header) (r : Request)
        (errMsg errMsg' : string) (errCode errCode' : Z)
        (writeResponse writeResponse' : bool) (clock clock' : Clock)
        (rec rec' : AnalyticsRecord) :
  let out := HandleError env spec w r errMsg errCode writeResponse clock in
  let r' := mkRequest (ReqHeader r) (ReqBody r) (Method r) (finalPath out)
                      (URLHost r) (ContentLength r) in
  let out' := HandleError env spec w' r' errMsg' errCode' writeResponse' clock' in
  ProxyStripListenPath spec = false ->
  recorded out = Some rec -> recorded out' = Some rec' ->
  RawPath rec' = RawPath rec /\ finalPath out' = finalPath out.
Proof.
  intros out r' out' Hstrip Hrec Hrec'.
  pose proof (HandleError_path env spec w r errMsg errCode writeResponse clock) as H.
  pose proof (HandleError_path env spec w' r' errMsg' errCode' writeResponse' clock') as H'.
  cbv zeta in H, H'. fold out in H. fold out' in H'.
  rewrite Hrec in H. rewrite Hrec' in H'.
  destruct H as [Hf Hr]. destruct H' as [Hf' Hr'].
  unfold pathBeforeFix in Hr, Hr'. rewrite Hstrip in Hr, Hr'.
  assert (E : RawPath rec' = RawPath rec).
  { rewrite Hr'. unfold r'. cbn [URLPath]. rewrite Hf, Hr.
    apply fixPath_idempotent. }
  split; [exact E|]. rewrite Hf', Hf. exact E.
Qed.

Lemma second_handling_keeps_raw_path_witness :
  exists rec rec',
    recorded (HandleError (Samples.collaborators ["error.json"] 0)
                (Samples.trackedSpec 3600 false) ∅
                (Samples.requestFor "foo/bar" "application/json")
                "not found" 404 true Samples.clock) = Some rec
    /\ recorded (HandleError (Samples.collaborators ["error.json"] 0)
                   (Samples.trackedSpec 3600 false) ∅
                   (Samples.requestFor "/foo/bar" "application/json")
                   "forbidden" 403 false Samples.clock) = Some rec'
    /\ RawPath rec' = RawPath rec.
Proof.
  eexists _, _.
  split; [reflexivity|]. split; [reflexivity|].
  exact (proj1 (second_handling_keeps_raw_path
                  (Samples.collaborators ["error.json"] 0)
                  (Samples.trackedSpec 3600 false) ∅ ∅
                  (Samples.requestFor "foo/bar" "application/json")
                  "not found" "forbidden" 404 403 true false
                  Samples.clock Samples.clock _ _
                  eq_refl eq_refl eq_refl)).
Defined.

(** X22.  Every record that [HandleError] hands to the analytics is well
    formed: its raw path starts with a slash, its path and its version are
    not empty, its path is the raw path unless a tracked path is recorded,
    its response code is an [int32] (the code itself when that fits one),
    and it carries no raw response. *)
Theorem recorded_is_well_formed
        {Template : Type} (env : Collaborators (Template := Template))
        (spec : APISpec) (w : Http.Header) (r : Request) (errMsg : string)
        (errCode : Z) (writeResponse : bool) (clock : Clock)
        (rec : AnalyticsRecord) :
  recorded (HandleError env spec w r errMsg errCode writeResponse clock) = Some rec ->
  HasPrefix (RawPath rec) "/" = true
  /\ RecPath rec <> EmptyString
  /\ (TrackPath rec = false -> RecPath rec = RawPath rec)
  /\ APIVersion rec <> EmptyString
  /\ - 2 ^ 31 <= ResponseCode rec < 2 ^ 31
  /\ (- 2 ^ 31 <= errCode < 2 ^ 31 -> ResponseCode rec = errCode)
  /\ RawResponse rec = EmptyString.
Proof.
  intros Hrec.
  destruct (recorded_buildRecord env spec _ _ _ _ _ _ _ Hrec) as (w' & token & ip & ->).
  destruct (buildRecord_fields env spec w' r errCode token ip clock)
    as (Hraw & Hpath & Htrack & Hver & Hcode & Hresp).
  rewrite Hraw, Hcode.
  split; [apply HasPrefix_slash|].
  split; [exact Hpath|].
  split; [rewrite <- Hraw; exact Htrack|].
  split; [exact Hver|].
  split; [apply wrap32_range|].
  split; [apply wrap32_small | exact Hresp].
Qed.

Lemma recorded_is_well_formed_witness :
  exists rec,
    recorded (HandleError (Samples.collaborators ["error.json"] 0)
                (Samples.trackedSpec 3600 false) ∅
                (Samples.requestFor "foo/bar" "application/json")
                "not found" 404 true Samples.clock) = Some rec
    /\ RecPath rec <> EmptyString.
Proof.
  eexists. split; [reflexivity|].
  exact (proj1 (proj2 (recorded_is_well_formed
                         (Samples.collaborators ["error.json"] 0)
                         (Samples.trackedSpec 3600 false) ∅
                         (Samples.requestFor "foo/bar" "application/json")
                         "not found" 404 true Samples.clock _ eq_refl))).
Defined.

(** X23.  The retention is multiplied by [time.Second] in an [int64]: a
    retention from 9223372037 to 18446744072 seconds overflows to a negative
    duration, and the record expires before the instant at which it is
    written. *)
Theorem retention_overflow_expires_in_the_past
        {Template : Type} (env : Collaborators (Template := Template))
        (spec : APISpec) (w : Http.Header) (r : Request) (errMsg : string)
        (errCode : Z) (writeResponse : bool) (clock : Clock)
        (rec : AnalyticsRecord) :
  recorded (HandleError env spec w r errMsg errCode writeResponse clock) = Some rec ->
  9223372037 <= expiresAfter env spec <= 18446744072 ->
  ExpireAt rec < GoTime.Unix (nowExpiry clock).
Proof.
  intros Hrec Hrange.
  destruct (recorded_buildRecord env spec _ _ _ _ _ _ _ Hrec) as (w' & token & ip & ->).
  rewrite buildRecord_ExpireAt. unfold calcExpiry.
  set (n := expiresAfter env spec) in *.
  destruct (Z.eqb_spec n 0) as [E|_]; [lia|].
  assert (Hd : GoTime.mul n GoTime.Second = n * 1000000000 - 2 ^ 64).
  { unfold GoTime.mul, GoTime.wrap64, GoTime.Second.
    change (2 ^ 63) with 9223372036854775808.
    change (2 ^ 64) with 18446744073709551616.
    replace (n * 1000000000 + 9223372036854775808)
      with ((n * 1000000000 - 9223372036854775808) + 1 * 18446744073709551616) by lia.
    rewrite Z.mod_add by discriminate.
    rewrite Z.mod_small by lia. lia. }
  rewrite Hd. change (2 ^ 64) with 18446744073709551616.
  unfold GoTime.Unix, GoTime.Add.
  set (now := nowExpiry clock).
  apply Z.div_lt_upper_bound; [reflexivity|].
  pose proof (Z.mul_div_le now 1000000000 ltac:(reflexivity)).
  pose proof (Z.mod_pos_bound now 1000000000 ltac:(reflexivity)).
  pose proof (Z.div_mod now 1000000000 ltac:(discriminate)).
  lia.
Qed.

Lemma retention_overflow_expires_in_the_past_witness :
  exists rec,
    recorded (HandleError (Samples.collaborators ["error.json"] 0)
                (Samples.trackedSpec 9223372037 false) ∅
                (Samples.requestFor "/foo/bar" "application/json")
                "not found" 404 true Samples.clock) = Some rec
    /\ ExpireAt rec < GoTime.Unix (nowExpiry Samples.clock).
Proof.
  eexists. split; [reflexivity|].
  apply (retention_overflow_expires_in_the_past
           (Samples.collaborators ["error.json"] 0)
           (Samples.trackedSpec 9223372037 false) ∅
           (Samples.requestFor "/foo/bar" "application/json")
           "not found" 404 true Samples.clock _ eq_refl).
  vm_compute. split; discriminate.
Defined.

End HandlerProperties.
